(** * Benchmark harness of Tunai-scrapers: supervisor and quality metrics

    A shallow embedding of [src/benchmarks/metrics.py],
    [src/benchmarks/quality_metrics.py], [src/benchmarks/enhanced_metrics.py]
    and of the supervising half of [src/benchmarks/runner.py], followed by the
    properties the specification states about them.

    Conventions.
    - Python [int] is [Z]; a Python [float] that results from true division
      or from a clock is the rational it denotes ([Q]).
    - A Python [str] is a Rocq [string], one [ascii] per character.
    - A [dict] read only through [in], [[]] and [.get] is a [gmap]; a [dict]
      whose insertion order is observable is an association list.
    - Code that may raise returns [result]; [json.loads], [str.encode],
      [hashlib.md5], [str] and [urlparse] come from Python's library and are
      variables of the sections that use them.
    - The analyzers are annotated for records that are JSON objects and are
      given first on those ([JsonItem]); [json.loads] keeps a value of any
      type, so each analyzer is given again on arbitrary values (names in
      [_any]), as [calculate_all_metrics] runs it. *)

From Stdlib Require Import QArith Qcanon Lqa Ascii String.
From stdpp Require Import gmap strings list fin_maps fin_sets sorting countable pretty.

#[local] Set Warnings "-register-all,-clear-no-such-hyp".
#[local] Open Scope Z_scope.

(** ** Python values *)

Module Py.

(** What [json.loads] can return.  [JFloat] carries the exact value of a
    finite double; [NaN] and the infinities are outside JSON proper. *)
Inductive json :=
  | JNull
  | JBool (b : bool)
  | JInt (z : Z)
  | JFloat (q : Q)
  | JStr (s : string)
  | JArr (l : list json)
  | JObj (m : gmap string json).

(** [JsonItem = dict[str, Any]] *)
Abbreviation JsonItem := (gmap string json).

(** [bool(v)] *)
Definition truthy (v : json) : bool :=
  match v with
  | JNull => false
  | JBool b => b
  | JInt z => negb (z =? 0)
  | JFloat q => negb (Qeq_bool q 0)
  | JStr s => negb (String.eqb s "")
  | JArr l => match l with [] => false | _ => true end
  | JObj m => negb (bool_decide (m = ∅))
  end.

(** [a or b] *)
Definition py_or (a b : json) : json := if truthy a then a else b.

(** [d.get(k)] and [d.get(k, dflt)] *)
Definition get (d : JsonItem) (k : string) : json := default JNull (d !! k).
Definition get_or (d : JsonItem) (k : string) (dflt : json) : json :=
  default dflt (d !! k).

(** [k in d] *)
Definition has (d : JsonItem) (k : string) : bool := bool_decide (is_Some (d !! k)).

(** [v is None] *)
Definition is_none (v : json) : bool :=
  match v with JNull => true | _ => false end.

(** [isinstance(v, str)] *)
Definition is_str (v : json) : bool :=
  match v with JStr _ => true | _ => false end.

(** The exceptions the modelled code can meet. *)
Inductive exn :=
  | TypeError | AttributeError | ValueError | IndexError | OSError | RuntimeError
  | KeyError | RecursionError | UnicodeDecodeError | UnicodeEncodeError.

Inductive result (A : Type) :=
  | Ok (a : A)
  | Raise (e : exn).
Arguments Ok {A} a.
Arguments Raise {A} e.

#[global] Instance result_ret : MRet result := fun _ a => Ok a.
#[global] Instance result_bind : MBind result := fun _ _ f m =>
  match m with Ok a => f a | Raise e => Raise e end.

#[global] Instance result_fmap : FMap result := fun _ _ f m =>
  match m with Ok a => Ok (f a) | Raise e => Raise e end.

Definition is_ok {A} (r : result A) : bool :=
  match r with Ok _ => true | Raise _ => false end.

(** A [for] loop whose body may raise: the state is threaded from left to
    right and the first exception leaves the loop. *)
Fixpoint for_each {S A} (body : S → A → result S) (st : S) (l : list A) : result S :=
  match l with
  | [] => Ok st
  | x :: l' => st' ← body st x; for_each body st' l'
  end.

(** Equality and hashing of the values that can be a set member or a
    dictionary key: [None], and numbers compared by value ([True == 1 ==
    1.0]), and strings.  Lists and dicts are unhashable. *)
Inductive key :=
  | KNone
  | KNum (q : Qc)
  | KStr (s : string).

#[global] Instance key_eq_dec : EqDecision key.
Proof. solve_decision. Defined.

#[global] Instance key_countable : Countable key.
Proof.
  refine (inj_countable'
    (λ k, match k with
          | KNone => inl (inl ())
          | KNum q => inl (inr q)
          | KStr s => inr s
          end)
    (λ x, match x with
          | inl (inl ()) => KNone
          | inl (inr q) => KNum q
          | inr s => KStr s
          end) _).
  by intros [].
Defined.

(** [hash(v)]: the key under which [v] is stored, or [TypeError:
    unhashable type]. *)
Definition hash_key (v : json) : result key :=
  match v with
  | JNull => Ok KNone
  | JBool b => Ok (KNum (Q2Qc (if b then 1 else 0)))
  | JInt z => Ok (KNum (Q2Qc (inject_Z z)))
  | JFloat q => Ok (KNum (Q2Qc q))
  | JStr s => Ok (KStr s)
  | JArr _ | JObj _ => Raise TypeError
  end.

(** [len(s)] *)
Definition len (s : string) : Z := Z.of_nat (String.length s).

(** [needle in s] on strings *)
Definition contains (needle s : string) : bool :=
  bool_decide (is_Some (String.index 0 needle s)).

(** [c.isspace()] for the characters [str.strip()] removes. *)
Definition isspace (c : ascii) : bool :=
  let n := nat_of_ascii c in
  ((9 <=? n) && (n <=? 13) || (28 <=? n) && (n <=? 32)
   || (n =? 133) || (n =? 160))%nat.

(** [bool(s.strip())]: some character of [s] is not white space. *)
Fixpoint strip_nonempty (s : string) : bool :=
  match s with
  | EmptyString => false
  | String c s' => negb (isspace c) || strip_nonempty s'
  end.

(** The longest prefix of [s] whose characters all satisfy [f], and [s]
    without its first [n] characters ([s[n:]]). *)
Fixpoint take_while (f : ascii → bool) (s : string) : string :=
  match s with
  | String c s' => if f c then String c (take_while f s') else ""
  | EmptyString => ""
  end.

Fixpoint drop (n : nat) (s : string) : string :=
  match n, s with
  | S n', String _ s' => drop n' s'
  | _, _ => s
  end.

(** [s.split(sep)] for a non-empty [sep]: [skip] counts the characters of a
    separator just matched that are still to be passed over. *)
Fixpoint split_go (sep : string) (skip : nat) (cur s : string) : list string :=
  match s with
  | EmptyString => [cur]
  | String c s' =>
      match skip with
      | S n => split_go sep n cur s'
      | O =>
          if String.prefix sep s
          then cur :: split_go sep (String.length sep - 1) "" s'
          else split_go sep 0 (cur +:+ String c "") s'
      end
  end.
Definition split (sep s : string) : list string := split_go sep 0 "" s.

(** [needle in v] for a string [needle]: substring of a [str], element of
    a [list], key of a [dict]; other values are not iterable. *)
Definition py_in (needle : string) (v : json) : result bool :=
  match v with
  | JStr s => Ok (contains needle s)
  | JArr l => Ok (existsb (λ x, match x with
                                | JStr s => String.eqb s needle
                                | _ => false
                                end) l)
  | JObj m => Ok (has m needle)
  | _ => Raise TypeError
  end.

(** [item[field]] for a string [field]: a key of a [dict]; a [str] or a
    [list] takes integers only, and other values have no subscript. *)
Definition item_at (item : json) (field : string) : result json :=
  match item with
  | JObj m => match m !! field with Some v => Ok v | None => Raise KeyError end
  | _ => Raise TypeError
  end.

(** [item.get(field, dflt)]: only a [dict] has the method. *)
Definition item_get (item : json) (field : string) (dflt : json) : result json :=
  match item with
  | JObj m => Ok (get_or m field dflt)
  | _ => Raise AttributeError
  end.

(** [isinstance(v, dict)], and the dict itself. *)
Definition is_obj (v : json) : bool :=
  match v with JObj _ => true | _ => false end.
Definition as_obj (v : json) : option JsonItem :=
  match v with JObj m => Some m | _ => None end.

(** [l[i]] *)
Definition index {A} (l : list A) (i : nat) : result A :=
  match l !! i with Some x => Ok x | None => Raise IndexError end.

(** [a / b] on integers (true division), for [b ≠ 0]. *)
Definition truediv (a b : Z) : Q := inject_Z a / inject_Z b.

End Py.
Import Py.

(** ** Python's library, as far as the harness calls it *)

(** What [json.loads(line)] does: it returns a value of any JSON type, or
    rejects the line with [json.JSONDecodeError], or raises something else
    ([ValueError] on an integer literal beyond the digit limit,
    [RecursionError] on deep nesting). *)
Inductive loads_result :=
  | Loaded (v : json)
  | JSONDecodeError
  | LoadsError (e : exn).

Class PyLib := {
  (** [json.loads(line)] *)
  json_loads : string → loads_result;
  (** [text.encode()]: the UTF-8 bytes of a [str], or [UnicodeEncodeError]
      when the text holds a lone surrogate, as [json.loads] can yield. *)
  str_encode : string → result string;
  (** [hashlib.md5(b).hexdigest()] *)
  md5_hexdigest : string → string;
  (** [str(v)] *)
  py_str : json → string;
  py_str_str : ∀ s, py_str (JStr s) = s;
  (** [urlparse(url).netloc]; [urlparse] raises [ValueError] on some texts. *)
  urlparse_netloc : string → result string;
}.

(** Insertion-ordered dictionaries ([defaultdict(int)], [Counter]). *)
Module Dict.

Fixpoint incr {K} `{EqDecision K} (k : K) (d : list (K * Z)) : list (K * Z) :=
  match d with
  | [] => [(k, 1)]
  | (k', n) :: d' => if decide (k = k') then (k', n + 1) :: d' else (k', n) :: incr k d'
  end.

(** [Counter(l)]: one increment per element, left to right. *)
Definition counter {K} `{EqDecision K} (l : list K) : list (K * Z) :=
  foldl (λ d k, incr k d) [] l.

Definition values {K} (d : list (K * Z)) : list Z := d.*2.

(** [Counter(l)] where only the counts are read, not their order. *)
Definition Counter `{Countable K} (l : list K) : gmap K Z :=
  foldl (λ m k, <[k := default 0 (m !! k) + 1]> m) ∅ l.

(** [sum(l)], and [max(l)] and [min(l)] for a non-empty [l]. *)
Definition sum (l : list Z) : Z := foldr Z.add 0 l.
Definition maximum (l : list Z) : Z :=
  match l with [] => 0 | x :: l' => foldl Z.max x l' end.
Definition minimum (l : list Z) : Z :=
  match l with [] => 0 | x :: l' => foldl Z.min x l' end.

(** [sorted(d.items(), key=lambda x: x[1], reverse=True)]: stable, so equal
    counts keep their insertion order. *)
Fixpoint insert_desc {K} (x : K * Z) (l : list (K * Z)) : list (K * Z) :=
  match l with
  | [] => [x]
  | y :: l' => if x.2 <=? y.2 then y :: insert_desc x l' else x :: y :: l'
  end.
Definition sorted_desc {K} (d : list (K * Z)) : list (K * Z) :=
  foldl (λ acc x, insert_desc x acc) [] d.

End Dict.

(** ** [enhanced_metrics.py] *)

Module Enhanced.

Record DuplicationMetrics := {
  total_posts : Z;
  unique_post_ids : Z;
  unique_content_hashes : Z;
  duplicate_count : Z;
  duplication_rate : Q;
  id_duplication_rate : Q;
  content_duplication_rate : Q;
  duplicate_id_count : Z;
  max_duplications : Z;
}.

Record AuthorMetrics := {
  posts_with_authors : Z;
  posts_without_authors : Z;
  author_coverage_rate : Q;
  unique_authors : Z;
  avg_posts_per_author : Q;
}.

Record CrawlMetrics := {
  unique_threads : Z;
  unique_pages : Z;
  avg_thread_depth : Q;
  min_thread_depth : Z;
  max_thread_depth : Z;
}.

Record AllMetrics := {
  duplication : DuplicationMetrics;
  authors : AuthorMetrics;
  crawl : CrawlMetrics;
}.

(** The locals of [analyze_duplication]'s loop.  [post_ids] holds each id
    by its hash key: only [set] and [Counter] read the list. *)
Record dup_state := {
  post_ids : list key;
  content_hashes : list string;
  dup_count : Z;
  unique_posts : gset string;
  posts_by_id : gmap key (list JsonItem);
}.

Definition dup_init : dup_state :=
  {| post_ids := []; content_hashes := []; dup_count := 0;
     unique_posts := ∅; posts_by_id := ∅ |}.

Section analyzers.
Context `{PyLib}.

(** [text.encode()]: only a [str] has the method, and not every [str] can
    be encoded. *)
Definition encode (v : json) : result string :=
  match v with JStr s => str_encode s | _ => Raise AttributeError end.

Definition dup_body (st : dup_state) (item : JsonItem) : result dup_state :=
  let post_id := py_or (get item "post_id") (get item "id") in
  st ← (if truthy post_id then
          k ← hash_key post_id;
          Ok {| post_ids := post_ids st ++ [k];
                content_hashes := content_hashes st;
                dup_count := dup_count st;
                unique_posts := unique_posts st;
                posts_by_id :=
                  <[k := default [] (posts_by_id st !! k) ++ [item]]> (posts_by_id st) |}
        else Ok st);
  let text := get_or item "text" (JStr "") in
  if truthy text then
    s ← encode text;
    let content_hash := md5_hexdigest s in
    let seen := bool_decide (content_hash ∈ unique_posts st) in
    Ok {| post_ids := post_ids st;
          content_hashes := content_hashes st ++ [content_hash];
          dup_count := if seen then dup_count st + 1 else dup_count st;
          unique_posts := if seen then unique_posts st
                          else unique_posts st ∪ {[content_hash]};
          posts_by_id := posts_by_id st |}
  else Ok st.

Definition dup_report (st : dup_state) : DuplicationMetrics :=
  let total_posts := Z.of_nat (length (post_ids st)) in
  let unique_post_ids := Z.of_nat (size (list_to_set (C:=gset key) (post_ids st))) in
  let unique_content := Z.of_nat (size (unique_posts st)) in
  let counts := Dict.Counter (post_ids st) in
  let duplicate_ids := filter (λ kc, 1 < kc.2) counts in
  {| total_posts := total_posts;
     unique_post_ids := unique_post_ids;
     unique_content_hashes := unique_content;
     duplicate_count := dup_count st;
     duplication_rate :=
       if 0 <? total_posts then truediv (dup_count st) total_posts else 0%Q;
     id_duplication_rate :=
       if 0 <? total_posts then truediv (total_posts - unique_post_ids) total_posts
       else 0%Q;
     content_duplication_rate :=
       if 0 <? total_posts then truediv (total_posts - unique_content) total_posts
       else 0%Q;
     duplicate_id_count := Z.of_nat (size duplicate_ids);
     max_duplications :=
       match post_ids st with
       | [] => 0
       | _ => Dict.maximum ((map_to_list counts).*2)
       end |}.

Definition analyze_duplication (items : list JsonItem) : result DuplicationMetrics :=
  st ← for_each dup_body dup_init items;
  Ok (dup_report st).

(** The locals of [analyze_author_coverage]'s loop. *)
Record author_state := {
  with_authors : Z;
  author_set : gset key;
  null_authors : Z;
  author_post_counts : gmap key Z;
}.

Definition author_init : author_state :=
  {| with_authors := 0; author_set := ∅; null_authors := 0; author_post_counts := ∅ |}.

Definition author_body (st : author_state) (item : JsonItem) : result author_state :=
  match get item "author" with
  | JNull =>
      Ok {| with_authors := with_authors st; author_set := author_set st;
            null_authors := null_authors st + 1;
            author_post_counts := author_post_counts st |}
  | author =>
      k ← hash_key author;
      Ok {| with_authors := with_authors st + 1;
            author_set := author_set st ∪ {[k]};
            null_authors := null_authors st;
            author_post_counts :=
              <[k := default 0 (author_post_counts st !! k) + 1]>
                (author_post_counts st) |}
  end.

Definition author_report (total : Z) (st : author_state) : AuthorMetrics :=
  {| posts_with_authors := with_authors st;
     posts_without_authors := null_authors st;
     author_coverage_rate :=
       if 0 <? total then truediv (with_authors st) total else 0%Q;
     unique_authors := Z.of_nat (size (author_set st));
     avg_posts_per_author :=
       if bool_decide (author_set st = ∅) then 0%Q
       else truediv (with_authors st) (Z.of_nat (size (author_set st))) |}.

Definition analyze_author_coverage (items : list JsonItem) : result AuthorMetrics :=
  st ← for_each author_body author_init items;
  Ok (author_report (Z.of_nat (length items)) st).

(** What one record contributes to [analyze_duplication]: the key of its
    post id and the digest of its text, where it has them. *)
Definition dup_view (item : JsonItem) : result (option key * option string) :=
  let post_id := py_or (get item "post_id") (get item "id") in
  id ← (if truthy post_id then Some <$> hash_key post_id else Ok None);
  let text := get_or item "text" (JStr "") in
  if truthy text then s ← encode text; Ok (id, Some (md5_hexdigest s))
  else Ok (id, None).

(** What one record contributes to [analyze_author_coverage]: the key of
    its author, unless that is [None]. *)
Definition author_view (item : JsonItem) : result (option key) :=
  match get item "author" with
  | JNull => Ok None
  | author => Some <$> hash_key author
  end.

(** The loop keeps [unique_posts] the set of the digests seen, and
    [duplicate_count] the number of digests seen beyond the first of each
    kind. *)
Definition dup_inv (st : dup_state) : Prop :=
  unique_posts st = list_to_set (content_hashes st) ∧
  dup_count st = Z.of_nat (length (content_hashes st)) - Z.of_nat (size (unique_posts st)).

(** The report [analyze_duplication] makes of the ids and digests. *)
Definition dup_summary (ids : list key) (hashes : list string) : DuplicationMetrics :=
  dup_report {| post_ids := ids; content_hashes := hashes;
                dup_count := Z.of_nat (length hashes)
                             - Z.of_nat (size (list_to_set (C:=gset string) hashes));
                unique_posts := list_to_set hashes; posts_by_id := ∅ |}.

(** [threads[thread_id].append(item)] on a [defaultdict(list)] *)
Fixpoint group_append (k : string) (item : JsonItem)
    (d : list (string * list JsonItem)) : list (string * list JsonItem) :=
  match d with
  | [] => [(k, [item])]
  | (k', l) :: d' =>
      if decide (k = k') then (k', l ++ [item]) :: d'
      else (k', l) :: group_append k item d'
  end.

(** [thread_url.split("/threads/")[1].split("/")[0]] *)
Definition crawl_thread_id (thread_url : json) : result string :=
  match thread_url with
  | JStr s =>
      rest ← index (split "/threads/" s) 1;
      index (split "/" rest) 0
  | _ => Raise AttributeError
  end.

Definition crawl_body (st : list (string * list JsonItem) * gset key)
    (item : JsonItem) : result (list (string * list JsonItem) * gset key) :=
  let '(threads, pages) := st in
  let thread_url := py_or (get item "thread_url") (get_or item "url" (JStr "")) in
  is_thread ← py_in "/threads/" thread_url;
  threads ← (if is_thread : bool then
               thread_id ← crawl_thread_id thread_url;
               Ok (group_append thread_id item threads)
             else Ok threads);
  let url := get_or item "url" (JStr "") in
  if truthy url then
    k ← hash_key url;
    Ok (threads, pages ∪ {[k]})
  else Ok (threads, pages).

Definition crawl_report (st : list (string * list JsonItem) * gset key) : CrawlMetrics :=
  let '(threads, pages) := st in
  let thread_depths := (λ kv, Z.of_nat (length kv.2)) <$> threads in
  {| unique_threads := Z.of_nat (length threads);
     unique_pages := Z.of_nat (size pages);
     avg_thread_depth :=
       match thread_depths with
       | [] => 0%Q
       | _ => truediv (Dict.sum thread_depths) (Z.of_nat (length thread_depths))
       end;
     min_thread_depth := Dict.minimum thread_depths;
     max_thread_depth := Dict.maximum thread_depths |}.

Definition analyze_crawl_behavior (items : list JsonItem) : result CrawlMetrics :=
  st ← for_each crawl_body ([], ∅) items;
  Ok (crawl_report st).

(** [{}] for no items, else the three blocks. *)
Definition calculate_all_metrics (items : list JsonItem) : result (option AllMetrics) :=
  match items with
  | [] => Ok None
  | _ =>
      d ← analyze_duplication items;
      a ← analyze_author_coverage items;
      c ← analyze_crawl_behavior items;
      Ok (Some {| duplication := d; authors := a; crawl := c |})
  end.

(** The three loops read a record through [item.get] only, and before
    anything else: on a value that is not a [dict] the body raises
    [AttributeError] there. *)
Definition on_dict {S} (body : S → JsonItem → result S) (st : S) (item : json)
    : result S :=
  match item with
  | JObj m => body st m
  | _ => Raise AttributeError
  end.

Definition analyze_duplication_any (items : list json) : result DuplicationMetrics :=
  st ← for_each (on_dict dup_body) dup_init items;
  Ok (dup_report st).

Definition analyze_author_coverage_any (items : list json) : result AuthorMetrics :=
  st ← for_each (on_dict author_body) author_init items;
  Ok (author_report (Z.of_nat (length items)) st).

Definition analyze_crawl_behavior_any (items : list json) : result CrawlMetrics :=
  st ← for_each (on_dict crawl_body) ([], ∅) items;
  Ok (crawl_report st).

(** [calculate_all_metrics] on the values the runner loaded. *)
Definition calculate_all_metrics_any (items : list json) : result (option AllMetrics) :=
  match items with
  | [] => Ok None
  | _ =>
      d ← analyze_duplication_any items;
      a ← analyze_author_coverage_any items;
      c ← analyze_crawl_behavior_any items;
      Ok (Some {| duplication := d; authors := a; crawl := c |})
  end.

End analyzers.
End Enhanced.

(** ** Paths and files *)

Module FS.

(** A [pathlib.Path], by its directory and its final component. *)
Record Path := { parent : string; name : string }.

#[global] Instance Path_eq_dec : EqDecision Path.
Proof. solve_decision. Defined.

#[global] Instance Path_countable : Countable Path.
Proof.
  refine (inj_countable' (λ p, (parent p, name p))
                         (λ x, {| parent := x.1; name := x.2 |}) _).
  by intros [].
Defined.

(** What a path leads to: a text file that reads to its end, by its lines;
    a file whose reading yields [lines] and then raises [e] (bytes that are
    not UTF-8 give [UnicodeDecodeError], a failing device [OSError]); or
    something that [open] refuses (a directory, a file without read
    permission). *)
Inductive fentry :=
  | File (lines : list string)
  | Broken (lines : list string) (e : exn)
  | Unreadable.

Abbreviation filesystem := (gmap Path fentry).

(** [path.exists()] *)
Definition exists_ (fs : filesystem) (p : Path) : bool :=
  bool_decide (is_Some (fs !! p)).

(** [open(path)], which may raise, and what [for line in f] then does:
    the lines it yields, and the exception that ends it, if any. *)
Definition open (fs : filesystem) (p : Path) : result (list string * option exn) :=
  match fs !! p with
  | Some (File lines) => Ok (lines, None)
  | Some (Broken lines e) => Ok (lines, Some e)
  | _ => Raise OSError
  end.

(** The text from the last dot of [s] on, if [s] has a dot. *)
Fixpoint from_last_dot (s : string) : option string :=
  match s with
  | EmptyString => None
  | String c s' =>
      match from_last_dot s' with
      | Some t => Some t
      | None => if Ascii.eqb c "."%char then Some s else None
      end
  end.

(** [path.suffix]: from the last dot of the name, unless that dot is the
    first or the last character. *)
Definition suffix (p : Path) : string :=
  match name p with
  | EmptyString => ""
  | String _ rest =>
      match from_last_dot rest with
      | Some t => if String.eqb t "." then "" else t
      | None => ""
      end
  end.

End FS.

(** ** [quality_metrics.py] *)

Module Quality.

(** A value of the report: what the metric dictionaries hold. *)
Inductive mval :=
  | VInt (n : Z)
  | VFloat (q : Q)
  | VBool (b : bool)
  | VStr (s : string)
  | VCounts (d : list (string * Z))
  | VEnhanced (e : option Enhanced.AllMetrics)
  | VError (e : exn).

(** [bool(v)], for the [if self.metrics.get(...)] test. *)
Definition mval_truthy (v : option mval) : bool :=
  match v with
  | Some (VInt n) => negb (n =? 0)
  | Some (VFloat q) => negb (Qeq_bool q 0)
  | Some (VBool b) => b
  | Some (VStr s) => negb (String.eqb s "")
  | Some (VCounts d) => match d with [] => false | _ => true end
  | Some (VEnhanced e) => match e with None => false | Some _ => true end
  | Some (VError _) => true
  | None => false
  end.

Definition TEXT_FIELDS : list string :=
  ["text"; "content"; "body"; "message"; "description"; "summary"].
Definition MIN_NONTRIVIAL_TEXT_LENGTH : Z := 50.
Definition URL_FIELDS : list string :=
  ["url"; "link"; "href"; "source_url"; "thread_url"; "post_url"; "page_url"].
Definition ID_FIELDS : list string :=
  ["id"; "post_id"; "comment_id"; "message_id"; "item_id"; "_id"].
Definition AUTHOR_FIELDS : list string :=
  ["author"; "user"; "username"; "user_name"; "poster"; "creator"].
Definition DATE_FIELDS : list string :=
  ["date"; "datetime"; "timestamp"; "created_at"; "posted_at"; "time"].

(** The four entries of [THREAD_ID_PATTERNS] all read: a literal, then a
    captured, non-empty, greedy run of one character class. *)
Record pattern := { literal : string; class : ascii → bool }.

Definition isdigit (c : ascii) : bool :=
  ((48 <=? nat_of_ascii c) && (nat_of_ascii c <=? 57))%nat.
Definition not_slash (c : ascii) : bool := negb (Ascii.eqb c "/"%char).

Definition THREAD_ID_PATTERNS : list pattern :=
  [ {| literal := "/threads/"; class := isdigit |};
    {| literal := "/t/"; class := not_slash |};
    {| literal := "/topic/"; class := isdigit |};
    {| literal := "/discussion/"; class := isdigit |} ].

(** The match of [p] that starts exactly at the head of [s]: its group 1. *)
Definition match_here (p : pattern) (s : string) : option string :=
  if String.prefix (literal p) s then
    match take_while (class p) (drop (String.length (literal p)) s) with
    | EmptyString => None
    | g => Some g
    end
  else None.

(** [re.search(p, s)] on a [str]: the leftmost match. *)
Fixpoint search_str (p : pattern) (s : string) : option string :=
  match match_here p s with
  | Some g => Some g
  | None => match s with
            | String _ s' => search_str p s'
            | EmptyString => None
            end
  end.

(** [re.search(p, v)]: [TypeError] unless [v] is a [str]. *)
Definition re_search (p : pattern) (v : json) : result (option string) :=
  match v with
  | JStr s => Ok (search_str p s)
  | _ => Raise TypeError
  end.

(** [_extract_text] *)
Fixpoint _extract_text (item : JsonItem) (field_names : list string) : string :=
  match field_names with
  | [] => ""
  | field :: rest =>
      match item !! field with
      | Some (JStr value) =>
          if strip_nonempty value then value else _extract_text item rest
      | _ => _extract_text item rest
      end
  end.

(** The locals of [_analyze_text_content]'s loop; [text_lengths_by_type]
    only ever has the keys ["posts"] and ["pages"]. *)
Record text_state := {
  items_with_text : Z;
  items_with_nontrivial_text : Z;
  text_lengths : list Z;
  posts_lengths : list Z;
  pages_lengths : list Z;
  total_text_length : Z;
}.

Definition text_init : text_state :=
  {| items_with_text := 0; items_with_nontrivial_text := 0; text_lengths := [];
     posts_lengths := []; pages_lengths := []; total_text_length := 0 |}.

Definition text_body (st : text_state) (item : JsonItem) : text_state :=
  let text := _extract_text item TEXT_FIELDS in
  if negb (String.eqb text "") then
    let text_len := len text in
    let is_post := has item "thread_url" || has item "post_id" in
    {| items_with_text := items_with_text st + 1;
       items_with_nontrivial_text :=
         if MIN_NONTRIVIAL_TEXT_LENGTH <=? text_len
         then items_with_nontrivial_text st + 1
         else items_with_nontrivial_text st;
       text_lengths := text_lengths st ++ [text_len];
       posts_lengths :=
         if is_post then posts_lengths st ++ [text_len] else posts_lengths st;
       pages_lengths :=
         if negb is_post && has item "url"
         then pages_lengths st ++ [text_len] else pages_lengths st;
       total_text_length := total_text_length st + text_len |}
  else st.

(** [text_lengths.sort()] *)
Definition sort (l : list Z) : list Z := merge_sort Z.le l.

(** The block under [if text_lengths:]: extremes, median and quartiles of
    the sorted lengths, by index. *)
Definition text_length_order_stats (text_lengths : list Z)
    (metrics : gmap string mval) : gmap string mval :=
  match text_lengths with
  | [] => metrics
  | _ =>
      let text_lengths := sort text_lengths in
      let n := length text_lengths in
      let metrics := <["min_text_length" := VInt (text_lengths !!! 0%nat)]> metrics in
      let metrics := <["max_text_length" := VInt (text_lengths !!! (n - 1)%nat)]> metrics in
      let metrics :=
        <["median_text_length" := VInt (text_lengths !!! (n / 2)%nat)]> metrics in
      let p25_idx := (n / 4)%nat in
      let p75_idx := ((3 * n) / 4)%nat in
      let metrics := <["text_length_p25" := VInt (text_lengths !!! p25_idx)]> metrics in
      <["text_length_p75" := VInt (text_lengths !!! p75_idx)]> metrics
  end.

(** The loop over [text_lengths_by_type.items()], for one type. *)
Definition text_type_stats (type_name : string) (lengths : list Z)
    (metrics : gmap string mval) : gmap string mval :=
  match lengths with
  | [] => metrics
  | _ =>
      let metrics :=
        <["avg_" +:+ type_name +:+ "_text_length" :=
            VFloat (truediv (Dict.sum lengths) (Z.of_nat (length lengths)))]> metrics in
      <[type_name +:+ "_count" := VInt (Z.of_nat (length lengths))]> metrics
  end.

Definition _analyze_text_content (items : list JsonItem)
    (metrics : gmap string mval) : gmap string mval :=
  let st := foldl text_body text_init items in
  if 0 <? items_with_text st then
    let n_items := Z.of_nat (length items) in
    let metrics := <["items_with_text" := VInt (items_with_text st)]> metrics in
    let metrics :=
      <["items_missing_text" := VInt (n_items - items_with_text st)]> metrics in
    let metrics :=
      <["non_trivial_text_rate" :=
          VFloat (truediv (items_with_nontrivial_text st) n_items)]> metrics in
    let metrics :=
      <["avg_text_length" :=
          VFloat (truediv (total_text_length st) (items_with_text st))]> metrics in
    let metrics := <["total_text_chars" := VInt (total_text_length st)]> metrics in
    let metrics := text_type_stats "posts" (posts_lengths st) metrics in
    let metrics := text_type_stats "pages" (pages_lengths st) metrics in
    text_length_order_stats (text_lengths st) metrics
  else metrics.

(** The locals of [_analyze_urls]'s loop. *)
Record url_state := {
  page_urls : gset string;
  thread_urls : gset string;
  all_urls : list string;
  domains : list (string * Z);
  url_patterns : list (string * Z);
}.

Definition url_init : url_state :=
  {| page_urls := ∅; thread_urls := ∅; all_urls := []; domains := [];
     url_patterns := [] |}.

(** [sorted(domains.items(), key=lambda x: x[1], reverse=True)[:3]] *)
Definition top_domains (domains : list (string * Z)) : list (string * Z) :=
  take 3 (Dict.sorted_desc domains).

(** [_analyze_identifiers], [_analyze_authors] and [_analyze_temporal_data]
    stop at the first field of the list that meets their test. *)
Fixpoint first_field (test : json → bool) (item : JsonItem)
    (fields : list string) : option json :=
  match fields with
  | [] => None
  | field :: rest =>
      match item !! field with
      | Some v => if test v then Some v else first_field test item rest
      | None => first_field test item rest
      end
  end.

(** [filename.lower()] *)
Definition lower_char (c : ascii) : ascii :=
  let n := nat_of_ascii c in
  if ((65 <=? n) && (n <=? 90) || (192 <=? n) && (n <=? 222) && negb (n =? 215))%nat
  then ascii_of_nat (n + 32) else c.
Fixpoint lower (s : string) : string :=
  match s with
  | EmptyString => EmptyString
  | String c s' => String (lower_char c) (lower s')
  end.

(** [a or b] and [a and b] on tests that may raise: [b] is evaluated only
    when [a] leaves the answer open. *)
Definition or_else (a b : result bool) : result bool :=
  x ← a; if x : bool then Ok true else b.
Definition and_then (a b : result bool) : result bool :=
  x ← a; if x : bool then b else Ok false.

(** [_guess_file_type]; [sample] is whatever the first line held. *)
Definition _guess_file_type (filename : string) (items : list json) : result string :=
  let filename_lower := lower filename in
  if contains "post" filename_lower then Ok "posts"
  else if contains "comment" filename_lower then Ok "comments"
  else if contains "page" filename_lower || contains "raw" filename_lower then Ok "pages"
  else
    match items with
    | sample :: _ =>
        is_post ← or_else (py_in "thread_url" sample) (py_in "post_id" sample);
        if is_post : bool then Ok "posts"
        else
          is_comment ← or_else (py_in "comment" sample) (py_in "parent_id" sample);
          if is_comment : bool then Ok "comments"
          else
            is_page ← and_then (py_in "url" sample) (py_in "text" sample);
            Ok (if is_page : bool then "pages" else "unknown")
    | [] => Ok "unknown"
    end.

(** The keys each analyzer may write. *)
Definition text_keys : list string :=
  ["items_with_text"; "items_missing_text"; "non_trivial_text_rate";
   "avg_text_length"; "total_text_chars"; "avg_posts_text_length"; "posts_count";
   "avg_pages_text_length"; "pages_count"; "min_text_length"; "max_text_length";
   "median_text_length"; "text_length_p25"; "text_length_p75"].
Definition url_keys : list string :=
  ["unique_page_urls"; "unique_thread_urls"; "total_url_mentions";
   "unique_urls_combined"; "unique_domains"; "top_domains"; "url_patterns"].
Definition id_keys : list string :=
  ["items_with_ids"; "unique_ids"; "duplicate_items"; "duplication_rate"].
Definition author_keys : list string :=
  ["items_with_authors"; "unique_authors"; "items_per_author"].
Definition thread_keys : list string :=
  ["unique_threads"; "total_thread_items"; "avg_items_per_thread";
   "thread_coverage_breadth"].
Definition temporal_keys : list string := ["items_with_dates"; "temporal_coverage"].

(** A metric used as a number: [int], [float] and [bool] divide. *)
Definition mval_number (v : mval) : result Q :=
  match v with
  | VInt n => Ok (inject_Z n)
  | VFloat q => Ok q
  | VBool b => Ok (if b then 1%Q else 0%Q)
  | _ => Raise TypeError
  end.

Section analyzers.
Context `{PyLib}.

(** The body of [for field in URL_FIELDS], on the two counters. *)
Definition url_field_body (item : JsonItem) (st : list (string * Z) * list (string * Z))
    (field : string) : result (list (string * Z) * list (string * Z)) :=
  let '(domains, url_patterns) := st in
  match item !! field with
  | Some (JStr url) =>
      netloc ← urlparse_netloc url;
      let domains :=
        if negb (String.eqb netloc "") then Dict.incr netloc domains else domains in
      let url_patterns :=
        if contains "/threads/" url
        then Dict.incr "thread_pattern_count" url_patterns else url_patterns in
      let url_patterns :=
        if contains "/post-" url
        then Dict.incr "post_redirect_count" url_patterns else url_patterns in
      let url_patterns :=
        if contains "/page-" url || contains "page=" url
        then Dict.incr "pagination_count" url_patterns else url_patterns in
      Ok (domains, url_patterns)
  | _ => Ok st
  end.

Definition url_body (st : url_state) (item : JsonItem) : result url_state :=
  let st :=
    if has item "url" && negb (has item "thread_url" || has item "post_id") then
      match item !! "url" with
      | Some (JStr url) =>
          {| page_urls := page_urls st ∪ {[url]}; thread_urls := thread_urls st;
             all_urls := all_urls st ++ [url]; domains := domains st;
             url_patterns := url_patterns st |}
      | _ => st
      end
    else st in
  let st :=
    match item !! "thread_url" with
    | Some (JStr thread_url) =>
        {| page_urls := page_urls st; thread_urls := thread_urls st ∪ {[thread_url]};
           all_urls := all_urls st ++ [thread_url]; domains := domains st;
           url_patterns := url_patterns st |}
    | _ => st
    end in
  '(domains, url_patterns) ←
    for_each (url_field_body item) (domains st, url_patterns st) URL_FIELDS;
  Ok {| page_urls := page_urls st; thread_urls := thread_urls st;
        all_urls := all_urls st; domains := domains; url_patterns := url_patterns |}.

Definition url_report (st : url_state) (metrics : gmap string mval) : gmap string mval :=
  let metrics := <["unique_page_urls" := VInt (Z.of_nat (size (page_urls st)))]> metrics in
  let metrics :=
    <["unique_thread_urls" := VInt (Z.of_nat (size (thread_urls st)))]> metrics in
  match all_urls st with
  | [] => metrics
  | _ =>
      let unique_all : gset string := list_to_set (all_urls st) in
      let metrics :=
        <["total_url_mentions" := VInt (Z.of_nat (length (all_urls st)))]> metrics in
      let metrics :=
        <["unique_urls_combined" := VInt (Z.of_nat (size unique_all))]> metrics in
      let metrics :=
        match domains st with
        | [] => metrics
        | _ =>
            <["top_domains" := VCounts (top_domains (domains st))]>
              (<["unique_domains" := VInt (Z.of_nat (length (domains st)))]> metrics)
        end in
      match url_patterns st with
      | [] => metrics
      | _ => <["url_patterns" := VCounts (url_patterns st)]> metrics
      end
  end.

Definition _analyze_urls (items : list JsonItem)
    (metrics : gmap string mval) : result (gmap string mval) :=
  st ← for_each url_body url_init items;
  Ok (url_report st metrics).

(** [all_ids]: [str] of the first id field the item has, whatever it holds. *)
Definition all_ids (items : list JsonItem) : list string :=
  omap (λ item, py_str <$> first_field (λ _, true) item ID_FIELDS) items.

Definition id_report (all_ids : list string)
    (metrics : gmap string mval) : gmap string mval :=
  match all_ids with
  | [] => metrics
  | _ =>
      let unique_ids : gset string := list_to_set all_ids in
      let n_all := Z.of_nat (length all_ids) in
      let n_unique := Z.of_nat (size unique_ids) in
      let metrics := <["items_with_ids" := VInt n_all]> metrics in
      let metrics := <["unique_ids" := VInt n_unique]> metrics in
      if n_unique <? n_all then
        <["duplication_rate" := VFloat (truediv (n_all - n_unique) n_all)]>
          (<["duplicate_items" := VInt (n_all - n_unique)]> metrics)
      else metrics
  end.

Definition _analyze_identifiers (items : list JsonItem)
    (metrics : gmap string mval) : gmap string mval :=
  id_report (all_ids items) metrics.

(** [authors]: [str] of the first author field that is present and truthy.
    The source goes on to tally [author_counts], which nothing reads. *)
Definition authors (items : list JsonItem) : list string :=
  omap (λ item, py_str <$> first_field truthy item AUTHOR_FIELDS) items.

Definition authors_report (authors : list string)
    (metrics : gmap string mval) : gmap string mval :=
  match authors with
  | [] => metrics
  | _ =>
      let unique_authors : gset string := list_to_set authors in
      let metrics :=
        <["items_with_authors" := VInt (Z.of_nat (length authors))]> metrics in
      let metrics :=
        <["unique_authors" := VInt (Z.of_nat (size unique_authors))]> metrics in
      <["items_per_author" :=
          VFloat (truediv (Z.of_nat (length authors))
                          (Z.of_nat (size unique_authors)))]> metrics
  end.

Definition _analyze_authors (items : list JsonItem)
    (metrics : gmap string mval) : gmap string mval :=
  authors_report (authors items) metrics.

(** [for pattern in THREAD_ID_PATTERNS]: group 1 of the first pattern that
    matches, else [None]. *)
Fixpoint first_match (patterns : list pattern) (url : json) : result json :=
  match patterns with
  | [] => Ok JNull
  | p :: rest =>
      m ← re_search p url;
      match m with
      | Some g => Ok (JStr g)
      | None => first_match rest url
      end
  end.

(** The thread id one item contributes, [None] when it has none. *)
Definition thread_id_of (item : JsonItem) : result json :=
  thread_id ←
    (if has item "thread_url" || has item "url" then
       let url := py_or (get item "thread_url") (get_or item "url" (JStr "")) in
       first_match THREAD_ID_PATTERNS url
     else Ok JNull);
  Ok (if negb (truthy thread_id)
      then py_or (get item "thread_id") (get item "topic_id")
      else thread_id).

Definition thread_body (thread_ids : list string) (item : JsonItem) : result (list string) :=
  thread_id ← thread_id_of item;
  Ok (if truthy thread_id then thread_ids ++ [py_str thread_id] else thread_ids).

Definition thread_report (thread_ids : list string)
    (metrics : gmap string mval) : result (gmap string mval) :=
  match thread_ids with
  | [] => Ok metrics
  | _ =>
      let thread_counts := Dict.counter thread_ids in
      let n_threads := Z.of_nat (length thread_counts) in
      let metrics := <["unique_threads" := VInt n_threads]> metrics in
      let metrics :=
        <["total_thread_items" := VInt (Z.of_nat (length thread_ids))]> metrics in
      match thread_counts with
      | [] => Ok metrics
      | _ =>
          let counts := Dict.values thread_counts in
          let metrics :=
            <["avg_items_per_thread" :=
                VFloat (truediv (Dict.sum counts) (Z.of_nat (length counts)))]> metrics in
          if mval_truthy (metrics !! "total_items") then
            total ← mval_number (default (VInt 0) (metrics !! "total_items"));
            Ok (<["thread_coverage_breadth" :=
                    VFloat (inject_Z n_threads / total)]> metrics)
          else Ok metrics
      end
  end.

Definition _analyze_threads (items : list JsonItem)
    (metrics : gmap string mval) : result (gmap string mval) :=
  thread_ids ← for_each thread_body [] items;
  thread_report thread_ids metrics.

Definition dates_found (items : list JsonItem) : Z :=
  Z.of_nat (length (omap (λ item, first_field truthy item DATE_FIELDS) items)).

Definition _analyze_temporal_data (items : list JsonItem)
    (metrics : gmap string mval) : gmap string mval :=
  let dates_found := dates_found items in
  if 0 <? dates_found then
    <["temporal_coverage" :=
        VFloat (truediv dates_found (Z.of_nat (length items)))]>
      (<["items_with_dates" := VInt dates_found]> metrics)
  else metrics.

(** The value the thread and crawl analyzers take for a record's URL:
    [item.get("thread_url") or item.get("url", "")]. *)
Definition url_probe (item : JsonItem) : json :=
  py_or (get item "thread_url") (get_or item "url" (JStr "")).

(** The record has a [thread_url] or [url] key and the value probed is not a
    string. *)
Definition bad_url (item : JsonItem) : Prop :=
  has item "thread_url" || has item "url" = true ∧ is_str (url_probe item) = false.

(** The value probed is [None] or a number. *)
Definition scalar_url (item : JsonItem) : Prop :=
  match url_probe item with
  | JNull | JBool _ | JInt _ | JFloat _ => True
  | _ => False
  end.

(** What the record holds under [url] and [thread_url] is a string. *)
Definition str_urls (item : JsonItem) : Prop :=
  ∀ f v, f ∈ ["url"; "thread_url"] → item !! f = Some v → is_str v = true.

(** No URL field of the record holds a string. *)
Definition no_str_urls (item : JsonItem) : Prop :=
  ∀ f v, f ∈ URL_FIELDS → item !! f = Some v → is_str v = false.

(** [urlparse] accepts every string a URL field of the record holds. *)
Definition urls_parse (item : JsonItem) : Prop :=
  ∀ f s, f ∈ URL_FIELDS → item !! f = Some (JStr s) → is_ok (urlparse_netloc s) = true.

(** ** The analyzers on any value

    [calculate_all_metrics] hands the analyzers whatever [json.loads]
    returned.  On a value that is not a [dict], [field in item] is a
    substring or membership test or a [TypeError] ([py_in]), [item[field]]
    a [TypeError] and [item.get] an [AttributeError]. *)

(** [_extract_text] *)
Fixpoint _extract_text_any (item : json) (field_names : list string) : result string :=
  match field_names with
  | [] => Ok ""
  | field :: rest =>
      present ← py_in field item;
      if present : bool then
        value ← item_at item field;
        match value with
        | JStr s => if strip_nonempty s then Ok s else _extract_text_any item rest
        | _ => _extract_text_any item rest
        end
      else _extract_text_any item rest
  end.

Definition text_body_any (st : text_state) (item : json) : result text_state :=
  text ← _extract_text_any item TEXT_FIELDS;
  if negb (String.eqb text "") then
    let text_len := len text in
    is_post ← or_else (py_in "thread_url" item) (py_in "post_id" item);
    is_page ← (if is_post : bool then Ok false else py_in "url" item);
    Ok {| items_with_text := items_with_text st + 1;
          items_with_nontrivial_text :=
            if MIN_NONTRIVIAL_TEXT_LENGTH <=? text_len
            then items_with_nontrivial_text st + 1
            else items_with_nontrivial_text st;
          text_lengths := text_lengths st ++ [text_len];
          posts_lengths :=
            if is_post : bool then posts_lengths st ++ [text_len] else posts_lengths st;
          pages_lengths :=
            if is_page : bool then pages_lengths st ++ [text_len] else pages_lengths st;
          total_text_length := total_text_length st + text_len |}
  else Ok st.

(** What [_analyze_text_content] writes once its loop is over. *)
Definition text_report (n_items : Z) (st : text_state)
    (metrics : gmap string mval) : gmap string mval :=
  if 0 <? items_with_text st then
    let metrics := <["items_with_text" := VInt (items_with_text st)]> metrics in
    let metrics :=
      <["items_missing_text" := VInt (n_items - items_with_text st)]> metrics in
    let metrics :=
      <["non_trivial_text_rate" :=
          VFloat (truediv (items_with_nontrivial_text st) n_items)]> metrics in
    let metrics :=
      <["avg_text_length" :=
          VFloat (truediv (total_text_length st) (items_with_text st))]> metrics in
    let metrics := <["total_text_chars" := VInt (total_text_length st)]> metrics in
    let metrics := text_type_stats "posts" (posts_lengths st) metrics in
    let metrics := text_type_stats "pages" (pages_lengths st) metrics in
    text_length_order_stats (text_lengths st) metrics
  else metrics.

Definition _analyze_text_content_any (items : list json)
    (metrics : gmap string mval) : result (gmap string mval) :=
  st ← for_each text_body_any text_init items;
  Ok (text_report (Z.of_nat (length items)) st metrics).

(** What one URL adds to the two counters. *)
Definition url_counts (url : string) (st : list (string * Z) * list (string * Z))
    : result (list (string * Z) * list (string * Z)) :=
  let '(domains, url_patterns) := st in
  netloc ← urlparse_netloc url;
  let domains :=
    if negb (String.eqb netloc "") then Dict.incr netloc domains else domains in
  let url_patterns :=
    if contains "/threads/" url
    then Dict.incr "thread_pattern_count" url_patterns else url_patterns in
  let url_patterns :=
    if contains "/post-" url
    then Dict.incr "post_redirect_count" url_patterns else url_patterns in
  let url_patterns :=
    if contains "/page-" url || contains "page=" url
    then Dict.incr "pagination_count" url_patterns else url_patterns in
  Ok (domains, url_patterns).

Definition url_field_body_any (item : json) (st : list (string * Z) * list (string * Z))
    (field : string) : result (list (string * Z) * list (string * Z)) :=
  present ← py_in field item;
  if present : bool then
    value ← item_at item field;
    match value with
    | JStr url => url_counts url st
    | _ => Ok st
    end
  else Ok st.

Definition url_body_any (st : url_state) (item : json) : result url_state :=
  is_page ← and_then (py_in "url" item)
              (negb <$> or_else (py_in "thread_url" item) (py_in "post_id" item));
  st ← (if is_page : bool then
          url ← item_at item "url";
          Ok (match url with
              | JStr url =>
                  {| page_urls := page_urls st ∪ {[url]}; thread_urls := thread_urls st;
                     all_urls := all_urls st ++ [url]; domains := domains st;
                     url_patterns := url_patterns st |}
              | _ => st
              end)
        else Ok st);
  is_thread ← and_then (py_in "thread_url" item) (is_str <$> item_at item "thread_url");
  st ← (if is_thread : bool then
          thread_url ← item_at item "thread_url";
          Ok (match thread_url with
              | JStr thread_url =>
                  {| page_urls := page_urls st;
                     thread_urls := thread_urls st ∪ {[thread_url]};
                     all_urls := all_urls st ++ [thread_url]; domains := domains st;
                     url_patterns := url_patterns st |}
              | _ => st
              end)
        else Ok st);
  '(domains, url_patterns) ←
    for_each (url_field_body_any item) (domains st, url_patterns st) URL_FIELDS;
  Ok {| page_urls := page_urls st; thread_urls := thread_urls st;
        all_urls := all_urls st; domains := domains; url_patterns := url_patterns |}.

Definition _analyze_urls_any (items : list json)
    (metrics : gmap string mval) : result (gmap string mval) :=
  st ← for_each url_body_any url_init items;
  Ok (url_report st metrics).

(** The value of the first field of the list that the item has and that
    meets the test. *)
Fixpoint first_field_any (test : json → bool) (item : json)
    (fields : list string) : result (option json) :=
  match fields with
  | [] => Ok None
  | field :: rest =>
      present ← py_in field item;
      if present : bool then
        value ← item_at item field;
        if test value then Ok (Some value) else first_field_any test item rest
      else first_field_any test item rest
  end.

(** The loop shared by the identifier, author and date analyzers. *)
Definition found_fields (test : json → bool) (fields : list string)
    (items : list json) : result (list json) :=
  for_each (λ found item,
              value ← first_field_any test item fields;
              Ok (found ++ option_list value)) [] items.

Definition _analyze_identifiers_any (items : list json)
    (metrics : gmap string mval) : result (gmap string mval) :=
  ids ← found_fields (λ _, true) ID_FIELDS items;
  Ok (id_report (py_str <$> ids) metrics).

Definition _analyze_authors_any (items : list json)
    (metrics : gmap string mval) : result (gmap string mval) :=
  authors ← found_fields truthy AUTHOR_FIELDS items;
  Ok (authors_report (py_str <$> authors) metrics).

Definition thread_id_of_any (item : json) : result json :=
  has_url ← or_else (py_in "thread_url" item) (py_in "url" item);
  thread_id ←
    (if has_url : bool then
       thread_url ← item_get item "thread_url" JNull;
       url ← (if truthy thread_url then Ok thread_url
              else item_get item "url" (JStr ""));
       first_match THREAD_ID_PATTERNS url
     else Ok JNull);
  if negb (truthy thread_id) then
    thread_id ← item_get item "thread_id" JNull;
    if truthy thread_id then Ok thread_id else item_get item "topic_id" JNull
  else Ok thread_id.

Definition thread_body_any (thread_ids : list string) (item : json)
    : result (list string) :=
  thread_id ← thread_id_of_any item;
  Ok (if truthy thread_id then thread_ids ++ [py_str thread_id] else thread_ids).

Definition _analyze_threads_any (items : list json)
    (metrics : gmap string mval) : result (gmap string mval) :=
  thread_ids ← for_each thread_body_any [] items;
  thread_report thread_ids metrics.

(** What [_analyze_temporal_data] writes once its loop is over. *)
Definition temporal_report (dates_found n_items : Z)
    (metrics : gmap string mval) : gmap string mval :=
  if 0 <? dates_found then
    <["temporal_coverage" := VFloat (truediv dates_found n_items)]>
      (<["items_with_dates" := VInt dates_found]> metrics)
  else metrics.

Definition _analyze_temporal_data_any (items : list json)
    (metrics : gmap string mval) : result (gmap string mval) :=
  dates ← found_fields truthy DATE_FIELDS items;
  Ok (temporal_report (Z.of_nat (length dates)) (Z.of_nat (length items)) metrics).

(** The loop of [_load_jsonl]: a line that [json.loads] rejects is passed
    over; any other exception ends the loop, with the items appended so
    far. *)
Fixpoint load_lines (lines : list string) (items : list json)
    : list json * option exn :=
  match lines with
  | [] => (items, None)
  | line :: rest =>
      match json_loads line with
      | Loaded item => load_lines rest (items ++ [item])
      | JSONDecodeError => load_lines rest items
      | LoadsError e => (items, Some e)
      end
  end.

(** [_load_jsonl]: whatever [open], the reading of a line or [json.loads]
    raises is swallowed by [except Exception: pass], and the items appended
    until then are returned. *)
Definition _load_jsonl (fs : FS.filesystem) (file_path : FS.Path) : list json :=
  match FS.open fs file_path with
  | Ok (lines, _) => (load_lines lines []).1
  | Raise _ => []
  end.

(** The lines its reading yields, to the end or until it fails. *)
Definition read_lines (fs : FS.filesystem) (p : FS.Path) : list string :=
  match fs !! p with
  | Some (FS.File lines) | Some (FS.Broken lines _) => lines
  | _ => []
  end.


(** The lines [_load_jsonl] gets to: those before the first one on which
    [json.loads] raises something other than [JSONDecodeError]. *)
Fixpoint reached (lines : list string) : list string :=
  match lines with
  | [] => []
  | line :: rest =>
      match json_loads line with
      | LoadsError _ => []
      | _ => line :: reached rest
      end
  end.

(** The value of a line that parses. *)
Definition loaded_value (line : string) : option json :=
  match json_loads line with Loaded v => Some v | _ => None end.
(** The first loop of [calculate_all_metrics], on [all_items] and
    [file_stats]. *)
Definition collect_body (fs : FS.filesystem)
    (st : list json * gmap string (Z * string)) (file_path : FS.Path)
    : result (list json * gmap string (Z * string)) :=
  let '(all_items, file_stats) := st in
  if negb (FS.exists_ fs file_path) then Ok st
  else if negb (String.eqb (FS.suffix file_path) ".jsonl") then Ok st
  else
    let items := _load_jsonl fs file_path in
    match items with
    | [] => Ok st
    | _ =>
        file_type ← _guess_file_type (FS.name file_path) items;
        Ok (all_items ++ items,
            <[FS.name file_path := (Z.of_nat (length items), file_type)]> file_stats)
    end.

(** The analyzers on JSON objects, in the order [calculate_all_metrics]
    calls them. *)
Definition analyze_items (all_items : list JsonItem)
    (metrics : gmap string mval) : result (gmap string mval) :=
  let metrics := _analyze_text_content all_items metrics in
  metrics ← _analyze_urls all_items metrics;
  let metrics := _analyze_identifiers all_items metrics in
  let metrics := _analyze_authors all_items metrics in
  metrics ← _analyze_threads all_items metrics;
  Ok (_analyze_temporal_data all_items metrics).

(** The same on the values loaded. *)
Definition analyze_items_any (all_items : list json)
    (metrics : gmap string mval) : result (gmap string mval) :=
  metrics ← _analyze_text_content_any all_items metrics;
  metrics ← _analyze_urls_any all_items metrics;
  metrics ← _analyze_identifiers_any all_items metrics;
  metrics ← _analyze_authors_any all_items metrics;
  metrics ← _analyze_threads_any all_items metrics;
  _analyze_temporal_data_any all_items metrics.

(** [MetricsAnalyzer(output_files).calculate_all_metrics()] *)
Definition calculate_all_metrics (fs : FS.filesystem)
    (output_files : list FS.Path) : result (gmap string mval) :=
  '(all_items, file_stats) ← for_each (collect_body fs) ([], ∅) output_files;
  match all_items with
  | [] => Ok ∅
  | _ =>
      let metrics : gmap string mval :=
        <["files_analyzed" := VInt (Z.of_nat (size file_stats))]>
          (<["total_items" := VInt (Z.of_nat (length all_items))]> ∅) in
      analyze_items_any all_items metrics
  end.

End analyzers.
End Quality.

(** ** [metrics.py] *)

Module Collector.

Definition BYTES_PER_KB : Z := 1024.
Definition BYTES_PER_MB : Z := BYTES_PER_KB * BYTES_PER_KB.

Record BenchmarkMetrics := {
  total_runtime_seconds : Q;
  items_extracted : Z;
  items_per_second : Q;
  peak_memory_mb : Q;
  avg_cpu_percent : Q;
  success : bool;
  bm_collector_name : string;
  bm_scenario_name : string;
  timestamp : string;
  bm_log_file : string;
}.

Record MetricsCollector := {
  collector_name : string;
  scenario_name : string;
  log_file : string;
  _start_time : option Q;
  _target_process : option Z;
  _peak_memory : Q;
  _cpu_samples : list Q;
}.

(** [MetricsCollector(collector_name, scenario_name)] *)
Definition init (collector_name scenario_name : string) : MetricsCollector :=
  {| collector_name := collector_name; scenario_name := scenario_name;
     log_file := ""; _start_time := None; _target_process := None;
     _peak_memory := 0; _cpu_samples := [] |}.

Definition set_log_file (mc : MetricsCollector) (f : string) : MetricsCollector :=
  {| collector_name := collector_name mc; scenario_name := scenario_name mc;
     log_file := f; _start_time := _start_time mc;
     _target_process := _target_process mc; _peak_memory := _peak_memory mc;
     _cpu_samples := _cpu_samples mc |}.

(** [start], with the clock's reading. *)
Definition start (mc : MetricsCollector) (now : Q) : MetricsCollector :=
  {| collector_name := collector_name mc; scenario_name := scenario_name mc;
     log_file := log_file mc; _start_time := Some now;
     _target_process := _target_process mc; _peak_memory := _peak_memory mc;
     _cpu_samples := _cpu_samples mc |}.

(** [attach_to_process]: [found] tells whether [psutil.Process(process_id)]
    returned; when it raised, nothing was assigned.  The first
    [cpu_percent] reading is discarded either way. *)
Definition attach_to_process (mc : MetricsCollector) (process_id : Z)
    (found : bool) : MetricsCollector :=
  if found then
    {| collector_name := collector_name mc; scenario_name := scenario_name mc;
       log_file := log_file mc; _start_time := _start_time mc;
       _target_process := Some process_id; _peak_memory := _peak_memory mc;
       _cpu_samples := _cpu_samples mc |}
  else mc.

(** What psutil answers during one [sample]; [None] stands for
    [NoSuchProcess] or [AccessDenied]. *)
Record reading := {
  rss : option Z;
  children : option (list (option Z));
  cpu : option Q;
}.

(** [max(a, b)] *)
Definition qmax (a b : Q) : Q := if Qle_bool b a then a else b.

(** The memory sum of one sample: the process, plus every child that
    could be read. *)
Definition memory_sum (own_rss : Z) (children : option (list (option Z))) : Q :=
  let memory_mb := truediv own_rss BYTES_PER_MB in
  match children with
  | Some cs =>
      foldl (λ memory_mb child,
               match child with
               | Some child_rss => (memory_mb + truediv child_rss BYTES_PER_MB)%Q
               | None => memory_mb
               end) memory_mb cs
  | None => memory_mb
  end.

(** [sample] *)
Definition sample (mc : MetricsCollector) (rd : reading) : MetricsCollector :=
  match _target_process mc with
  | None => mc
  | Some _ =>
      match rss rd with
      | None => mc
      | Some own_rss =>
          let memory_mb := memory_sum own_rss (children rd) in
          let peak := qmax (_peak_memory mc) memory_mb in
          let cpu_samples :=
            match cpu rd with
            | Some cpu =>
                if Qle_bool cpu 0 then _cpu_samples mc else _cpu_samples mc ++ [cpu]
            | None => _cpu_samples mc
            end in
          {| collector_name := collector_name mc; scenario_name := scenario_name mc;
             log_file := log_file mc; _start_time := _start_time mc;
             _target_process := _target_process mc; _peak_memory := peak;
             _cpu_samples := cpu_samples |}
      end
  end.

(** The memory sum a sample observes, when the process could be read. *)
Definition observed (rd : reading) : option Q :=
  own_rss ← rss rd; Some (memory_sum own_rss (children rd)).

Definition qsum (l : list Q) : Q := foldr Qplus 0%Q l.

(** The CPU reading a [sample] appends: one above zero, of a process whose
    memory could be read first. *)
Definition recorded_cpu (rd : reading) : option Q :=
  _ ← rss rd; c ← cpu rd; if Qle_bool c 0 then None else Some c.

(** [stop], with the clock's reading and the formatted time. *)
Definition stop (mc : MetricsCollector) (items_count : Z) (success : bool)
    (now : Q) (timestamp : string) : result BenchmarkMetrics :=
  match _start_time mc with
  | None => Raise RuntimeError
  | Some start_time =>
      let runtime := (now - start_time)%Q in
      Ok {| total_runtime_seconds := runtime;
            items_extracted := items_count;
            items_per_second :=
              if Qle_bool runtime 0 then 0%Q else (inject_Z items_count / runtime)%Q;
            peak_memory_mb := _peak_memory mc;
            avg_cpu_percent :=
              match _cpu_samples mc with
              | [] => 0%Q
              | _ => (qsum (_cpu_samples mc)
                      / inject_Z (Z.of_nat (length (_cpu_samples mc))))%Q
              end;
            success := success;
            bm_collector_name := collector_name mc;
            bm_scenario_name := scenario_name mc;
            timestamp := timestamp;
            bm_log_file := log_file mc |}
  end.

End Collector.

(** ** [runner.py]: supervising one process and building its report *)

Module Runner.
Import Quality.

Definition BENCHMARK_TIMEOUT_SECONDS_DEFAULT : Z := 300.
Definition RESOURCE_SAMPLE_INTERVAL_SECONDS : Q := 1 # 2.

(** What the supervisor sees of the outside while [_run_process] runs.
    Iterations of the [while True] loop are numbered from 0. *)
Record process_env := {
  launch : result Z;                      (* [Popen]: the pid, or its error *)
  attach_found : bool;                    (* see [Collector.attach_to_process] *)
  start_clock : Q;                        (* [time.time()] before the loop *)
  poll : nat → option Z;                  (* [process.poll()] at iteration i *)
  clock : nat → Q;                        (* [time.time()] at iteration i *)
  readings : nat → Collector.reading;     (* psutil at iteration i's sample *)
}.

Record outcome := {
  exit_code : Z;
  collector : Collector.MetricsCollector;
  killed : bool;                          (* [process.kill()] was called *)
  iterations : nat;                       (* [process.poll()] calls made *)
}.

(** The [while True] loop.  Each iteration polls first; only a process
    still running is held against the timeout. *)
Fixpoint poll_loop (env : process_env) (timeout_seconds : Z) (fuel i : nat)
    (metrics : Collector.MetricsCollector) : option outcome :=
  match fuel with
  | O => None
  | S fuel' =>
      match poll env i with
      | Some code =>
          Some {| exit_code := code; collector := metrics; killed := false;
                  iterations := S i |}
      | None =>
          if negb (Qle_bool (clock env i - start_clock env) (inject_Z timeout_seconds))
          then Some {| exit_code := -1; collector := metrics; killed := true;
                       iterations := S i |}
          else poll_loop env timeout_seconds fuel' (S i)
                 (Collector.sample metrics (readings env i))
      end
  end.

(** At iteration [j] the clock has not passed the timeout. *)
Definition within (env : process_env) (timeout_seconds : Z) (j : nat) : Prop :=
  (clock env j - start_clock env <= inject_Z timeout_seconds)%Q.

(** Before iteration [n] the process was running and within its time. *)
Definition running_until (env : process_env) (timeout_seconds : Z) (n : nat) : Prop :=
  ∀ j, (j < n)%nat → poll env j = None ∧ within env timeout_seconds j.

(** [_run_process]; [None] when [fuel] iterations did not end the loop. *)
Definition _run_process (env : process_env) (timeout_seconds : Z) (fuel : nat)
    (metrics : Collector.MetricsCollector) : option (result outcome) :=
  match launch env with
  | Raise e => Some (Raise e)
  | Ok pid =>
      let metrics := Collector.attach_to_process metrics pid (attach_found env) in
      Ok <$> poll_loop env timeout_seconds fuel 0 metrics
  end.

(** [_count_items_in_jsonl]: one per line of a file that reads to its end,
    [0] if it cannot be opened or its reading fails part-way. *)
Definition _count_items_in_jsonl (fs : FS.filesystem) (filepath : FS.Path) : Z :=
  match FS.open fs filepath with
  | Ok (lines, None) => Z.of_nat (length lines)
  | Ok (_, Some _) => 0
  | Raise _ => 0
  end.

(** [sum(_count_items_in_jsonl(f) for f in output_files if f.exists())] *)
Definition items_count (fs : FS.filesystem) (output_files : list FS.Path) : Z :=
  Dict.sum (_count_items_in_jsonl fs <$> filter (λ f, FS.exists_ fs f = true) output_files).

(** [result.model_dump()] *)
Definition model_dump (r : Collector.BenchmarkMetrics) : gmap string mval :=
  <["total_runtime_seconds" := VFloat (Collector.total_runtime_seconds r)]>
  (<["items_extracted" := VInt (Collector.items_extracted r)]>
  (<["items_per_second" := VFloat (Collector.items_per_second r)]>
  (<["peak_memory_mb" := VFloat (Collector.peak_memory_mb r)]>
  (<["avg_cpu_percent" := VFloat (Collector.avg_cpu_percent r)]>
  (<["success" := VBool (Collector.success r)]>
  (<["collector_name" := VStr (Collector.bm_collector_name r)]>
  (<["scenario_name" := VStr (Collector.bm_scenario_name r)]>
  (<["timestamp" := VStr (Collector.timestamp r)]>
  (<["log_file" := VStr (Collector.bm_log_file r)]> ∅))))))))).

(** The fields of [BenchmarkMetrics], the keys of [model_dump]. *)
Definition BASE_FIELDS : list string :=
  ["total_runtime_seconds"; "items_extracted"; "items_per_second"; "peak_memory_mb";
   "avg_cpu_percent"; "success"; "collector_name"; "scenario_name"; "timestamp";
   "log_file"].

Section report.
Context `{PyLib}.

(** The loop inside [try:] of [_add_quality_metrics]: the posts files are
    opened without an existence test, and nothing but a rejected line is
    caught inside the loop.  ([open] is called without an encoding here;
    the locale's is taken to be UTF-8, so that the file reads as it does
    for [_load_jsonl].) *)
Definition enhanced_body (fs : FS.filesystem) (items : list json)
    (file_path : FS.Path) : result (list json) :=
  if String.eqb (FS.suffix file_path) ".jsonl" && contains "posts" (FS.name file_path)
  then
    '(lines, read_error) ← FS.open fs file_path;
    match load_lines lines items with
    | (items, None) =>
        match read_error with
        | None => Ok items
        | Some e => Raise e
        end
    | (_, Some e) => Raise e
    end
  else Ok items.

(** The [try:] block: the report with [enhanced_metrics] added, or what
    was raised. *)
Definition enhanced_try (fs : FS.filesystem) (output_files : list FS.Path)
    (result_dict : gmap string mval) : result (gmap string mval) :=
  items ← for_each (enhanced_body fs) [] output_files;
  match items with
  | [] => Ok result_dict
  | _ =>
      e ← Enhanced.calculate_all_metrics_any items;
      Ok (<["enhanced_metrics" := VEnhanced e]> result_dict)
  end.

(** [quality_metrics.get(k, 0)], to be compared with 0 and divided. *)
Definition get_count (quality_metrics : gmap string mval) (k : string) : result Q :=
  mval_number (default (VInt 0) (quality_metrics !! k)).

(** [_add_quality_metrics] *)
Definition _add_quality_metrics (fs : FS.filesystem) (result_dict : gmap string mval)
    (output_files : list FS.Path) (runtime_seconds : Q) : result (gmap string mval) :=
  quality_metrics ← calculate_all_metrics fs output_files;
  let result_dict := quality_metrics ∪ result_dict in
  let result_dict :=
    match output_files with
    | [] => result_dict
    | _ =>
        match enhanced_try fs output_files result_dict with
        | Ok d => d
        | Raise e => <["enhanced_metrics_error" := VError e]> result_dict
        end
    end in
  if negb (Qle_bool runtime_seconds 0) then
    total_items ← get_count quality_metrics "total_items";
    let result_dict :=
      if negb (Qle_bool total_items 0)
      then <["items_per_second" := VFloat (total_items / runtime_seconds)]> result_dict
      else result_dict in
    items_with_text ← get_count quality_metrics "items_with_text";
    Ok (if negb (Qle_bool items_with_text 0)
        then <["text_items_per_second" :=
                 VFloat (items_with_text / runtime_seconds)]> result_dict
        else result_dict)
  else Ok result_dict.

(** The values [calculate_all_metrics] analyses: those loaded from the
    declared files that exist and are named [*.jsonl], in the order
    declared. *)
Definition records (fs : FS.filesystem) (output_files : list FS.Path) : list json :=
  concat ((λ p, if FS.exists_ fs p && String.eqb (FS.suffix p) ".jsonl"
                then _load_jsonl fs p else []) <$> output_files).

(** The JSON objects among them: all of them, whenever the analysis
    returns. *)
Definition loaded (fs : FS.filesystem) (output_files : list FS.Path) : list JsonItem :=
  omap as_obj (records fs output_files).

(** The lines counted for a declared file: those of a file that reads to
    its end, none if it is missing, unreadable or its reading fails. *)
Definition file_lines (fs : FS.filesystem) (p : FS.Path) : list string :=
  match fs !! p with Some (FS.File lines) => lines | _ => [] end.

(** The files the [try:] block of [_add_quality_metrics] reads. *)
Definition is_posts_file (p : FS.Path) : bool :=
  String.eqb (FS.suffix p) ".jsonl" && contains "posts" (FS.name p).

(** The file opens and reads to its end, and [json.loads] raises nothing
    but [JSONDecodeError] on its lines. *)
Definition loads_cleanly (fs : FS.filesystem) (p : FS.Path) : Prop :=
  ∃ lines, fs !! p = Some (FS.File lines) ∧ reached lines = lines.

(** The values parsed from the posts files, in the order declared. *)
Definition posts_records (fs : FS.filesystem) (output_files : list FS.Path)
    : list json :=
  concat ((λ p, if is_posts_file p then omap loaded_value (file_lines fs p) else [])
          <$> output_files).

(** The records that have text, whatever its length. *)
Definition with_text (items : list JsonItem) : list JsonItem :=
  filter (λ item, _extract_text item TEXT_FIELDS ≠ "") items.

(** The records whose text has at least [MIN_NONTRIVIAL_TEXT_LENGTH]
    characters. *)
Definition with_nontrivial_text (items : list JsonItem) : list JsonItem :=
  filter (λ item, MIN_NONTRIVIAL_TEXT_LENGTH ≤ len (_extract_text item TEXT_FIELDS))
         items.

(** [result_dict.get(k)] on what a run returned. *)
Definition field (r : result (gmap string mval)) (k : string) : result (option mval) :=
  d ← r; Ok (d !! k).

(** [_execute_benchmark] from the return of [_run_process] on: [fs] is the
    file system the process left behind, [now] the clock read by [stop]. *)
Definition report (fs : FS.filesystem) (output_files : list FS.Path)
    (exit_code : Z) (metrics : Collector.MetricsCollector) (now : Q)
    (timestamp : string) : result (gmap string mval) :=
  let items_count := items_count fs output_files in
  let success := exit_code =? 0 in
  result ← Collector.stop metrics items_count success now timestamp;
  let result_dict := model_dump result in
  if success
  then _add_quality_metrics fs result_dict output_files
         (Collector.total_runtime_seconds result)
  else Ok result_dict.

(** [_execute_benchmark] *)
Definition _execute_benchmark (env : process_env) (fs : FS.filesystem)
    (output_files : list FS.Path) (collector_name scenario_name log_file : string)
    (timeout_seconds : Z) (fuel : nat) (started now : Q) (timestamp : string)
    : option (result (gmap string mval)) :=
  let metrics := Collector.init collector_name scenario_name in
  let metrics := Collector.set_log_file metrics log_file in
  let metrics := Collector.start metrics started in
  r ← _run_process env timeout_seconds fuel metrics;
  Some (o ← r; report fs output_files (exit_code o) (collector o) now timestamp).

End report.
End Runner.

(** ** Lines of a file *)

(** [Interleaving l1 l2 l]: [l] holds the elements of [l1] and of [l2],
    each list in its own order, mixed in any way. *)
Inductive Interleaving {A} : list A → list A → list A → Prop :=
  | il_nil : Interleaving [] [] []
  | il_left x l1 l2 l : Interleaving l1 l2 l → Interleaving (x :: l1) l2 (x :: l)
  | il_right x l1 l2 l : Interleaving l1 l2 l → Interleaving l1 (x :: l2) (x :: l).

(** ** Concrete inputs *)

Module Sample.

(** The double quote, to write lines of JSON. *)
Definition dq : string := String (ascii_of_nat 34) EmptyString.

(** The line [{"k": "v"}]. *)
Definition line_of (k v : string) : string :=
  "{" +:+ dq +:+ k +:+ dq +:+ ": " +:+ dq +:+ v +:+ dq +:+ "}".

(** The line [{"k": n}]. *)
Definition line_of_int (k : string) (n : Z) : string :=
  "{" +:+ dq +:+ k +:+ dq +:+ ": " +:+ pretty n +:+ "}".

(** The objects [json.loads] returns on the lines the examples use. *)
Definition parsed : list (string * JsonItem) :=
  [ (line_of "text" "hi", {[ "text" := JStr "hi" ]});
    (line_of_int "url" 5, {[ "url" := JInt 5 ]});
    (line_of "url" "http://[", {[ "url" := JStr "http://[" ]});
    (line_of "url" "https://forum.example/threads/42/page-2",
     {[ "url" := JStr "https://forum.example/threads/42/page-2" ]});
    (line_of "id" "a", {[ "id" := JStr "a" ]});
    (line_of "id" "b", {[ "id" := JStr "b" ]});
    ("{}", ∅) ].

(** MD5 digests of the texts the examples use. *)
Definition digests : list (string * string) :=
  [ ("hi", "49f68a5c8493ec2c0bf489821c21fc3b");
    ("bye", "bfa99df33b137bc8fb5f5407d7e58da8");
    ("x", "9dd4e461268c8034f5c8564e155c67a6");
    ("y", "415290769594460e2e485922904f345d") ].

(** [str] on strings, integers, booleans and [None]; the examples coerce no
    other value. *)
Definition str (v : json) : string :=
  match v with
  | JStr s => s
  | JInt z => pretty z
  | JBool b => if b then "True" else "False"
  | JNull => "None"
  | _ => ""
  end.

(** [urllib.parse.urlsplit], as far as the netloc: leading control
    characters and spaces are stripped, tabs and line ends removed, a
    scheme is split off, and what follows [//] up to the next [/], [?] or
    [#] is the netloc; one square bracket without the other is an
    [Invalid IPv6 URL].  The further checks CPython makes on a bracketed or
    non-ASCII host are left out. *)
Definition is_alpha (c : ascii) : bool :=
  let n := nat_of_ascii c in
  ((65 <=? n) && (n <=? 90) || (97 <=? n) && (n <=? 122))%nat.
Definition scheme_char (c : ascii) : bool :=
  let n := nat_of_ascii c in
  (is_alpha c || (48 <=? n) && (n <=? 57) || (n =? 43) || (n =? 45) || (n =? 46))%nat.
Fixpoint lstrip (s : string) : string :=
  match s with
  | String c s' => if (nat_of_ascii c <=? 32)%nat then lstrip s' else s
  | EmptyString => EmptyString
  end.
Fixpoint remove_unsafe (s : string) : string :=
  match s with
  | String c s' =>
      let n := nat_of_ascii c in
      if ((n =? 9) || (n =? 10) || (n =? 13))%nat then remove_unsafe s'
      else String c (remove_unsafe s')
  | EmptyString => EmptyString
  end.
Definition split_scheme (url : string) : string :=
  let head := take_while (λ c, negb (Ascii.eqb c ":"%char)) url in
  let rest := drop (String.length head) url in
  match head, rest with
  | String c _, String _ after =>
      if is_alpha c && String.eqb (take_while scheme_char head) head then after else url
  | _, _ => url
  end.
Definition urlsplit_netloc (url : string) : result string :=
  let url := split_scheme (remove_unsafe (lstrip url)) in
  if String.prefix "//" url then
    let netloc :=
      take_while (λ c, negb (Ascii.eqb c "/"%char || Ascii.eqb c "?"%char
                             || Ascii.eqb c "#"%char)) (drop 2 url) in
    if xorb (contains "[" netloc) (contains "]" netloc)
    then Raise ValueError else Ok netloc
  else Ok "".

(** [json.loads] refuses an integer literal of more than 4300 digits with
    a plain [ValueError]. *)
Fixpoint digit_run (run : nat) (s : string) : bool :=
  match s with
  | EmptyString => false
  | String c s' =>
      if Quality.isdigit c then (4300 <? S run)%nat || digit_run (S run) s'
      else digit_run 0 s'
  end.

(** The line [{"k": 11...1}], with [n] digits. *)
Definition line_of_digits (k : string) (n : nat) : string :=
  "{" +:+ dq +:+ k +:+ dq +:+ ": " +:+ String.concat "" (replicate n "1") +:+ "}".

(** [json.loads] on the lines the examples use: the objects of [parsed],
    the number 5, and [ValueError] for a line that holds more than 4300
    digits in a row; they take any other line as malformed. *)
Definition loads (line : string) : loads_result :=
  if digit_run 0 line then LoadsError ValueError
  else
    match (list_to_map parsed : gmap string JsonItem) !! line with
    | Some item => Loaded (JObj item)
    | None => if String.eqb line "5" then Loaded (JInt 5) else JSONDecodeError
    end.

#[export] Instance lib : PyLib := {|
  json_loads := loads;
  str_encode s := Ok s;
  md5_hexdigest s := default s ((list_to_map digests : gmap string string) !! s);
  py_str := str;
  py_str_str := λ s, eq_refl;
  urlparse_netloc := urlsplit_netloc;
|}.

(** A file of three lines, the middle one malformed. *)
Definition posts_path : FS.Path := {| FS.parent := "run"; FS.name := "posts.jsonl" |}.
Definition mixed_lines : list string :=
  [line_of "id" "a"; "oops"; line_of "text" "hi"].
Definition mixed_fs : FS.filesystem := {[ posts_path := FS.File mixed_lines ]}.

(** A file of three lines, the middle one an object with an integer of
    5000 digits; and a file whose reading fails after its first line. *)
Definition digits_lines : list string :=
  [line_of "id" "a"; line_of_digits "n" 5000; line_of "text" "hi"].
Definition digits_fs : FS.filesystem := {[ posts_path := FS.File digits_lines ]}.
Definition broken_fs : FS.filesystem :=
  {[ posts_path := FS.Broken [line_of "id" "a"] UnicodeDecodeError ]}.

(** Three samples of a process with children: 3 MB in all with one child
    gone, then the process unreadable, then 2 MB. *)
Definition readings : list Collector.reading :=
  [ {| Collector.rss := Some 2097152;
       Collector.children := Some [Some 1048576; None];
       Collector.cpu := Some (25 # 2) |};
    {| Collector.rss := None; Collector.children := None; Collector.cpu := None |};
    {| Collector.rss := Some 2097152; Collector.children := None;
       Collector.cpu := Some 0%Q |} ].
Definition fresh : Collector.MetricsCollector := Collector.init "reddit" "50".
Definition attached : Collector.MetricsCollector :=
  Collector.attach_to_process fresh 4242 true.

(** A process with a budget of 1 second, polled at seconds 0, 1 and 2,
    that is found exited with code 0 at second 2, past its budget. *)
Definition late_exit : Runner.process_env :=
  {| Runner.launch := Ok 4242;
     Runner.attach_found := true;
     Runner.start_clock := 0;
     Runner.poll := λ i, if (i <? 2)%nat then None else Some 0;
     Runner.clock := λ i, inject_Z (Z.of_nat i);
     Runner.readings := λ i, nth i readings (Collector.Build_reading None None None) |}.

(** The same, but the process never exits. *)
Definition hangs : Runner.process_env :=
  {| Runner.launch := Ok 4242;
     Runner.attach_found := true;
     Runner.start_clock := 0;
     Runner.poll := λ _, None;
     Runner.clock := λ i, inject_Z (Z.of_nat i);
     Runner.readings := λ i, nth i readings (Collector.Build_reading None None None) |}.

(** Four records whose texts are 40, 10, 30 and 20 characters long. *)
Definition text_of_length (n : nat) : JsonItem :=
  {[ "text" := JStr (String.concat "" (replicate n "a")) ]}.
Definition four_texts : list JsonItem :=
  [text_of_length 40; text_of_length 10; text_of_length 30; text_of_length 20].

(** The three posts of the specification's example, and a reordering. *)
Definition post (id text : string) : JsonItem :=
  {[ "id" := JStr id; "text" := JStr text ]}.
Definition three_posts : list JsonItem := [post "a" "hi"; post "a" "hi"; post "b" "bye"].
Definition three_posts_reordered : list JsonItem :=
  [post "b" "bye"; post "a" "hi"; post "a" "hi"].



(** A record whose author is under [user], and one whose [author] is the
    empty string. *)
Definition by_user : list JsonItem := [ {[ "user" := JStr "bob" ]} ].
Definition empty_author : list JsonItem := [ {[ "author" := JStr "" ]} ].
(** Three posts by two authors, one of them anonymous. *)
Definition authored : list JsonItem :=
  [ {[ "author" := JStr "ann" ]}; {[ "author" := JStr "ann" ]}; {[ "author" := JNull ]};
    {[ "author" := JStr "bob" ]} ].

(** One record each: a number under [url]; a text [urlparse] rejects; a
    thread page. *)
Definition number_url_fs : FS.filesystem :=
  {[ posts_path := FS.File [line_of_int "url" 5] ]}.
Definition bracket_url_fs : FS.filesystem :=
  {[ posts_path := FS.File [line_of "url" "http://["] ]}.
Definition thread_url_fs : FS.filesystem :=
  {[ posts_path := FS.File [line_of "url" "https://forum.example/threads/42/page-2"] ]}.

Definition started : Collector.MetricsCollector :=
  Collector.start (Collector.set_log_file fresh "reddit.log") 10.

(** A process that psutil cannot attach to, found exited with code 0 at the
    third poll. *)
Definition unattached : Runner.process_env :=
  {| Runner.launch := Ok 4242;
     Runner.attach_found := false;
     Runner.start_clock := 0;
     Runner.poll := λ i, if (i <? 2)%nat then None else Some 0;
     Runner.clock := λ i, (inject_Z (Z.of_nat i) * (1 # 2))%Q;
     Runner.readings := λ i, nth i readings (Collector.Build_reading None None None) |}.

(** A collector started at second 10 and attached to process 4242. *)
Definition attached_started : Collector.MetricsCollector :=
  Collector.attach_to_process started 4242 true.

(** A file of two lines, both well formed; the text is two characters
    long. *)
Definition clean_lines : list string := [line_of "id" "a"; line_of "text" "hi"].
Definition clean_fs : FS.filesystem := {[ posts_path := FS.File clean_lines ]}.

End Sample.

(** * Properties *)

(** ** Loading records *)

Section loading.
Context `{PyLib}.
Import Quality.

Lemma load_lines_reached lines items :
  (load_lines lines items).1 = items ++ omap loaded_value (reached lines).
Proof.
  revert items. induction lines as [|line rest IH]; intros items.
  - simpl. by rewrite app_nil_r.
  - cbn [load_lines reached]. unfold loaded_value.
    destruct (json_loads line) as [v| |e] eqn:E.
    + rewrite IH. cbn [omap list_omap]. rewrite E. by rewrite <- app_assoc.
    + rewrite IH. cbn [omap list_omap]. by rewrite E.
    + simpl. by rewrite app_nil_r.
Qed.

Lemma load_lines_error lines items e :
  (load_lines lines items).2 = Some e →
  ∃ before line after,
    lines = before ++ line :: after ∧ json_loads line = LoadsError e ∧
    reached lines = before.
Proof.
  revert items. induction lines as [|line rest IH]; intros items; [done|].
  cbn [load_lines reached]. destruct (json_loads line) as [v| |e'] eqn:E.
  - intros (before & l & after & -> & Hl & Hr)%IH.
    exists (line :: before), l, after. by rewrite Hr.
  - intros (before & l & after & -> & Hl & Hr)%IH.
    exists (line :: before), l, after. by rewrite Hr.
  - intros [= <-]. by exists [], line, rest.
Qed.

Lemma load_lines_all lines items :
  reached lines = lines → (load_lines lines items).2 = None.
Proof.
  revert items. induction lines as [|line rest IH]; intros items; [done|].
  cbn [load_lines reached]. destruct (json_loads line) as [v| |e'] eqn:E.
  - intros [= Hr]. by apply IH.
  - intros [= Hr]. by apply IH.
  - done.
Qed.

Lemma reached_all lines :
  Forall (λ line, ∀ e, json_loads line ≠ LoadsError e) lines → reached lines = lines.
Proof.
  induction 1 as [|line rest Hline _ IH]; [done|]. cbn [reached].
  destruct (json_loads line) as [v| |e] eqn:E; [by rewrite IH..|by destruct (Hline e)].
Qed.

Lemma reached_app before line after e :
  Forall (λ l, ∀ e', json_loads l ≠ LoadsError e') before →
  json_loads line = LoadsError e →
  reached (before ++ line :: after) = before.
Proof.
  intros Hb Hl. induction Hb as [|l rest Hl' _ IH]; cbn [app reached].
  - by rewrite Hl.
  - destruct (json_loads l) as [v| |e'] eqn:E; [by rewrite IH..|by destruct (Hl' e')].
Qed.

Lemma load_jsonl_reached fs p :
  _load_jsonl fs p = omap loaded_value (reached (read_lines fs p)).
Proof.
  unfold _load_jsonl, FS.open, read_lines.
  destruct (fs !! p) as [[lines|lines e|]|]; try done; by rewrite load_lines_reached.
Qed.

Lemma omap_interleaving (good bad lines : list string) (records : list json) :
  Interleaving good bad lines →
  Forall2 (λ line r, json_loads line = Loaded r) good records →
  Forall (λ line, json_loads line = JSONDecodeError) bad →
  reached lines = lines ∧ omap loaded_value lines = records.
Proof.
  intros Hil. revert records.
  induction Hil as [|x l1 l2 l _ IH|x l1 l2 l _ IH]; intros records Hgood Hbad.
  - by inversion Hgood.
  - inversion Hgood as [|? r ? rs Hx Hrest]; subst.
    destruct (IH _ Hrest Hbad) as [Hr Ho]. cbn [reached omap list_omap].
    unfold loaded_value at 1. rewrite Hx. split; [by rewrite Hr|].
    f_equal. exact Ho.
  - inversion Hbad as [|? ? Hx Hrest]; subst.
    destruct (IH _ Hgood Hrest) as [Hr Ho]. cbn [reached omap list_omap].
    unfold loaded_value at 1. rewrite Hx. split; [by rewrite Hr|]. exact Ho.
Qed.

Lemma load_jsonl_unopened fs p :
  is_ok (FS.open fs p) = false → _load_jsonl fs p = [].
Proof. unfold _load_jsonl. by destruct (FS.open fs p) as [[lines e]|]. Qed.

(** C6.  [_load_jsonl] is a total function.  When every line its reading
    yields either parses or is rejected with [JSONDecodeError], in any
    interleaving, it returns exactly the values of the lines that parse, in
    file order; in general it returns the values parsed from the lines that
    come before the first one on which [json.loads] raises anything else,
    among those the reading yields before it ends or fails.  A path that
    does not exist, or that [open] refuses, yields no record and leaves
    [calculate_all_metrics]'s collection as it was. *)
Theorem load_jsonl_interleaving fs p lines good bad records st :
  (read_lines fs p = lines →
   Interleaving good bad lines →
   Forall2 (λ line r, json_loads line = Loaded r) good records →
   Forall (λ line, json_loads line = JSONDecodeError) bad →
   _load_jsonl fs p = records ∧
   length (_load_jsonl fs p) = length good) ∧
  _load_jsonl fs p = omap loaded_value (reached (read_lines fs p)) ∧
  (∀ before line e after,
     read_lines fs p = before ++ line :: after →
     Forall (λ l, ∀ e', json_loads l ≠ LoadsError e') before →
     json_loads line = LoadsError e →
     _load_jsonl fs p = omap loaded_value before) ∧
  (fs !! p = None →
   _load_jsonl fs p = [] ∧ collect_body fs st p = Ok st) ∧
  (is_ok (FS.open fs p) = false → _load_jsonl fs p = []).
Proof.
  split; [|split; [|split; [|split]]].
  - intros Hp Hil Hgood Hbad. rewrite load_jsonl_reached, Hp.
    destruct (omap_interleaving _ _ _ _ Hil Hgood Hbad) as [-> ->].
    split; [done|]. symmetry. by eapply Forall2_length.
  - apply load_jsonl_reached.
  - intros before line e after Hp Hb Hl. rewrite load_jsonl_reached, Hp.
    by rewrite (reached_app _ _ _ _ Hb Hl).
  - intros Hp. split.
    + apply load_jsonl_unopened. unfold FS.open. by rewrite Hp.
    + unfold collect_body, FS.exists_. destruct st as [all_items file_stats].
      rewrite Hp. rewrite bool_decide_eq_false_2; [done|]. by intros [? ?].
  - apply load_jsonl_unopened.
Qed.

End loading.

Section loading_examples.
#[local] Existing Instance Sample.lib.
Import Quality.

Lemma load_jsonl_interleaving_witness :
  _load_jsonl Sample.mixed_fs Sample.posts_path
    = [ JObj {[ "id" := JStr "a" ]}; JObj {[ "text" := JStr "hi" ]} ] ∧
  _load_jsonl Sample.mixed_fs {| FS.parent := "run"; FS.name := "none.jsonl" |} = [].
Proof.
  split.
  - refine (proj1 (proj1 (load_jsonl_interleaving
      Sample.mixed_fs Sample.posts_path Sample.mixed_lines
      [Sample.line_of "id" "a"; Sample.line_of "text" "hi"] ["oops"]
      [ JObj {[ "id" := JStr "a" ]}; JObj {[ "text" := JStr "hi" ]} ] ([], ∅))
      _ _ _ _)).
    + vm_compute. reflexivity.
    + repeat constructor.
    + repeat constructor.
    + repeat constructor.
  - refine (proj1 (proj1 (proj2 (proj2 (proj2 (load_jsonl_interleaving
      Sample.mixed_fs {| FS.parent := "run"; FS.name := "none.jsonl" |} [] [] [] []
      ([], ∅))))) _)).
    vm_compute. reflexivity.
Defined.

(** Of three lines, two hold well-formed objects and the one between them
    an integer literal that [json.loads] refuses with [ValueError]: one
    record is loaded, not two.  A file whose reading fails after its first
    line loads that line. *)
Lemma load_jsonl_stops_at_other_errors :
  json_loads (Sample.line_of "id" "a") = Loaded (JObj {[ "id" := JStr "a" ]}) ∧
  json_loads (Sample.line_of_digits "n" 5000) = LoadsError ValueError ∧
  json_loads (Sample.line_of "text" "hi") = Loaded (JObj {[ "text" := JStr "hi" ]}) ∧
  _load_jsonl Sample.digits_fs Sample.posts_path = [ JObj {[ "id" := JStr "a" ]} ] ∧
  length (_load_jsonl Sample.digits_fs Sample.posts_path) = 1%nat ∧
  _load_jsonl Sample.broken_fs Sample.posts_path = [ JObj {[ "id" := JStr "a" ]} ].
Proof. do 5 (split; [vm_compute; reflexivity|]). vm_compute; reflexivity. Qed.

End loading_examples.

(** ** Resource sampling *)

Section sampling.
Import Collector.

Lemma qmax_l a b : (a <= qmax a b)%Q.
Proof.
  unfold qmax. destruct (Qle_bool b a) eqn:E; [apply Qle_refl|].
  destruct (Qlt_le_dec a b) as [Hlt|Hle]; [by apply Qlt_le_weak|].
  apply Qle_bool_iff in Hle. congruence.
Qed.

Lemma qmax_r a b : (b <= qmax a b)%Q.
Proof.
  unfold qmax. destruct (Qle_bool b a) eqn:E; [by apply Qle_bool_iff|apply Qle_refl].
Qed.

Lemma qmax_cases a b : qmax a b = a ∨ qmax a b = b.
Proof. unfold qmax. destruct (Qle_bool b a); auto. Qed.

Lemma sample_target mc rd : _target_process (sample mc rd) = _target_process mc.
Proof.
  unfold sample. destruct (_target_process mc) eqn:E; [|by rewrite E].
  by destruct (rss rd).
Qed.

Lemma sample_peak mc rd :
  _target_process mc ≠ None →
  _peak_memory (sample mc rd)
  = match observed rd with
    | Some m => qmax (_peak_memory mc) m
    | None => _peak_memory mc
    end.
Proof.
  intros Ht. unfold sample, observed.
  destruct (_target_process mc); [|done]. by destruct (rss rd).
Qed.

Lemma sample_peak_mono mc rd : (_peak_memory mc <= _peak_memory (sample mc rd))%Q.
Proof.
  unfold sample. destruct (_target_process mc); [|apply Qle_refl].
  destruct (rss rd); [|apply Qle_refl]. simpl. apply qmax_l.
Qed.

Lemma samples_target mc rds :
  _target_process (foldl sample mc rds) = _target_process mc.
Proof.
  revert mc. induction rds as [|rd rds IH]; intros mc; simpl; [done|].
  by rewrite IH, sample_target.
Qed.

(** C9.  After any sequence of samples of an attached collector the peak
    bounds every memory sum observed so far and is one of them (or still
    the value the run started from); one more sample never lowers it; and
    a sample before [attach_to_process] changes nothing. *)
Theorem sample_peak_is_running_max (mc : MetricsCollector)
    (rds : list reading) (rd : reading) :
  (_target_process mc ≠ None →
   (∀ m, m ∈ omap observed rds → (m <= _peak_memory (foldl sample mc rds))%Q) ∧
   (_peak_memory (foldl sample mc rds) = _peak_memory mc ∨
    _peak_memory (foldl sample mc rds) ∈ omap observed rds)) ∧
  (_peak_memory mc <= _peak_memory (sample mc rd))%Q ∧
  (_target_process mc = None →
   sample mc rd = mc ∧
   _peak_memory (sample mc rd) = _peak_memory mc ∧
   _cpu_samples (sample mc rd) = _cpu_samples mc).
Proof.
  split; [|split].
  - intros Ht. induction rds as [|r rds [IHle IHin]] using rev_ind.
    + split; [by intros m Hm; inversion Hm|by left].
    + rewrite foldl_app, omap_app. simpl.
      rewrite sample_peak by (by rewrite samples_target).
      destruct (observed r) as [m'|]; simpl.
      * split.
        -- intros m Hm. apply elem_of_app in Hm as [Hm|Hm].
           ++ eapply Qle_trans; [by apply IHle|apply qmax_l].
           ++ apply list_elem_of_singleton in Hm as ->. apply qmax_r.
        -- destruct (qmax_cases (_peak_memory (foldl sample mc rds)) m') as [->| ->].
           ++ destruct IHin as [?|Hin]; [by left|right].
              apply elem_of_app. by left.
           ++ right. apply elem_of_app. right. by apply list_elem_of_singleton.
      * rewrite app_nil_r. by split.
  - apply sample_peak_mono.
  - intros Ht. unfold sample. by rewrite Ht.
Qed.

Lemma sample_peak_is_running_max_witness :
  (∀ m, m ∈ omap observed Sample.readings →
        (m <= _peak_memory (foldl sample Sample.attached Sample.readings))%Q) ∧
  (_peak_memory (foldl sample Sample.attached Sample.readings) == 3)%Q ∧
  sample Sample.fresh (Build_reading (Some 1048576) None None) = Sample.fresh.
Proof.
  split; [|split].
  - apply (proj1 (sample_peak_is_running_max Sample.attached Sample.readings
                    (Build_reading None None None))).
    vm_compute. discriminate.
  - vm_compute. reflexivity.
  - apply (proj2 (proj2 (sample_peak_is_running_max Sample.fresh []
                           (Build_reading (Some 1048576) None None)))).
    reflexivity.
Defined.

End sampling.

(** ** Which keys the analyzers write *)

Lemma notin_by_compute (k : string) (l : list string) :
  bool_decide (k ∈ l) = false → k ∉ l.
Proof. intros Hb Hin. by rewrite bool_decide_eq_true_2 in Hb. Qed.

Ltac notin := apply notin_by_compute; vm_compute; reflexivity.
Ltac split_notin H := repeat (apply not_elem_of_cons in H as [? H]).
Ltac skip_inserts := repeat (rewrite lookup_insert_ne by (done || congruence)).

Section written_keys.
Context `{PyLib}.
Import Quality.

Lemma text_type_stats_posts lengths (m : gmap string mval) k :
  k ≠ "avg_posts_text_length" → k ≠ "posts_count" →
  text_type_stats "posts" lengths m !! k = m !! k.
Proof.
  intros. unfold text_type_stats. destruct lengths; [done|].
  change ("avg_" +:+ "posts" +:+ "_text_length") with "avg_posts_text_length".
  change ("posts" +:+ "_count") with "posts_count". by skip_inserts.
Qed.

Lemma text_type_stats_pages lengths (m : gmap string mval) k :
  k ≠ "avg_pages_text_length" → k ≠ "pages_count" →
  text_type_stats "pages" lengths m !! k = m !! k.
Proof.
  intros. unfold text_type_stats. destruct lengths; [done|].
  change ("avg_" +:+ "pages" +:+ "_text_length") with "avg_pages_text_length".
  change ("pages" +:+ "_count") with "pages_count". by skip_inserts.
Qed.

Lemma order_stats_other lengths (m : gmap string mval) k :
  k ∉ ["min_text_length"; "max_text_length"; "median_text_length";
       "text_length_p25"; "text_length_p75"] →
  text_length_order_stats lengths m !! k = m !! k.
Proof.
  intros Hk. split_notin Hk. unfold text_length_order_stats.
  destruct lengths; [done|]. by skip_inserts.
Qed.

Lemma text_content_other items (m : gmap string mval) k :
  k ∉ text_keys → _analyze_text_content items m !! k = m !! k.
Proof.
  intros Hk. unfold _analyze_text_content.
  destruct (0 <? _) ; [|done].
  split_notin Hk.
  rewrite order_stats_other by (repeat (apply not_elem_of_cons; split; [done|]);
                                apply not_elem_of_nil).
  rewrite text_type_stats_pages, text_type_stats_posts by done.
  by skip_inserts.
Qed.

Lemma urls_other items (m m' : gmap string mval) k :
  _analyze_urls items m = Ok m' → k ∉ url_keys → m' !! k = m !! k.
Proof.
  unfold _analyze_urls. destruct (for_each url_body url_init items) as [st|e]; [|done].
  intros [= <-] Hk. split_notin Hk. unfold url_report.
  destruct (all_urls st); [by skip_inserts|].
  destruct (url_patterns st), (domains st); by skip_inserts.
Qed.

Lemma identifiers_other items (m : gmap string mval) k :
  k ∉ id_keys → _analyze_identifiers items m !! k = m !! k.
Proof.
  intros Hk. split_notin Hk. unfold _analyze_identifiers, id_report.
  destruct (all_ids items); [done|]. case_match; by skip_inserts.
Qed.

Lemma authors_other items (m : gmap string mval) k :
  k ∉ author_keys → _analyze_authors items m !! k = m !! k.
Proof.
  intros Hk. split_notin Hk. unfold _analyze_authors, authors_report.
  destruct (authors items); [done|]. by skip_inserts.
Qed.

Lemma threads_other items (m m' : gmap string mval) k :
  _analyze_threads items m = Ok m' → k ∉ thread_keys → m' !! k = m !! k.
Proof.
  unfold _analyze_threads.
  destruct (for_each thread_body [] items) as [tids|e]; [|done]. simpl.
  intros Hr Hk. split_notin Hk. unfold thread_report in Hr.
  destruct tids; [by injection Hr as <-|].
  destruct (Dict.counter _); [injection Hr as <-; by skip_inserts|].
  destruct (mval_truthy _).
  - destruct (mval_number _); [|done]. simpl in Hr. injection Hr as <-. by skip_inserts.
  - injection Hr as <-. by skip_inserts.
Qed.

Lemma temporal_other items (m : gmap string mval) k :
  k ∉ temporal_keys → _analyze_temporal_data items m !! k = m !! k.
Proof.
  intros Hk. split_notin Hk. unfold _analyze_temporal_data.
  case_match; by skip_inserts.
Qed.

(** A key no analyzer writes is, after [analyze_items], what it was. *)
Lemma analyze_items_other items (m m' : gmap string mval) k :
  analyze_items items m = Ok m' →
  k ∉ text_keys ++ url_keys ++ id_keys ++ author_keys ++ thread_keys ++ temporal_keys →
  m' !! k = m !! k.
Proof.
  unfold analyze_items. intros Hr Hk.
  repeat (apply not_elem_of_app in Hk as [? Hk]).
  destruct (_analyze_urls _ _) as [m1|] eqn:E1; [|done]. simpl in Hr.
  destruct (_analyze_threads _ _) as [m2|] eqn:E2; [|done]. simpl in Hr.
  injection Hr as <-.
  rewrite temporal_other by done.
  rewrite (threads_other _ _ _ _ E2) by done.
  rewrite authors_other, identifiers_other by done.
  rewrite (urls_other _ _ _ _ E1) by done.
  by apply text_content_other.
Qed.

End written_keys.

(** ** The analyzers on the values loaded *)

Section any_values.
Context `{PyLib}.
Import Quality Runner.

Lemma for_each_raises {S A} (body : S → A → result S) (P : exn → Prop) l :
  (∀ st x e, body st x = Raise e → P e) →
  Exists (λ x, ∀ st, is_ok (body st x) = false) l →
  ∀ st, ∃ e, for_each body st l = Raise e ∧ P e.
Proof.
  intros HP. induction 1 as [x l Hx|x l _ IH]; intros st; simpl.
  - specialize (Hx st). destruct (body st x) as [st'|e] eqn:E; [done|].
    exists e. split; [done|]. by eapply HP.
  - destruct (body st x) as [st'|e] eqn:E; simpl; [apply IH|].
    exists e. split; [done|]. by eapply HP.
Qed.

Lemma for_each_returns {S A} (body : S → A → result S) l :
  Forall (λ x, ∀ st, is_ok (body st x) = true) l →
  ∀ st, ∃ st', for_each body st l = Ok st'.
Proof.
  induction 1 as [|x l Hx _ IH]; intros st; simpl; [by eexists|].
  specialize (Hx st). destruct (body st x) as [st'|e]; [|done]. apply IH.
Qed.

Lemma for_each_obj_pure {S} (body_any : S → json → result S)
    (body : S → JsonItem → S) (ds : list JsonItem) :
  (∀ st m, body_any st (JObj m) = Ok (body st m)) →
  ∀ st, for_each body_any st (JObj <$> ds) = Ok (foldl body st ds).
Proof.
  intros Hb. induction ds as [|m ds IH]; intros st; [done|].
  cbn [fmap list_fmap for_each foldl]. rewrite Hb. apply IH.
Qed.

Lemma for_each_obj {S} (body_any : S → json → result S)
    (body : S → JsonItem → result S) (ds : list JsonItem) :
  (∀ st m, body_any st (JObj m) = body st m) →
  ∀ st, for_each body_any st (JObj <$> ds) = for_each body st ds.
Proof.
  intros Hb. induction ds as [|m ds IH]; intros st; [done|].
  cbn [fmap list_fmap for_each]. rewrite Hb.
  destruct (body st m); [apply IH|done].
Qed.

Lemma for_each_ext {S A} (f g : S → A → result S) l :
  (∀ st x, f st x = g st x) → ∀ st, for_each f st l = for_each g st l.
Proof.
  intros Hfg. induction l as [|x l IH]; intros st; [done|].
  cbn [for_each]. rewrite Hfg. destruct (g st x); [apply IH|done].
Qed.

Lemma has_lookup (m : JsonItem) k :
  has m k = match m !! k with Some _ => true | None => false end.
Proof.
  unfold has. destruct (m !! k).
  - by rewrite bool_decide_eq_true_2.
  - rewrite bool_decide_eq_false_2; [done|]. by intros [? ?].
Qed.

Lemma extract_text_any_obj m fields :
  _extract_text_any (JObj m) fields = Ok (_extract_text m fields).
Proof.
  induction fields as [|f rest IH]; [done|].
  cbn [_extract_text_any _extract_text py_in mbind result_bind item_at].
  rewrite has_lookup. destruct (m !! f) as [v|]; [|done].
  cbn [mbind result_bind]. destruct v; try done. by destruct (strip_nonempty s).
Qed.

Lemma text_body_any_obj st m : text_body_any st (JObj m) = Ok (text_body st m).
Proof.
  unfold text_body_any, text_body. rewrite extract_text_any_obj.
  cbn [mbind result_bind]. destruct (negb _); [|done].
  unfold or_else. cbn [py_in mbind result_bind].
  by destruct (has m "thread_url"), (has m "post_id"), (has m "url").
Qed.

Lemma analyze_text_content_any_obj ds (metrics : gmap string mval) :
  _analyze_text_content_any (JObj <$> ds) metrics
  = Ok (_analyze_text_content ds metrics).
Proof.
  unfold _analyze_text_content_any.
  rewrite (for_each_obj_pure _ text_body) by apply text_body_any_obj.
  cbn [mbind result_bind]. by rewrite length_fmap.
Qed.

Lemma url_field_body_any_obj m st f :
  url_field_body_any (JObj m) st f = url_field_body m st f.
Proof.
  unfold url_field_body_any, url_field_body.
  cbn [py_in mbind result_bind item_at]. rewrite has_lookup.
  destruct (m !! f) as [v|]; [|by destruct st].
  cbn [mbind result_bind]. destruct st as [d p]. by destruct v.
Qed.

Lemma url_body_any_obj st m : url_body_any st (JObj m) = url_body st m.
Proof.
  unfold url_body_any, url_body, and_then, or_else.
  cbn [py_in mbind result_bind item_at fmap result_fmap].
  rewrite (has_lookup m "url"), (has_lookup m "thread_url").
  destruct (m !! "url") as [u|], (m !! "thread_url") as [t|], (has m "post_id");
    cbn [mbind result_bind fmap result_fmap negb orb andb is_str];
    try destruct u; try destruct t;
    cbn [mbind result_bind fmap result_fmap negb orb andb is_str];
    by rewrite (for_each_ext _ _ _ (url_field_body_any_obj m)).
Qed.

Lemma analyze_urls_any_obj ds (metrics : gmap string mval) :
  _analyze_urls_any (JObj <$> ds) metrics = _analyze_urls ds metrics.
Proof.
  unfold _analyze_urls_any, _analyze_urls.
  by rewrite (for_each_obj _ url_body) by apply url_body_any_obj.
Qed.

Lemma first_field_any_obj test m fields :
  first_field_any test (JObj m) fields = Ok (first_field test m fields).
Proof.
  induction fields as [|f rest IH]; [done|].
  cbn [first_field_any first_field py_in mbind result_bind item_at].
  rewrite has_lookup. destruct (m !! f) as [v|]; [|done].
  cbn [mbind result_bind]. by destruct (test v).
Qed.

Lemma found_fields_obj test fields ds :
  found_fields test fields (JObj <$> ds)
  = Ok (omap (λ m, first_field test m fields) ds).
Proof.
  unfold found_fields.
  rewrite (for_each_obj_pure _ (λ found m, found ++ option_list (first_field test m fields))).
  - f_equal.
    assert (∀ acc, foldl (λ found m, found ++ option_list (first_field test m fields))
                     acc ds = acc ++ omap (λ m, first_field test m fields) ds) as Hacc.
    { induction ds as [|m ds IH]; intros acc; simpl; [by rewrite app_nil_r|].
      rewrite IH. rewrite <- app_assoc. f_equal.
      by destruct (first_field test m fields). }
    by rewrite Hacc.
  - intros st m. by rewrite first_field_any_obj.
Qed.

Lemma analyze_identifiers_any_obj ds (metrics : gmap string mval) :
  _analyze_identifiers_any (JObj <$> ds) metrics
  = Ok (_analyze_identifiers ds metrics).
Proof.
  unfold _analyze_identifiers_any, _analyze_identifiers, all_ids.
  rewrite found_fields_obj. cbn [mbind result_bind]. by rewrite list_fmap_omap.
Qed.

Lemma analyze_authors_any_obj ds (metrics : gmap string mval) :
  _analyze_authors_any (JObj <$> ds) metrics = Ok (_analyze_authors ds metrics).
Proof.
  unfold _analyze_authors_any, _analyze_authors, authors.
  rewrite found_fields_obj. cbn [mbind result_bind]. by rewrite list_fmap_omap.
Qed.

Lemma analyze_temporal_data_any_obj ds (metrics : gmap string mval) :
  _analyze_temporal_data_any (JObj <$> ds) metrics
  = Ok (_analyze_temporal_data ds metrics).
Proof.
  unfold _analyze_temporal_data_any. rewrite found_fields_obj.
  cbn [mbind result_bind]. by rewrite length_fmap.
Qed.

Lemma thread_id_of_any_obj m : thread_id_of_any (JObj m) = thread_id_of m.
Proof.
  unfold thread_id_of_any, thread_id_of, or_else, py_or, get.
  cbn [py_in mbind result_bind item_get]. unfold get_or.
  assert (Htail : ∀ tid : json,
    (if negb (truthy tid)
     then if truthy (default JNull (m !! "thread_id"))
          then Ok (default JNull (m !! "thread_id"))
          else Ok (default JNull (m !! "topic_id"))
     else Ok tid)
    = Ok (if negb (truthy tid)
          then if truthy (default JNull (m !! "thread_id"))
               then default JNull (m !! "thread_id")
               else default JNull (m !! "topic_id")
          else tid)).
  { intros tid. destruct (negb (truthy tid)); [|done].
    by destruct (truthy (default JNull (m !! "thread_id"))). }
  destruct (has m "thread_url"), (has m "url"); cbn [orb mbind result_bind];
    try apply Htail;
    destruct (truthy (default JNull (m !! "thread_url"))); cbn [mbind result_bind];
    (destruct (first_match _ _) as [tid|]; cbn [mbind result_bind]; [|done]);
    apply Htail.
Qed.

Lemma thread_body_any_obj st m : thread_body_any st (JObj m) = thread_body st m.
Proof. unfold thread_body_any, thread_body. by rewrite thread_id_of_any_obj. Qed.

Lemma analyze_threads_any_obj ds (metrics : gmap string mval) :
  _analyze_threads_any (JObj <$> ds) metrics = _analyze_threads ds metrics.
Proof.
  unfold _analyze_threads_any, _analyze_threads.
  by rewrite (for_each_obj _ thread_body) by apply thread_body_any_obj.
Qed.

(** On JSON objects the analyzers are those of the first part. *)
Lemma analyze_items_any_obj ds (metrics : gmap string mval) :
  analyze_items_any (JObj <$> ds) metrics = analyze_items ds metrics.
Proof.
  unfold analyze_items_any, analyze_items.
  rewrite analyze_text_content_any_obj. cbn [mbind result_bind].
  rewrite analyze_urls_any_obj. destruct (_analyze_urls _ _) as [m1|]; [|done].
  cbn [mbind result_bind].
  rewrite analyze_identifiers_any_obj. cbn [mbind result_bind].
  rewrite analyze_authors_any_obj. cbn [mbind result_bind].
  rewrite analyze_threads_any_obj. destruct (_analyze_threads _ _) as [m2|]; [|done].
  cbn [mbind result_bind]. by rewrite analyze_temporal_data_any_obj.
Qed.

(** A value that is not an object stops the thread analyzer, if nothing
    stopped on it before: [item.get] is reached on every path. *)
Lemma thread_body_any_not_obj st v :
  is_obj v = false → is_ok (thread_body_any st v) = false.
Proof.
  intros Hv. unfold thread_body_any, thread_id_of_any, or_else.
  destruct v; try done; cbn [py_in mbind result_bind item_get]; try done.
  - destruct (contains "thread_url" s); cbn [mbind result_bind]; [done|].
    by destruct (contains "url" s).
  - destruct (existsb _ l); cbn [mbind result_bind]; [done|].
    by destruct (existsb _ l).
Qed.

Lemma analyze_items_any_not_obj items (metrics : gmap string mval) :
  Exists (λ v, is_obj v = false) items →
  ∃ e, analyze_items_any items metrics = Raise e.
Proof.
  intros Hex. unfold analyze_items_any.
  destruct (_analyze_text_content_any _ _) as [m1|e]; [|by exists e].
  cbn [mbind result_bind].
  destruct (_analyze_urls_any _ _) as [m2|e]; [|by exists e]. cbn [mbind result_bind].
  destruct (_analyze_identifiers_any _ _) as [m3|e]; [|by exists e].
  cbn [mbind result_bind].
  destruct (_analyze_authors_any _ _) as [m4|e]; [|by exists e]. cbn [mbind result_bind].
  unfold _analyze_threads_any.
  destruct (for_each_raises thread_body_any (λ _, True) items) with (st := @nil string)
    as (e & -> & _); [done| |by exists e].
  eapply Exists_impl; [exact Hex|]. intros v Hv st. by apply thread_body_any_not_obj.
Qed.

Lemma objects_or_not (items : list json) :
  items = JObj <$> omap as_obj items ∨ Exists (λ v, is_obj v = false) items.
Proof.
  induction items as [|v items [IH|IH]].
  - by left.
  - destruct v; try (right; by left). left. cbn [omap list_omap as_obj fmap list_fmap].
    f_equal. exact IH.
  - right. by right.
Qed.

Lemma objects_all (items : list json) :
  Forall (λ v, is_obj v = true) items → items = JObj <$> omap as_obj items.
Proof.
  intros Hall. destruct (objects_or_not items) as [|Hex]; [done|].
  apply Exists_exists in Hex as (v & Hin & Hv).
  rewrite Forall_forall in Hall. specialize (Hall v Hin). congruence.
Qed.

Lemma omap_as_obj (ds : list JsonItem) : omap as_obj (JObj <$> ds) = ds.
Proof. induction ds as [|m ds IH]; [done|]. cbn. by rewrite IH. Qed.

End any_values.

(** ** The records and totals behind a report *)

Section totals.
Context `{PyLib}.
Import Quality Runner.
#[local] Arguments _extract_text : simpl never.

Lemma records_cons fs p files :
  records fs (p :: files)
  = (if FS.exists_ fs p && String.eqb (FS.suffix p) ".jsonl"
     then _load_jsonl fs p else []) ++ records fs files.
Proof. done. Qed.

Lemma collect_body_eq fs acc stats p :
  collect_body fs (acc, stats) p
  = if negb (FS.exists_ fs p) then Ok (acc, stats)
    else if negb (String.eqb (FS.suffix p) ".jsonl") then Ok (acc, stats)
    else match _load_jsonl fs p with
         | [] => Ok (acc, stats)
         | items =>
             file_type ← _guess_file_type (FS.name p) items;
             Ok (acc ++ items,
                 <[FS.name p := (Z.of_nat (length items), file_type)]> stats)
         end.
Proof. unfold collect_body. by destruct (_load_jsonl fs p). Qed.

Lemma collect_items fs files :
  ∀ acc stats r,
  for_each (collect_body fs) (acc, stats) files = Ok r → r.1 = acc ++ records fs files.
Proof.
  induction files as [|p files IH]; intros acc stats r.
  - intros [= <-]. simpl. by rewrite app_nil_r.
  - rewrite records_cons. cbn [for_each]. rewrite collect_body_eq.
    destruct (FS.exists_ fs p); cbn [negb andb mbind result_bind]; [|apply IH].
    destruct (String.eqb (FS.suffix p) ".jsonl"); cbn [negb mbind result_bind];
      [|apply IH].
    destruct (_load_jsonl fs p) as [|item items]; cbn [mbind result_bind]; [apply IH|].
    destruct (_guess_file_type _ _) as [t|]; cbn [mbind result_bind]; [|done].
    intros Hr. apply IH in Hr. by rewrite Hr, <- app_assoc.
Qed.

Lemma guess_file_type_obj name m items :
  ∃ t, _guess_file_type name (JObj m :: items) = Ok t.
Proof.
  unfold _guess_file_type, or_else, and_then. cbn [py_in mbind result_bind].
  destruct (contains "post" _); [eauto|].
  destruct (contains "comment" _); [eauto|].
  destruct (_ || _); [eauto|].
  destruct (has m "thread_url"), (has m "post_id"); cbn [mbind result_bind];
    eauto;
    destruct (has m "comment"), (has m "parent_id"); cbn [mbind result_bind];
    eauto;
    destruct (has m "url"); cbn [mbind result_bind]; eauto.
Qed.

Lemma collect_returns fs files :
  Forall (λ v, is_obj v = true) (records fs files) →
  ∀ acc stats, ∃ stats',
    for_each (collect_body fs) (acc, stats) files = Ok (acc ++ records fs files, stats').
Proof.
  induction files as [|p files IH]; intros Hall acc stats.
  - exists stats. simpl. by rewrite app_nil_r.
  - rewrite records_cons in *. apply Forall_app in Hall as [Hp Hall].
    cbn [for_each]. rewrite collect_body_eq.
    destruct (FS.exists_ fs p); cbn [negb andb mbind result_bind] in *; [|by apply IH].
    destruct (String.eqb (FS.suffix p) ".jsonl"); cbn [negb mbind result_bind] in *;
      [|by apply IH].
    destruct (_load_jsonl fs p) as [|item items]; cbn [mbind result_bind];
      [by apply IH|].
    apply Forall_cons in Hp as [Hitem _]. destruct item; try done.
    destruct (guess_file_type_obj (FS.name p) m items) as [t ->].
    cbn [mbind result_bind].
    destruct (IH Hall (acc ++ JObj m :: items)
                (<[FS.name p := (Z.of_nat (length (JObj m :: items)), t)]> stats))
      as [stats' ->].
    exists stats'. by rewrite <- app_assoc.
Qed.

(** When [calculate_all_metrics] returns, every value loaded was an object
    and the metrics are those of the analyzers on objects. *)
Lemma calculate_all_metrics_ok fs files (qm : gmap string mval) :
  calculate_all_metrics fs files = Ok qm →
  records fs files = JObj <$> loaded fs files ∧
  match loaded fs files with
  | [] => qm = ∅
  | l => ∃ n, analyze_items l
                (<["files_analyzed" := VInt n]>
                   (<["total_items" := VInt (Z.of_nat (length l))]> ∅)) = Ok qm
  end.
Proof.
  unfold calculate_all_metrics.
  destruct (for_each _ _ _) as [[all_items stats]|] eqn:E; [|done].
  apply collect_items in E. simpl in E. subst all_items. cbn [mbind result_bind].
  unfold loaded. destruct (objects_or_not (records fs files)) as [Hobj|Hex].
  - set (ds := omap as_obj (records fs files)) in *. rewrite Hobj.
    destruct ds as [|d ds]; [by intros [= <-]|].
    cbn [fmap list_fmap]. rewrite <- (fmap_cons JObj).
    rewrite analyze_items_any_obj, length_fmap. intros Hr. split; [done|].
    by eexists.
  - destruct (records fs files) as [|v vs] eqn:Er; [by apply Exists_nil in Hex|].
    destruct (analyze_items_any_not_obj (v :: vs)
                (<["files_analyzed" := VInt (Z.of_nat (size stats))]>
                   (<["total_items" := VInt (Z.of_nat (length (v :: vs)))]> ∅)) Hex)
      as [e ->].
    done.
Qed.

Lemma calculate_all_metrics_objects fs files :
  Forall (λ v, is_obj v = true) (records fs files) →
  ∃ n, calculate_all_metrics fs files
       = match loaded fs files with
         | [] => Ok ∅
         | l => analyze_items l
                  (<["files_analyzed" := VInt n]>
                     (<["total_items" := VInt (Z.of_nat (length l))]> ∅))
         end.
Proof.
  intros Hall. unfold calculate_all_metrics.
  destruct (collect_returns fs files Hall [] ∅) as [stats ->].
  cbn [mbind result_bind app]. exists (Z.of_nat (size stats)).
  unfold loaded. pose proof (objects_all _ Hall) as Hobj.
  set (ds := omap as_obj (records fs files)) in *. rewrite Hobj.
  destruct ds as [|d ds]; [done|].
  cbn [fmap list_fmap]. rewrite <- (fmap_cons JObj).
  by rewrite analyze_items_any_obj, length_fmap.
Qed.

Lemma calculate_all_metrics_not_objects fs files :
  Exists (λ v, is_obj v = false) (records fs files) →
  ∃ e, calculate_all_metrics fs files = Raise e.
Proof.
  intros Hex. unfold calculate_all_metrics.
  destruct (for_each _ _ _) as [[all_items stats]|e] eqn:E; [|by exists e].
  apply collect_items in E. simpl in E. subst all_items. cbn [mbind result_bind].
  destruct (records fs files) as [|v vs] eqn:Er; [by apply Exists_nil in Hex|].
  by apply analyze_items_any_not_obj.
Qed.

Lemma items_with_text_count items st :
  items_with_text (foldl text_body st items)
  = items_with_text st + Z.of_nat (length (with_text items)).
Proof.
  revert st. induction items as [|item items IH]; intros st; simpl; [lia|].
  rewrite IH. unfold with_text. rewrite filter_cons. unfold text_body.
  destruct (String.eqb_spec (_extract_text item TEXT_FIELDS) "") as [->|Hne]; simpl.
  - done.
  - rewrite decide_True by done. simpl. lia.
Qed.


(** What [_analyze_text_content] leaves under ["items_with_text"]. *)
Lemma text_content_items_with_text items (m : gmap string mval) :
  _analyze_text_content items m !! "items_with_text"
  = match with_text items with
    | [] => m !! "items_with_text"
    | l => Some (VInt (Z.of_nat (length l)))
    end.
Proof.
  unfold _analyze_text_content. rewrite items_with_text_count.
  change (items_with_text text_init) with 0. rewrite Z.add_0_l.
  destruct (with_text items) as [|i l] eqn:E; [done|].
  assert ((0 <? Z.of_nat (length (i :: l))) = true) as ->
    by (apply Z.ltb_lt; simpl; lia).
  rewrite order_stats_other by notin.
  rewrite text_type_stats_pages, text_type_stats_posts by done.
  skip_inserts. by rewrite lookup_insert_eq.
Qed.

(** The three keys the throughput figures are made of, after the whole
    pipeline. *)
Lemma calculate_all_metrics_totals fs files (qm : gmap string mval) :
  calculate_all_metrics fs files = Ok qm →
  qm !! "total_items"
    = match loaded fs files with
      | [] => None
      | l => Some (VInt (Z.of_nat (length l)))
      end ∧
  qm !! "items_with_text"
    = match with_text (loaded fs files) with
      | [] => None
      | l => Some (VInt (Z.of_nat (length l)))
      end ∧
  ∀ k, k ∉ ["total_items"; "files_analyzed"] ++ text_keys ++ url_keys ++ id_keys
             ++ author_keys ++ thread_keys ++ temporal_keys →
       qm !! k = None.
Proof.
  intros Hqm. destruct (calculate_all_metrics_ok _ _ _ Hqm) as [_ Hl].
  destruct (loaded fs files) as [|item items] eqn:E.
  - subst qm. by repeat split.
  - destruct Hl as [n Hr]. split; [|split].
    + rewrite (analyze_items_other _ _ _ _ Hr) by notin.
      skip_inserts. by rewrite lookup_insert_eq.
    + unfold analyze_items in Hr.
      destruct (_analyze_urls _ _) as [m1|] eqn:E1; [|done]. simpl in Hr.
      destruct (_analyze_threads _ _) as [m2|] eqn:E2; [|done]. simpl in Hr.
      injection Hr as <-.
      rewrite temporal_other by notin.
      rewrite (threads_other _ _ _ _ E2) by notin.
      rewrite authors_other, identifiers_other by notin.
      rewrite (urls_other _ _ _ _ E1) by notin.
      rewrite text_content_items_with_text.
      destruct (with_text _); [by skip_inserts|done].
    + intros k Hk. apply not_elem_of_cons in Hk as [? Hk].
      apply not_elem_of_cons in Hk as [? Hk].
      rewrite (analyze_items_other _ _ _ _ Hr) by done. by skip_inserts.
Qed.

End totals.

(** ** The report of one run *)

Section report.
Context `{PyLib}.
Import Quality Runner.

Lemma Qle_bool_inject_Z_0 n : Qle_bool (inject_Z n) 0 = (n <=? 0).
Proof. unfold Qle_bool. simpl. by rewrite Z.mul_1_r. Qed.








Lemma enhanced_block_other fs files (rd : gmap string mval) k :
  k ∉ ["enhanced_metrics"; "enhanced_metrics_error"] →
  match files with
  | [] => rd
  | _ => match enhanced_try fs files rd with
         | Ok d => d
         | Raise e => <["enhanced_metrics_error" := VError e]> rd
         end
  end !! k = rd !! k.
Proof.
  intros Hk. split_notin Hk. destruct files as [|p files]; [done|].
  unfold enhanced_try. destruct (for_each _ _ _) as [items|e]; simpl.
  - destruct items; [done|].
    destruct (Enhanced.calculate_all_metrics_any _); simpl; by skip_inserts.
  - by skip_inserts.
Qed.

(** [_add_quality_metrics] fails exactly when the analyzers do; otherwise
    it overwrites ["items_per_second"] and sets ["text_items_per_second"]
    from the totals, under a positive runtime. *)
Lemma add_quality_metrics_ok fs (rd : gmap string mval) files rt qm :
  calculate_all_metrics fs files = Ok qm →
  ∃ d, _add_quality_metrics fs rd files rt = Ok d ∧
    d !! "items_per_second"
      = (if Qle_bool rt 0 then rd !! "items_per_second"
         else match loaded fs files with
              | [] => rd !! "items_per_second"
              | l => Some (VFloat (inject_Z (Z.of_nat (length l)) / rt))
              end) ∧
    d !! "text_items_per_second"
      = (if Qle_bool rt 0 then rd !! "text_items_per_second"
         else match with_text (loaded fs files) with
              | [] => rd !! "text_items_per_second"
              | l => Some (VFloat (inject_Z (Z.of_nat (length l)) / rt))
              end) ∧
    (∀ k, k ∉ ["items_per_second"; "text_items_per_second"; "enhanced_metrics";
               "enhanced_metrics_error"; "total_items"; "files_analyzed"]
              ++ text_keys ++ url_keys ++ id_keys ++ author_keys ++ thread_keys
              ++ temporal_keys →
          d !! k = rd !! k) ∧
    d !! "total_items"
      = match loaded fs files with
        | [] => rd !! "total_items"
        | l => Some (VInt (Z.of_nat (length l)))
        end.
Proof.
  intros Hqm. destruct (calculate_all_metrics_totals _ _ _ Hqm) as (Htot & Htxt & Hoth).
  unfold _add_quality_metrics. rewrite Hqm. simpl.
  set (rd1 := match files with [] => qm ∪ rd | _ => _ end).
  assert (Hrd1 : ∀ k, k ∉ ["enhanced_metrics"; "enhanced_metrics_error"] →
                      qm !! k = None → rd1 !! k = rd !! k).
  { intros k Hk Hnone. unfold rd1. rewrite enhanced_block_other by done.
    rewrite lookup_union_r; done. }
  assert (Hips : rd1 !! "items_per_second" = rd !! "items_per_second").
  { apply Hrd1; [notin|]. apply Hoth. notin. }
  assert (Htips : rd1 !! "text_items_per_second" = rd !! "text_items_per_second").
  { apply Hrd1; [notin|]. apply Hoth. notin. }
  assert (Htotal : rd1 !! "total_items"
                   = match loaded fs files with
                     | [] => rd !! "total_items"
                     | l => Some (VInt (Z.of_nat (length l)))
                     end).
  { unfold rd1. rewrite enhanced_block_other by notin.
    destruct (loaded fs files) as [|i l].
    - by rewrite lookup_union_r.
    - by rewrite (lookup_union_Some_l _ _ _ _ Htot). }
  assert (Hrest : ∀ k,
    k ∉ ["items_per_second"; "text_items_per_second"; "enhanced_metrics";
         "enhanced_metrics_error"; "total_items"; "files_analyzed"]
        ++ text_keys ++ url_keys ++ id_keys ++ author_keys ++ thread_keys
        ++ temporal_keys →
    k ≠ "items_per_second" ∧ k ≠ "text_items_per_second" ∧ rd1 !! k = rd !! k).
  { intros k Hk. do 4 (apply not_elem_of_cons in Hk as [? Hk]).
    repeat split; [done..|]. apply Hrd1; [|by apply Hoth].
    repeat (apply not_elem_of_cons; split; [done|]). apply not_elem_of_nil. }
  clearbody rd1. clear Hrd1.
  destruct (Qle_bool rt 0) eqn:Hrt; simpl.
  { eexists; split; [done|]. repeat split; [done..| |done].
    intros k Hk. by apply Hrest. }
  unfold get_count. rewrite Htot, Htxt.
  assert (Hpos : ∀ {A} (x : A) (l : list A),
            Qle_bool (inject_Z (Z.of_nat (length (x :: l)))) 0 = false).
  { intros A x l. rewrite Qle_bool_inject_Z_0. apply Z.leb_gt. simpl. lia. }
  revert Htotal.
  destruct (with_text (loaded fs files)) as [|i1 l1];
    destruct (loaded fs files) as [|i2 l2]; intros Htotal;
    repeat match goal with
           | |- context [length (?x :: ?l)] =>
               let n := fresh "n" in
               let Hn := fresh "Hn" in
               pose proof (Hpos _ x l) as Hn;
               set (n := length (x :: l)) in *
           end;
    simpl; rewrite ?Hn, ?Hn0; simpl;
    (eexists; split; [reflexivity|]);
    (split; [|split; [|split]]);
    try (intros k Hk; destruct (Hrest k Hk) as (? & ? & ?));
    skip_inserts; rewrite ?lookup_insert_eq; done.
Qed.

Lemma add_quality_metrics_raise fs (rd : gmap string mval) files rt e :
  calculate_all_metrics fs files = Raise e →
  _add_quality_metrics fs rd files rt = Raise e.
Proof. intros Hqm. unfold _add_quality_metrics. by rewrite Hqm. Qed.

End report.

Section benchmark.
Context `{PyLib}.
Import Quality Runner.

(** [report] is [stop] followed, on success, by [_add_quality_metrics]. *)
Lemma report_cases fs files code mc started now ts :
  Collector._start_time mc = Some started →
  ∃ r,
    Collector.total_runtime_seconds r = (now - started)%Q ∧
    Collector.items_extracted r = items_count fs files ∧
    Collector.items_per_second r
      = (if Qle_bool (now - started) 0 then 0
         else inject_Z (items_count fs files) / (now - started))%Q ∧
    Collector.success r = (code =? 0) ∧
    report fs files code mc now ts
      = if code =? 0
        then _add_quality_metrics fs (model_dump r) files (now - started)
        else Ok (model_dump r).
Proof.
  intros Hst. unfold report, Collector.stop. rewrite Hst. simpl.
  eexists. repeat split; simpl; reflexivity.
Qed.

Lemma model_dump_lookup r :
  model_dump r !! "items_extracted" = Some (VInt (Collector.items_extracted r)) ∧
  model_dump r !! "items_per_second" = Some (VFloat (Collector.items_per_second r)) ∧
  model_dump r !! "success" = Some (VBool (Collector.success r)) ∧
  model_dump r !! "text_items_per_second" = None.
Proof.
  unfold model_dump. repeat split; skip_inserts; by rewrite ?lookup_insert_eq.
Qed.

(** The report exists unless the analyzers raise on a successful run. *)
Lemma report_exists fs files code mc started now ts :
  Collector._start_time mc = Some started →
  code ≠ 0 ∨ is_ok (calculate_all_metrics fs files) = true →
  ∃ d, report fs files code mc now ts = Ok d.
Proof.
  intros Hst Hok.
  destruct (report_cases fs files code mc started now ts Hst) as (r & _ & _ & _ & _ & ->).
  destruct (Z.eqb_spec code 0) as [->|Hne]; [|by eexists].
  destruct Hok as [?|Hok]; [done|].
  destruct (calculate_all_metrics fs files) as [qm|] eqn:E; [|done].
  destruct (add_quality_metrics_ok fs (model_dump r) files (now - started)%Q qm E)
    as (d & -> & _). by eexists.
Qed.




(** C4, amended.  ["text_items_per_second"] is the number of records
    that have text of any length, over the runtime; the key is set only
    after exit code 0, for a positive runtime and at least one such
    record, and is absent otherwise. *)
Theorem text_items_per_second_counts_text fs files code mc started now ts :
  Collector._start_time mc = Some started →
  (code ≠ 0 ∨ is_ok (calculate_all_metrics fs files) = true →
   ∃ d, report fs files code mc now ts = Ok d) ∧
  ∀ d, report fs files code mc now ts = Ok d →
    let n_text := Z.of_nat (length (with_text (loaded fs files))) in
    d !! "text_items_per_second"
      = if (code =? 0) && negb (Qle_bool (now - started) 0) && (0 <? n_text)
        then Some (VFloat (inject_Z n_text / (now - started)))
        else None.
Proof.
  intros Hst. split; [intros Hok; by eapply report_exists|].
  intros d Hd n_text.
  destruct (report_cases fs files code mc started now ts Hst)
    as (r & _ & _ & _ & _ & Hrep).
  destruct (model_dump_lookup r) as (_ & _ & _ & Hnone).
  rewrite Hrep in Hd. destruct (Z.eqb_spec code 0) as [->|Hne]; simpl.
  - destruct (calculate_all_metrics fs files) as [qm|e] eqn:E;
      [|by rewrite (add_quality_metrics_raise _ _ _ _ _ E) in Hd].
    destruct (add_quality_metrics_ok fs (model_dump r) files (now - started)%Q qm E)
      as (d' & Hd' & _ & Ht & _).
    rewrite Hd' in Hd. injection Hd as <-. rewrite Ht, Hnone.
    destruct (Qle_bool (now - started) 0); [done|]. simpl.
    unfold n_text. by destruct (with_text (loaded fs files)).
  - by injection Hd as <-.
Qed.

End benchmark.

Section benchmark_examples.
#[local] Existing Instance Sample.lib.
Import Quality Runner.



Lemma text_items_per_second_counts_text_witness :
  ∃ d, report Sample.clean_fs [Sample.posts_path] 0 Sample.started 12 "ts" = Ok d ∧
       d !! "text_items_per_second" = Some (VFloat (1 / (12 - 10))).
Proof.
  destruct (text_items_per_second_counts_text Sample.clean_fs [Sample.posts_path] 0
              Sample.started 10 12 "ts" eq_refl) as [Hex Hd].
  destruct Hex as [d Hrep]; [right; vm_compute; reflexivity|].
  exists d. split; [done|]. exact (Hd d Hrep).
Defined.

(** Against C4 as stated: the only text, ["hi"], is shorter than 50
    characters, so no record has non-trivial text, yet the figure is 1/2
    and not 0; and with a runtime of 0 the key is absent, not 0. *)
Lemma text_items_per_second_counts_short_text :
  with_nontrivial_text (loaded Sample.clean_fs [Sample.posts_path]) = [] ∧
  field (report Sample.clean_fs [Sample.posts_path] 0 Sample.started 12 "ts")
        "text_items_per_second" = Ok (Some (VFloat (1 # 2))) ∧
  ¬ (1 # 2 == inject_Z 0 / (12 - 10))%Q ∧
  field (report Sample.clean_fs [Sample.posts_path] 0 Sample.started 10 "ts")
        "text_items_per_second" = Ok None.
Proof.
  repeat split; try (vm_compute; reflexivity). vm_compute. discriminate.
Qed.

End benchmark_examples.

(** ** The supervisor's loop *)

Section supervisor.
Context `{PyLib}.
Import Quality Runner.

Lemma within_dec env timeout j :
  Qle_bool (clock env j - start_clock env) (inject_Z timeout) = true
  ↔ within env timeout j.
Proof. apply Qle_bool_iff. Qed.

(** Whatever the loop returns was decided at its last iteration [n]:
    every earlier iteration found the process running within its time,
    and iteration [n] either saw it exited or saw it running too long. *)
Lemma poll_loop_inv env timeout fuel :
  ∀ i mc o, poll_loop env timeout fuel i mc = Some o →
  ∃ n, (i ≤ n)%nat ∧ iterations o = S n ∧
       (∀ j, (i ≤ j < n)%nat → poll env j = None ∧ within env timeout j) ∧
       ((killed o = false ∧ poll env n = Some (exit_code o)) ∨
        (killed o = true ∧ exit_code o = -1 ∧ poll env n = None ∧
         ¬ within env timeout n)).
Proof.
  induction fuel as [|fuel IH]; intros i mc o Hloop; [done|].
  simpl in Hloop. destruct (poll env i) as [code|] eqn:Hpoll.
  - injection Hloop as <-. exists i. simpl.
    split; [lia|]. split; [done|]. split; [intros j Hj; lia|]. by left.
  - destruct (Qle_bool _ _) eqn:Hin; simpl in Hloop.
    + apply IH in Hloop as (n & Hle & Hit & Hbefore & Hlast).
      exists n. split; [lia|]. split; [done|]. split; [|done].
      intros j Hj. destruct (decide (j = i)) as [->|Hne].
      * split; [done|]. by apply within_dec.
      * apply Hbefore. lia.
    + injection Hloop as <-. exists i. simpl.
      split; [lia|]. split; [done|]. split; [intros j Hj; lia|].
      right. repeat split; [done|]. intros Hw. apply within_dec in Hw. congruence.
Qed.

(** The loop returns as soon as some iteration sees the process exited or
    its time exceeded. *)
Lemma poll_loop_total env timeout fuel :
  ∀ i mc n, (i ≤ n < i + fuel)%nat →
  poll env n ≠ None ∨ ¬ within env timeout n →
  is_Some (poll_loop env timeout fuel i mc).
Proof.
  induction fuel as [|fuel IH]; intros i mc n Hn Hstop; [lia|].
  simpl. destruct (poll env i) as [code|] eqn:Hpoll; [by eexists|].
  destruct (Qle_bool _ _) eqn:Hin; simpl; [|by eexists].
  apply (IH _ _ n); [|done].
  destruct (decide (n = i)) as [->|Hne]; [|lia].
  apply within_dec in Hin. destruct Hstop as [Hp|Hw]; [congruence|done].
Qed.

Lemma report_success fs files code mc now ts d :
  report fs files code mc now ts = Ok d →
  d !! "success" = Some (VBool (code =? 0)).
Proof.
  intros Hd. unfold report in Hd.
  destruct (Collector.stop _ _ _ _ _) as [r|] eqn:Hstop; [|done]. simpl in Hd.
  assert (Collector.success r = (code =? 0)) as Hs.
  { unfold Collector.stop in Hstop. destruct (Collector._start_time mc); [|done].
    by injection Hstop as <-. }
  destruct (model_dump_lookup r) as (_ & _ & Hsucc & _). rewrite Hs in Hsucc.
  destruct (code =? 0); [|by injection Hd as <-].
  destruct (calculate_all_metrics fs files) as [qm|e] eqn:E;
    [|by rewrite (add_quality_metrics_raise _ _ _ _ _ E) in Hd].
  destruct (add_quality_metrics_ok fs (model_dump r) files
              (Collector.total_runtime_seconds r) qm E) as (d' & Hd' & _ & _ & Hother & _).
  rewrite Hd' in Hd. injection Hd as <-. rewrite Hother by notin. done.
Qed.

(** C3.  (1) If some iteration within the fuel sees the process exited or
    over time, [_run_process] returns.  (2) What it returns is decided at
    the last iteration: a process found exited there is reported with its
    own code and is not killed, also when the clock has passed the timeout
    by then; it is killed, and [-1] returned, only if that poll found it
    running and the clock had passed the timeout.  (3) That includes the
    tie.  (4) The report's [success] is [exit_code == 0], so [false] for a
    non-zero exit code and for the timeout's [-1]. *)
Theorem exit_check_precedes_timeout env timeout fuel mc pid :
  launch env = Ok pid →
  (∀ n, (n < fuel)%nat → poll env n ≠ None ∨ ¬ within env timeout n →
        ∃ o, _run_process env timeout fuel mc = Some (Ok o)) ∧
  (∀ o, _run_process env timeout fuel mc = Some (Ok o) →
        let n := pred (iterations o) in
        running_until env timeout n ∧
        match poll env n with
        | Some code => exit_code o = code ∧ killed o = false
        | None => exit_code o = -1 ∧ killed o = true ∧ ¬ within env timeout n
        end) ∧
  (∀ n code, (n < fuel)%nat → running_until env timeout n →
        poll env n = Some code → ¬ within env timeout n →
        ∃ o, _run_process env timeout fuel mc = Some (Ok o) ∧
             exit_code o = code ∧ killed o = false) ∧
  (∀ fs files code mc' now ts d,
        report fs files code mc' now ts = Ok d →
        d !! "success" = Some (VBool (code =? 0)) ∧
        (code ≠ 0 → d !! "success" = Some (VBool false)) ∧
        (code = -1 → d !! "success" = Some (VBool false))).
Proof.
  intros Hlaunch. unfold _run_process. rewrite Hlaunch.
  set (mc0 := Collector.attach_to_process mc pid (attach_found env)).
  assert (Hinv : ∀ o, Ok <$> poll_loop env timeout fuel 0 mc0 = Some (Ok o) →
            let n := pred (iterations o) in
            running_until env timeout n ∧
            match poll env n with
            | Some code => exit_code o = code ∧ killed o = false
            | None => exit_code o = -1 ∧ killed o = true ∧ ¬ within env timeout n
            end).
  { intros o Ho. destruct (poll_loop env timeout fuel 0 mc0) as [o'|] eqn:E; [|done].
    injection Ho as ->.
    apply poll_loop_inv in E as (n & _ & Hit & Hbefore & Hlast).
    rewrite Hit. simpl. split.
    - intros j Hj. apply Hbefore. lia.
    - destruct Hlast as [[Hk Hp]|(Hk & Hc & Hp & Hw)]; rewrite Hp; done. }
  assert (Htot : ∀ n, (n < fuel)%nat → poll env n ≠ None ∨ ¬ within env timeout n →
            ∃ o, Ok <$> poll_loop env timeout fuel 0 mc0 = Some (Ok o)).
  { intros n Hn Hstop.
    destruct (poll_loop_total env timeout fuel 0 mc0 n) as [o Ho]; [lia|done|].
    exists o. by rewrite Ho. }
  split; [done|]. split; [done|]. split.
  - intros n code Hn Hrun Hpoll Hlate.
    destruct (Htot n Hn) as [o Ho]; [left; congruence|].
    exists o. split; [done|].
    destruct (Hinv o Ho) as [Hrun' Hlast].
    assert (pred (iterations o) = n) as Heq.
    { destruct (lt_eq_lt_dec (pred (iterations o)) n) as [[Hlt|Heq]|Hgt]; [|done|].
      - destruct (Hrun _ Hlt) as [Hp Hw]. rewrite Hp in Hlast.
        by destruct Hlast as (_ & _ & Hn').
      - destruct (Hrun' _ Hgt) as [Hp _]. congruence. }
    rewrite Heq, Hpoll in Hlast. done.
  - intros fs files code mc' now ts d Hd.
    pose proof (report_success _ _ _ _ _ _ _ Hd) as Hs. split; [done|]. split.
    + intros Hne. by rewrite (proj2 (Z.eqb_neq code 0) Hne) in Hs.
    + intros ->. done.
Qed.

End supervisor.

Section supervisor_examples.
#[local] Existing Instance Sample.lib.
Import Quality Runner.

Lemma exit_check_precedes_timeout_witness :
  (∃ o, _run_process Sample.late_exit 1 5 Sample.started = Some (Ok o) ∧
        exit_code o = 0 ∧ killed o = false) ∧
  (∃ o, _run_process Sample.hangs 1 5 Sample.started = Some (Ok o) ∧
        exit_code o = -1 ∧ killed o = true).
Proof.
  destruct (exit_check_precedes_timeout Sample.late_exit 1 5 Sample.started 4242 eq_refl)
    as (_ & _ & Htie & _).
  destruct (exit_check_precedes_timeout Sample.hangs 1 5 Sample.started 4242 eq_refl)
    as (Htot & Hinv & _ & _).
  split.
  - apply (Htie 2%nat 0); [lia| |reflexivity|vm_compute; by intros ?].
    intros j Hj. assert (j = 0 ∨ j = 1)%nat as [-> | ->] by lia;
      (split; [reflexivity|vm_compute; discriminate]).
  - destruct (Htot 2%nat) as [o Ho]; [lia|right; vm_compute; by intros ?|].
    exists o. split; [done|].
    destruct (Hinv o Ho) as [_ Hlast]. simpl in Hlast. tauto.
Defined.

End supervisor_examples.

(** ** Order statistics of the text lengths *)

Section order_statistics.
Import Quality Runner.
#[local] Arguments _extract_text : simpl never.

Lemma text_lengths_with_text items st :
  text_lengths (foldl text_body st items)
  = text_lengths st
    ++ ((λ item, len (_extract_text item TEXT_FIELDS)) <$> with_text items).
Proof.
  revert st. induction items as [|item items IH]; intros st; simpl.
  - by rewrite app_nil_r.
  - rewrite IH. unfold with_text. rewrite filter_cons. unfold text_body.
    destruct (String.eqb_spec (_extract_text item TEXT_FIELDS) "") as [E|Hne]; simpl.
    + by rewrite decide_False by (by intros ?).
    + rewrite decide_True by done. simpl. by rewrite <- app_assoc.
Qed.

(** The five order statistics do not depend on what the map held. *)
Lemma order_stats_lookup lengths (m : gmap string mval) k :
  lengths ≠ [] →
  k ∈ ["min_text_length"; "max_text_length"; "median_text_length";
       "text_length_p25"; "text_length_p75"] →
  text_length_order_stats lengths m !! k = text_length_order_stats lengths ∅ !! k.
Proof.
  intros Hne Hk. unfold text_length_order_stats. destruct lengths; [done|].
  repeat (apply elem_of_cons in Hk as [->|Hk]);
    [..|by apply elem_of_nil in Hk];
    skip_inserts; by rewrite !lookup_insert_eq.
Qed.

Lemma sort_length l : length (sort l) = length l.
Proof. unfold sort. by rewrite merge_sort_Permutation. Qed.

(** C8.  For a non-empty list of text lengths, the median and the two
    quartiles reported are the elements of the ascending-sorted list at
    indices [n / 2], [n / 4] and [3 * n / 4] (floor division), each index
    being in range; [_analyze_text_content] reports these for the lengths
    of the texts its records have; and for [10, 20, 30, 40] they are 30,
    20 and 40. *)
Theorem median_and_quartiles_by_floor_index (items : list JsonItem)
    (lengths : list Z) (m : gmap string mval) :
  (lengths ≠ [] →
   ∃ sorted, Sorted Z.le sorted ∧ sorted ≡ₚ lengths ∧
     let n := length lengths in
     let stats := text_length_order_stats lengths m in
     is_Some (sorted !! (n / 2)%nat) ∧
     is_Some (sorted !! (n / 4)%nat) ∧
     is_Some (sorted !! (3 * n / 4)%nat) ∧
     stats !! "median_text_length" = VInt <$> sorted !! (n / 2)%nat ∧
     stats !! "text_length_p25" = VInt <$> sorted !! (n / 4)%nat ∧
     stats !! "text_length_p75" = VInt <$> sorted !! (3 * n / 4)%nat) ∧
  (with_text items ≠ [] →
   ∀ k, k ∈ ["median_text_length"; "text_length_p25"; "text_length_p75"] →
     _analyze_text_content items m !! k
     = text_length_order_stats
         ((λ item, len (_extract_text item TEXT_FIELDS)) <$> with_text items) ∅ !! k) ∧
  text_length_order_stats [10; 20; 30; 40] m !! "median_text_length" = Some (VInt 30) ∧
  text_length_order_stats [10; 20; 30; 40] m !! "text_length_p25" = Some (VInt 20) ∧
  text_length_order_stats [10; 20; 30; 40] m !! "text_length_p75" = Some (VInt 40).
Proof.
  split; [|split].
  - intros Hne. exists (sort lengths).
    split; [apply Sorted_merge_sort; apply _|].
    split; [apply merge_sort_Permutation|].
    intros n stats.
    assert (0 < n)%nat as Hn by (unfold n; destruct lengths; [done|simpl; lia]).
    assert (n / 2 < length (sort lengths))%nat as H2
      by (rewrite sort_length; apply Nat.Div0.div_lt_upper_bound; lia).
    assert (n / 4 < length (sort lengths))%nat as H4
      by (rewrite sort_length; apply Nat.Div0.div_lt_upper_bound; lia).
    assert (3 * n / 4 < length (sort lengths))%nat as H34
      by (rewrite sort_length; apply Nat.Div0.div_lt_upper_bound; lia).
    split; [by apply lookup_lt_is_Some_2|].
    split; [by apply lookup_lt_is_Some_2|].
    split; [by apply lookup_lt_is_Some_2|].
    unfold stats, text_length_order_stats. destruct lengths as [|x l]; [done|].
    rewrite sort_length. fold n.
    rewrite !(list_lookup_lookup_total_lt (sort (x :: l))) by done. simpl.
    repeat split; skip_inserts; by rewrite lookup_insert_eq.
  - intros Hne k Hk. unfold _analyze_text_content.
    rewrite items_with_text_count, text_lengths_with_text.
    change (items_with_text text_init) with 0. change (text_lengths text_init) with (@nil Z).
    rewrite Z.add_0_l, app_nil_l.
    assert ((0 <? Z.of_nat (length (with_text items))) = true) as ->
      by (apply Z.ltb_lt; destruct (with_text items); [done|simpl; lia]).
    apply order_stats_lookup; [by destruct (with_text items)|].
    repeat (apply elem_of_cons in Hk as [->|Hk]); [..|by apply elem_of_nil in Hk];
      repeat constructor.
  - unfold text_length_order_stats.
    repeat split; skip_inserts; by rewrite lookup_insert_eq.
Qed.

Lemma median_and_quartiles_by_floor_index_witness :
  _analyze_text_content Sample.four_texts ∅ !! "median_text_length" = Some (VInt 30) ∧
  _analyze_text_content Sample.four_texts ∅ !! "text_length_p25" = Some (VInt 20) ∧
  _analyze_text_content Sample.four_texts ∅ !! "text_length_p75" = Some (VInt 40) ∧
  ∃ sorted, Sorted Z.le sorted ∧ sorted ≡ₚ [40; 10; 30; 20] ∧
            sorted !! 2%nat = Some 30.
Proof.
  destruct (median_and_quartiles_by_floor_index Sample.four_texts [40; 10; 30; 20] ∅)
    as (Hsorted & Hitems & _).
  assert (with_text Sample.four_texts ≠ []) as Hne
    by (intros E; apply (f_equal length) in E; vm_compute in E; discriminate E).
  specialize (Hitems Hne).
  split; [|split; [|split]].
  - rewrite Hitems by repeat constructor. vm_compute. reflexivity.
  - rewrite Hitems by repeat constructor. vm_compute. reflexivity.
  - rewrite Hitems by repeat constructor. vm_compute. reflexivity.
  - destruct Hsorted as (sorted & Hs & Hp & _ & _ & _ & Hmed & _); [done|].
    exists sorted. split; [done|]. split; [done|].
    cbv zeta in Hmed.
    change (length [40%Z; 10%Z; 30%Z; 20%Z] `div` 2)%nat with 2%nat in Hmed.
    assert (text_length_order_stats [40; 10; 30; 20] ∅ !! "median_text_length"
            = Some (VInt 30)) as E by (vm_compute; reflexivity).
    rewrite E in Hmed.
    destruct (sorted !! 2%nat) as [x|]; simpl in Hmed; [|discriminate Hmed].
    by injection Hmed as <-.
Defined.

End order_statistics.

(** ** The duplication analyzers *)

Section duplication.
Context `{PyLib}.
Import Enhanced.


Lemma mapM_cons {A B} (f : A → result B) x l :
  mapM f (x :: l) = y ← f x; k ← mapM f l; Ok (y :: k).
Proof. done. Qed.

Lemma mapM_is_ok {A B} (f : A → result B) l :
  Forall (λ x, is_ok (f x) = true) l → ∃ ys, mapM f l = Ok ys.
Proof.
  induction 1 as [|x l Hx _ [ys IH]]; [by exists []|].
  rewrite mapM_cons, IH. destruct (f x) as [y|]; [|done]. by eexists.
Qed.

(** Reordering the inputs of a [mapM] that succeeds reorders its
    outputs; whether it succeeds does not depend on the order. *)
Lemma mapM_perm {A B} (f : A → result B) l l' :
  l ≡ₚ l' →
  match mapM f l with
  | Ok ys => ∃ ys', mapM f l' = Ok ys' ∧ ys ≡ₚ ys'
  | Raise _ => ∃ e, mapM f l' = Raise e
  end.
Proof.
  induction 1 as [|x l l' _ IH|x y l|l l' l'' _ IH1 _ IH2].
  - by exists [].
  - rewrite !mapM_cons. destruct (f x) as [y|e]; simpl; [|by eexists].
    destruct (mapM f l) as [ys|e]; simpl.
    + destruct IH as (ys' & -> & Hp). simpl. eexists. split; [done|]. by constructor.
    + destruct IH as (e' & ->). by eexists.
  - rewrite !mapM_cons.
    destruct (f x) as [a|e], (f y) as [b|e'], (mapM f l) as [ys|e''];
      simpl; try (by eexists).
    eexists. split; [done|]. constructor.
  - destruct (mapM f l) as [ys|e].
    + destruct IH1 as (ys' & E & Hp). rewrite E in IH2.
      destruct IH2 as (ys'' & -> & Hp'). eexists. split; [done|]. by etrans.
    + destruct IH1 as (e' & E). by rewrite E in IH2.
Qed.

(** One turn of the loop of [analyze_duplication], by what the record
    contributes. *)
Lemma dup_body_view st item :
  match dup_view item with
  | Ok (id, h) =>
      ∃ st', dup_body st item = Ok st' ∧
        post_ids st' = post_ids st ++ option_list id ∧
        content_hashes st' = content_hashes st ++ option_list h ∧
        unique_posts st' = unique_posts st ∪ list_to_set (option_list h) ∧
        dup_count st'
        = dup_count st
          + match h with
            | Some x => if bool_decide (x ∈ unique_posts st) then 1 else 0
            | None => 0
            end
  | Raise e => dup_body st item = Raise e
  end.
Proof.
  unfold dup_view, dup_body.
  destruct (truthy (py_or _ _)); [destruct (hash_key _) as [k|e]; simpl; [|done]|simpl];
    (destruct (truthy (get_or item "text" (JStr "")));
     [destruct (encode _) as [s|e]; simpl; [|done]|]);
    (eexists; split; [done|]); simpl; rewrite ?app_nil_r;
    (split; [done|]); (split; [done|]);
    (split; [try case_bool_decide; set_solver|try case_bool_decide; lia]).
Qed.

Lemma dup_inv_init : dup_inv dup_init.
Proof. split; [done|]. vm_compute. reflexivity. Qed.

Lemma dup_loop items :
  ∀ st,
  match mapM dup_view items with
  | Ok vs =>
      ∃ st', for_each dup_body st items = Ok st' ∧
        post_ids st' = post_ids st ++ omap fst vs ∧
        content_hashes st' = content_hashes st ++ omap snd vs ∧
        (dup_inv st → dup_inv st')
  | Raise e => for_each dup_body st items = Raise e
  end.
Proof.
  induction items as [|item items IH]; intros st.
  - exists st. simpl. by rewrite !app_nil_r.
  - rewrite mapM_cons. simpl. pose proof (dup_body_view st item) as Hstep.
    destruct (dup_view item) as [[id h]|e]; simpl; [|by rewrite Hstep].
    destruct Hstep as (st1 & -> & Hids & Hhs & Hset & Hcount). simpl.
    specialize (IH st1). destruct (mapM dup_view items) as [vs|e]; simpl; [|done].
    destruct IH as (st' & -> & Hids' & Hhs' & Hinv).
    exists st'. split; [done|]. rewrite Hids', Hhs', Hids, Hhs, <- !app_assoc.
    split; [by destruct id|]. split; [by destruct h|].
    intros [Hu Hc]. apply Hinv. split.
    + rewrite Hset, Hhs, Hu, list_to_set_app_L. done.
    + rewrite Hcount, Hset, Hhs, Hc, length_app. destruct h as [x|]; simpl.
      * case_bool_decide as Hin.
        -- replace (unique_posts st ∪ ({[x]} ∪ ∅)) with (unique_posts st) by set_solver.
           lia.
        -- replace (unique_posts st ∪ ({[x]} ∪ ∅)) with ({[x]} ∪ unique_posts st)
             by set_solver.
           rewrite size_union, size_singleton by set_solver. lia.
      * replace (unique_posts st ∪ ∅) with (unique_posts st) by set_solver. lia.
Qed.

(** [analyze_duplication] is its summary of what the records
    contribute, whenever every record can be read. *)
Lemma analyze_duplication_views items :
  analyze_duplication items
  = vs ← mapM dup_view items; Ok (dup_summary (omap fst vs) (omap snd vs)).
Proof.
  unfold analyze_duplication. pose proof (dup_loop items dup_init) as Hloop.
  destruct (mapM dup_view items) as [vs|e]; simpl; [|by rewrite Hloop].
  destruct Hloop as (st' & -> & Hids & Hhs & Hinv). simpl.
  destruct (Hinv dup_inv_init) as [Hu Hc]. simpl in Hids, Hhs.
  unfold dup_summary, dup_report. simpl. rewrite Hc, Hu, Hids, Hhs. done.
Qed.

Lemma Counter_perm `{Countable K} (l l' : list K) :
  l ≡ₚ l' → Dict.Counter l = Dict.Counter l'.
Proof.
  intros Hp. unfold Dict.Counter. generalize (∅ : gmap K Z).
  induction Hp as [|x l l' _ IH|x y l|l l' l'' _ IH1 _ IH2]; intros m; simpl.
  - done.
  - apply IH.
  - f_equal. apply map_eq. intros k.
    destruct (decide (x = y)) as [->|Hxy]; [reflexivity|].
    rewrite !lookup_insert.
    repeat case_decide; subst; try congruence; done.
  - by rewrite IH1.
Qed.

Lemma dup_summary_perm ids ids' hashes hashes' :
  ids ≡ₚ ids' → hashes ≡ₚ hashes' →
  dup_summary ids hashes = dup_summary ids' hashes'.
Proof.
  intros Hi Hh. unfold dup_summary, dup_report. simpl.
  rewrite (Counter_perm _ _ Hi).
  rewrite (Permutation_length Hi), (Permutation_length Hh).
  rewrite (list_to_set_perm_L (C:=gset key) _ _ Hi).
  rewrite (list_to_set_perm_L (C:=gset string) _ _ Hh).
  destruct ids as [|i ids], ids' as [|i' ids']; try done;
    try (by apply Permutation_nil_cons in Hi);
    symmetry in Hi; by apply Permutation_nil_cons in Hi.
Qed.

Lemma analyze_duplication_perm items items' :
  items ≡ₚ items' →
  match analyze_duplication items with
  | Ok m => analyze_duplication items' = Ok m
  | Raise _ => ∃ e, analyze_duplication items' = Raise e
  end.
Proof.
  intros Hp. rewrite !analyze_duplication_views.
  pose proof (mapM_perm dup_view _ _ Hp) as Hm.
  destruct (mapM dup_view items) as [vs|e]; simpl.
  - destruct Hm as (vs' & -> & Hvs). simpl. f_equal.
    symmetry. apply dup_summary_perm; by rewrite Hvs.
  - destruct Hm as (e' & ->). by eexists.
Qed.

Lemma id_report_perm ids ids' (m : gmap string Quality.mval) :
  ids ≡ₚ ids' → Quality.id_report ids m = Quality.id_report ids' m.
Proof.
  intros Hp. unfold Quality.id_report.
  rewrite (Permutation_length Hp), (list_to_set_perm_L (C:=gset string) _ _ Hp).
  destruct ids as [|i ids], ids' as [|i' ids']; try done;
    try (by apply Permutation_nil_cons in Hp);
    symmetry in Hp; by apply Permutation_nil_cons in Hp.
Qed.

(** C7.  Reordering the records changes none of the duplication
    metrics: [analyze_duplication] returns the same report (hence the same
    [duplication_rate], [id_duplication_rate] and
    [content_duplication_rate]) or fails on both orders, and
    [_analyze_identifiers] leaves the same metrics. *)
Theorem duplication_invariant_under_reordering (items items' : list JsonItem)
    (m0 : gmap string Quality.mval) :
  items ≡ₚ items' →
  (∀ m, analyze_duplication items = Ok m →
        analyze_duplication items' = Ok m ∧
        ∀ m', analyze_duplication items' = Ok m' →
              duplication_rate m' = duplication_rate m ∧
              id_duplication_rate m' = id_duplication_rate m ∧
              content_duplication_rate m' = content_duplication_rate m) ∧
  is_ok (analyze_duplication items) = is_ok (analyze_duplication items') ∧
  Quality._analyze_identifiers items m0 = Quality._analyze_identifiers items' m0 ∧
  Quality._analyze_identifiers items m0 !! "duplication_rate"
  = Quality._analyze_identifiers items' m0 !! "duplication_rate".
Proof.
  intros Hp. pose proof (analyze_duplication_perm _ _ Hp) as Hd.
  assert (Quality._analyze_identifiers items m0 = Quality._analyze_identifiers items' m0)
    as Hid.
  { unfold Quality._analyze_identifiers, Quality.all_ids.
    apply id_report_perm. by rewrite Hp. }
  split; [|split; [|split]].
  - intros m Hm. rewrite Hm in Hd. split; [done|].
    intros m' Hm'. rewrite Hd in Hm'. by injection Hm' as <-.
  - destruct (analyze_duplication items); [by rewrite Hd|].
    by destruct Hd as [e' ->].
  - done.
  - by rewrite Hid.
Qed.

End duplication.

Section duplication_examples.
#[local] Existing Instance Sample.lib.
Import Enhanced.

(** The specification's example: three posts, one id and one text
    repeated. *)
Example analyze_duplication_three_posts :
  analyze_duplication Sample.three_posts
  = Ok {| total_posts := 3; unique_post_ids := 2; unique_content_hashes := 2;
          duplicate_count := 1; duplication_rate := 1 # 3;
          id_duplication_rate := 1 # 3; content_duplication_rate := 1 # 3;
          duplicate_id_count := 1; max_duplications := 2 |}.
Proof. vm_compute. reflexivity. Qed.

Lemma duplication_invariant_under_reordering_witness :
  (duplication_rate <$> analyze_duplication Sample.three_posts_reordered) = Ok (1 # 3)%Q ∧
  Quality._analyze_identifiers Sample.three_posts ∅ !! "duplication_rate"
  = Quality._analyze_identifiers Sample.three_posts_reordered ∅ !! "duplication_rate".
Proof.
  assert (Sample.three_posts ≡ₚ Sample.three_posts_reordered) as Hp.
  { symmetry.
    apply (Permutation_cons_append [Sample.post "a" "hi"; Sample.post "a" "hi"]). }
  destruct (duplication_invariant_under_reordering _ _ ∅ Hp) as (Hd & _ & _ & Hid).
  split; [|exact Hid].
  destruct (Hd _ analyze_duplication_three_posts) as [-> _]. reflexivity.
Defined.

End duplication_examples.

(** ** Rates *)

Section rates.
Context `{PyLib}.
Import Enhanced.





Lemma mapM_Forall2 {A B} (f : A → result B) l ys :
  mapM f l = Ok ys → Forall2 (λ x y, f x = Ok y) l ys.
Proof.
  revert ys. induction l as [|x l IH]; intros ys.
  - intros [= <-]. constructor.
  - rewrite mapM_cons. destruct (f x) as [y|] eqn:E; [|done]. simpl.
    destruct (mapM f l) as [k|]; [|done]. simpl. intros [= <-].
    constructor; [done|]. by apply IH.
Qed.

(** One turn of the loop of [analyze_author_coverage]. *)
Lemma author_body_view st item :
  match author_view item with
  | Ok a =>
      ∃ st', author_body st item = Ok st' ∧
        with_authors st' = with_authors st + Z.of_nat (length (option_list a)) ∧
        author_set st' = author_set st ∪ list_to_set (option_list a) ∧
        null_authors st' = null_authors st + (1 - Z.of_nat (length (option_list a)))
  | Raise e => author_body st item = Raise e
  end.
Proof.
  unfold author_view, author_body.
  destruct (get item "author") eqn:E; simpl;
    try (eexists; split; [done|]; simpl; repeat split; (set_solver || lia));
    done.
Qed.

Lemma author_loop items :
  ∀ st,
  match mapM author_view items with
  | Ok vs =>
      ∃ st', for_each author_body st items = Ok st' ∧
        with_authors st' = with_authors st + Z.of_nat (length (omap id vs)) ∧
        author_set st' = author_set st ∪ list_to_set (omap id vs) ∧
        null_authors st'
        = null_authors st + (Z.of_nat (length vs) - Z.of_nat (length (omap id vs)))
  | Raise e => for_each author_body st items = Raise e
  end.
Proof.
  induction items as [|item items IH]; intros st.
  - exists st. simpl. repeat split; [lia|set_solver|lia].
  - rewrite mapM_cons. simpl. pose proof (author_body_view st item) as Hstep.
    destruct (author_view item) as [a|e]; simpl; [|by rewrite Hstep].
    destruct Hstep as (st1 & -> & Hw & Hs & Hn). simpl.
    specialize (IH st1). destruct (mapM author_view items) as [vs|e]; simpl; [|done].
    destruct IH as (st' & -> & Hw' & Hs' & Hn').
    exists st'. split; [done|]. rewrite Hw', Hs', Hn', Hw, Hs, Hn.
    change (list_omap (option key) key id vs) with (omap id vs).
    set (ks := omap id vs).
    destruct a as [k|]; simpl length; simpl option_list; rewrite ?Nat2Z.inj_succ;
      (split; [lia|]); (split; [set_solver|]); lia.
Qed.

(** The records [analyze_author_coverage] counts as having an author. *)
Lemma author_views_count items vs :
  mapM author_view items = Ok vs →
  length vs = length items ∧
  length (omap id vs)
  = length (filter (λ item, is_none (get item "author") = false) items).
Proof.
  intros Hvs. apply mapM_Forall2 in Hvs.
  induction Hvs as [|item v items vs Hv _ [IH1 IH2]]; [done|].
  rewrite filter_cons. cbn. split; [by rewrite IH1|].
  unfold author_view in Hv.
  destruct (get item "author") eqn:E; cbn;
    try (destruct (hash_key _); [|done]; injection Hv as <-; cbn; by rewrite IH2).
  injection Hv as <-. cbn. done.
Qed.

(** [analyze_author_coverage], by what the records contribute. *)
Lemma analyze_author_coverage_views items :
  match mapM author_view items with
  | Ok vs =>
      ∃ m, analyze_author_coverage items = Ok m ∧
        posts_with_authors m = Z.of_nat (length (omap id vs)) ∧
        posts_without_authors m
        = Z.of_nat (length items) - Z.of_nat (length (omap id vs)) ∧
        unique_authors m = Z.of_nat (size (list_to_set (C:=gset key) (omap id vs))) ∧
        author_coverage_rate m
        = (if 0 <? Z.of_nat (length items)
           then truediv (posts_with_authors m) (Z.of_nat (length items)) else 0%Q) ∧
        avg_posts_per_author m
        = (if unique_authors m =? 0 then 0%Q
           else truediv (posts_with_authors m) (unique_authors m))
  | Raise e => analyze_author_coverage items = Raise e
  end.
Proof.
  unfold analyze_author_coverage. pose proof (author_loop items author_init) as Hloop.
  destruct (mapM author_view items) as [vs|e] eqn:E; [|by rewrite Hloop].
  destruct Hloop as (st & -> & Hw & Hs & Hn). simpl in *.
  destruct (author_views_count _ _ E) as [Hlen _].
  eexists. split; [done|]. simpl.
  rewrite Hw, Hn, Hs, Hlen, union_empty_l_L.
  split; [lia|]. split; [lia|]. split; [done|]. split; [by rewrite Z.add_0_l|].
  case_bool_decide as He.
  - rewrite He, size_empty. done.
  - destruct (Z.eqb_spec (Z.of_nat (size (list_to_set (C:=gset key) (omap id vs)))) 0)
      as [Hz|Hz]; [|by rewrite Z.add_0_l].
    destruct He. apply leibniz_equiv, size_empty_iff. lia.
Qed.










End rates.

Section rates_examples.
#[local] Existing Instance Sample.lib.
Import Enhanced.



End rates_examples.

(** ** Authors *)

Section authors.
Context `{PyLib}.
Import Enhanced.

(** First match wins: [first_field] returns the value of the first field
    of the list that the record has with a value passing the test. *)
Lemma first_field_spec test item fields v :
  Quality.first_field test item fields = Some v ↔
  ∃ i f, fields !! i = Some f ∧ item !! f = Some v ∧ test v = true ∧
         ∀ j g w, (j < i)%nat → fields !! j = Some g → item !! g = Some w →
                  test w = false.
Proof.
  induction fields as [|f fields IH]; simpl.
  - split; [done|]. by intros (i & f & Hf & _).
  - destruct (item !! f) as [w|] eqn:Ef; [destruct (test w) eqn:Et|].
    + split.
      * intros [= <-]. exists 0%nat, f. repeat split; [done..|]. intros; lia.
      * intros ([|i] & g & Hg & Hv & Htest & Hfirst).
        -- simpl in Hg. injection Hg as <-. congruence.
        -- specialize (Hfirst 0%nat f w). rewrite Hfirst in Et; [done|lia|done|done].
    + rewrite IH. split.
      * intros (i & g & Hg & Hv & Htest & Hfirst). exists (S i), g.
        repeat split; [done..|]. intros [|j] g' w' Hj Hg' Hw'.
        -- simpl in Hg'. injection Hg' as <-. congruence.
        -- apply (Hfirst j g'); [lia|done..].
      * intros ([|i] & g & Hg & Hv & Htest & Hfirst).
        -- simpl in Hg. injection Hg as <-. congruence.
        -- exists i, g. repeat split; [done..|]. intros j g' w' Hj Hg' Hw'.
           apply (Hfirst (S j) g'); [lia|done..].
    + rewrite IH. split.
      * intros (i & g & Hg & Hv & Htest & Hfirst). exists (S i), g.
        repeat split; [done..|]. intros [|j] g' w' Hj Hg' Hw'.
        -- simpl in Hg'. injection Hg' as <-. congruence.
        -- apply (Hfirst j g'); [lia|done..].
      * intros ([|i] & g & Hg & Hv & Htest & Hfirst).
        -- simpl in Hg. injection Hg as <-. congruence.
        -- exists i, g. repeat split; [done..|]. intros j g' w' Hj Hg' Hw'.
           apply (Hfirst (S j) g'); [lia|done..].
Qed.

(** C5, amended.  [analyze_author_coverage] returns for records whose
    [author] is hashable; [posts_with_authors] counts the records whose
    [author] key is present and not [None]; [author_coverage_rate] is that
    count over the number of records, and [avg_posts_per_author] that count
    over the number of distinct authors, 0 when there is none.  The
    first-match-wins extraction over the author field list belongs to
    [_analyze_authors], which reports [items_with_authors] and
    [items_per_author], writes nothing when no record has an author, and
    never writes another key than its three: it computes no coverage
    rate. *)
Theorem author_coverage_counts_author_key (items : list JsonItem)
    (m0 : gmap string Quality.mval) :
  (Forall (λ item, is_ok (author_view item) = true) items →
   ∃ m, analyze_author_coverage items = Ok m) ∧
  (∀ m, analyze_author_coverage items = Ok m →
     let total := Z.of_nat (length items) in
     posts_with_authors m
       = Z.of_nat (length (filter (λ item, is_none (get item "author") = false) items)) ∧
     author_coverage_rate m
       = (if 0 <? total then truediv (posts_with_authors m) total else 0%Q) ∧
     avg_posts_per_author m
       = (if unique_authors m =? 0 then 0%Q
          else truediv (posts_with_authors m) (unique_authors m))) ∧
  (let authors := Quality.authors items in
   let n := Z.of_nat (length authors) in
   let unique := Z.of_nat (size (list_to_set (C:=gset string) authors)) in
   (authors = [] → Quality._analyze_authors items m0 = m0) ∧
   (authors ≠ [] →
    Quality._analyze_authors items m0 !! "items_with_authors" = Some (Quality.VInt n) ∧
    Quality._analyze_authors items m0 !! "unique_authors" = Some (Quality.VInt unique) ∧
    Quality._analyze_authors items m0 !! "items_per_author"
      = Some (Quality.VFloat (truediv n unique)))) ∧
  (∀ item v,
     Quality.first_field truthy item Quality.AUTHOR_FIELDS = Some v ↔
     ∃ i f, Quality.AUTHOR_FIELDS !! i = Some f ∧ item !! f = Some v ∧
            truthy v = true ∧
            ∀ j g w, (j < i)%nat → Quality.AUTHOR_FIELDS !! j = Some g →
                     item !! g = Some w → truthy w = false) ∧
  (∀ k, k ∉ ["items_with_authors"; "unique_authors"; "items_per_author"] →
        Quality._analyze_authors items m0 !! k = m0 !! k).
Proof.
  split; [|split; [|split; [|split]]]; [| | | |apply authors_other].
  - intros Hok. apply mapM_is_ok in Hok as [vs Hvs].
    pose proof (analyze_author_coverage_views items) as Hv. rewrite Hvs in Hv.
    destruct Hv as (m & Hm & _). by exists m.
  - intros m Hm total. pose proof (analyze_author_coverage_views items) as Hv.
    destruct (mapM author_view items) as [vs|] eqn:E; [|by rewrite Hv in Hm].
    destruct Hv as (m' & Hm' & Hw & _ & _ & Hrate & Havg).
    rewrite Hm in Hm'. injection Hm' as <-.
    destruct (author_views_count _ _ E) as [_ Hcount].
    split; [by rewrite Hw, Hcount|]. by split.
  - intros authors n unique. unfold Quality._analyze_authors, Quality.authors_report.
    fold authors. split; [by intros ->|].
    intros Hne. destruct authors as [|a l] eqn:E; [done|].
    repeat split; skip_inserts; by rewrite lookup_insert_eq.
  - intros item v. apply first_field_spec.
Qed.

End authors.

Section authors_examples.
#[local] Existing Instance Sample.lib.
Import Enhanced.

Lemma author_coverage_counts_author_key_witness :
  ∃ m, analyze_author_coverage Sample.authored = Ok m ∧
       posts_with_authors m = 3 ∧
       author_coverage_rate m = truediv 3 4 ∧
       avg_posts_per_author m = truediv 3 2.
Proof.
  destruct (author_coverage_counts_author_key Sample.authored ∅) as (Hex & Hm & _).
  destruct Hex as [m Hok]; [repeat constructor|].
  exists m. split; [done|].
  destruct (Hm m Hok) as (Hw & Hrate & Havg).
  assert (unique_authors m = 2) as Hu.
  { vm_compute in Hok. by injection Hok as <-. }
  rewrite Hrate, Havg, Hu, Hw. repeat split.
Defined.

(** Against C5 as stated: a record whose author is under [user] has an
    author by first-match extraction, yet [author_coverage_rate] is 0; a
    record whose [author] is the empty string has no non-empty author, yet
    [author_coverage_rate] is 1. *)
Lemma author_coverage_ignores_other_fields :
  Quality.authors Sample.by_user = ["bob"] ∧
  (author_coverage_rate <$> analyze_author_coverage Sample.by_user) = Ok 0%Q ∧
  ¬ (0 == truediv 1 1)%Q ∧
  Quality.authors Sample.empty_author = [] ∧
  (author_coverage_rate <$> analyze_author_coverage Sample.empty_author) = Ok 1%Q ∧
  ¬ (1 == truediv 0 1)%Q.
Proof. repeat split; try (vm_compute; reflexivity); by vm_compute. Qed.

End authors_examples.

(** ** Which records the analyzers accept *)

Section totality.
Context `{PyLib}.
Import Quality.
#[local] Arguments _extract_text : simpl never.

(** A loop raises as soon as the body raises on one element, whatever
    the state. *)
Lemma first_match_str patterns s : ∃ v, first_match patterns (JStr s) = Ok v.
Proof.
  induction patterns as [|p patterns [v IH]]; simpl; [by eexists|].
  destruct (search_str p s); by eexists.
Qed.

Lemma first_match_raises patterns v e :
  first_match patterns v = Raise e → e = TypeError.
Proof.
  induction patterns as [|p patterns IH]; simpl; [done|].
  destruct v; simpl; try (by intros [= <-]).
  destruct (search_str p s); [done|]. apply IH.
Qed.

Lemma thread_id_of_cases item :
  thread_id_of item
  = (thread_id ← (if has item "thread_url" || has item "url"
                  then first_match THREAD_ID_PATTERNS (url_probe item)
                  else Ok JNull);
     Ok (if negb (truthy thread_id)
         then py_or (get item "thread_id") (get item "topic_id")
         else thread_id)).
Proof. done. Qed.

Lemma thread_body_raises st item e : thread_body st item = Raise e → e = TypeError.
Proof.
  unfold thread_body. rewrite thread_id_of_cases.
  destruct (has item "thread_url" || has item "url"); [|done].
  destruct (first_match THREAD_ID_PATTERNS (url_probe item)) as [v|e'] eqn:E; [done|].
  intros [= <-]. by eapply first_match_raises.
Qed.

Lemma thread_body_bad_url st item : bad_url item → is_ok (thread_body st item) = false.
Proof.
  intros [Hhas Hstr]. unfold thread_body. rewrite thread_id_of_cases, Hhas.
  by destruct (url_probe item).
Qed.

Lemma url_probe_str item : str_urls item → ∃ s, url_probe item = JStr s.
Proof.
  intros Hstr. unfold url_probe, py_or, get, get_or.
  assert (∀ f, f ∈ ["url"; "thread_url"] →
            item !! f = None ∨ ∃ s, item !! f = Some (JStr s)) as Hf.
  { intros f Hin. destruct (item !! f) as [v|] eqn:E; [right|by left].
    specialize (Hstr f v Hin E). destruct v; try done. by eexists. }
  destruct (Hf "thread_url") as [->|[s ->]]; [repeat constructor|..]; simpl.
  - destruct (Hf "url") as [->|[s ->]]; [repeat constructor|..]; by eexists.
  - destruct (negb (String.eqb s "")); [by eexists|].
    destruct (Hf "url") as [->|[s' ->]]; [repeat constructor|..]; by eexists.
Qed.

Lemma thread_body_str_urls st item : str_urls item → is_ok (thread_body st item) = true.
Proof.
  intros Hstr. destruct (url_probe_str item Hstr) as [s Hs].
  unfold thread_body. rewrite thread_id_of_cases, Hs.
  destruct (has item "thread_url" || has item "url"); [|done].
  by destruct (first_match_str THREAD_ID_PATTERNS s) as [v ->].
Qed.

Lemma thread_report_returns tids (m : gmap string mval) :
  is_ok (mval_number (default (VInt 0) (m !! "total_items"))) = true →
  ∃ m', thread_report tids m = Ok m'.
Proof.
  intros Hnum. unfold thread_report. destruct tids as [|t tids]; [by eexists|].
  destruct (Dict.counter (t :: tids)); [by eexists|].
  skip_inserts. destruct (mval_truthy (m !! "total_items")); [|by eexists].
  destruct (mval_number _); [|done]. by eexists.
Qed.

Lemma split_go_String sep skip cur c s :
  split_go sep skip cur (String c s)
  = match skip with
    | S n => split_go sep n cur s
    | O => if String.prefix sep (String c s)
           then cur :: split_go sep (String.length sep - 1) "" s
           else split_go sep 0 (cur +:+ String c "") s
    end.
Proof. done. Qed.

Lemma index_String sep c s :
  String.index 0 sep (String c s)
  = if String.prefix sep (String c s) then Some 0%nat
    else match String.index 0 sep s with Some n => Some (S n) | None => None end.
Proof. done. Qed.

Lemma split_go_cons sep s : ∀ skip cur, ∃ x l, split_go sep skip cur s = x :: l.
Proof.
  induction s as [|c s IH]; intros skip cur.
  - by exists cur, [].
  - rewrite split_go_String. destruct skip as [|n]; [|apply IH].
    destruct (String.prefix sep (String c s)); [|apply IH].
    by eexists _, _.
Qed.

(** A string that contains the separator splits into at least two
    pieces. *)
Lemma split_go_two sep s :
  sep ≠ "" → ∀ cur, is_Some (String.index 0 sep s) →
  ∃ a b rest, split_go sep 0 cur s = a :: b :: rest.
Proof.
  intros Hsep. induction s as [|c s IH]; intros cur Hidx.
  - simpl in Hidx. destruct sep; [done|]. by destruct Hidx.
  - rewrite split_go_String. rewrite index_String in Hidx.
    destruct (String.prefix sep (String c s)).
    + destruct (split_go_cons sep s (String.length sep - 1) "") as (x & l & ->).
      by eexists _, _, _.
    + apply IH. destruct (String.index 0 sep s); [by eexists|by destruct Hidx].
Qed.

Lemma crawl_thread_id_str s :
  contains "/threads/" s = true → ∃ t, Enhanced.crawl_thread_id (JStr s) = Ok t.
Proof.
  intros Hc. unfold contains in Hc. apply bool_decide_eq_true_1 in Hc.
  unfold Enhanced.crawl_thread_id, split.
  destruct (split_go_two "/threads/" s) with (cur := "") as (a & b & rest & ->);
    [done..|].
  change (index (a :: b :: rest) 1) with (Ok b). cbn [mbind result_bind].
  destruct (split_go_cons "/" b 0 "") as (x & l & ->). by eexists.
Qed.

Lemma get_or_url_str item :
  str_urls item → ∃ u, get_or item "url" (JStr "") = JStr u.
Proof.
  intros Hstr. unfold get_or. destruct (item !! "url") as [v|] eqn:E; [|by eexists].
  specialize (Hstr "url" v). destruct v; simpl; try (by eexists);
    by (discriminate Hstr; [repeat constructor|done]).
Qed.

Lemma crawl_body_str_urls st item :
  str_urls item → is_ok (Enhanced.crawl_body st item) = true.
Proof.
  intros Hstr. destruct (url_probe_str item Hstr) as [s Hs].
  destruct (get_or_url_str item Hstr) as [u Hu].
  unfold Enhanced.crawl_body. destruct st as [threads pages].
  fold (url_probe item). rewrite Hs, Hu. cbn [py_in mbind result_bind].
  destruct (contains "/threads/" s) eqn:Hc.
  - destruct (crawl_thread_id_str s Hc) as [t ->]. cbn [mbind result_bind].
    by destruct (truthy (JStr u)).
  - cbn [mbind result_bind]. by destruct (truthy (JStr u)).
Qed.

Lemma crawl_body_scalar_url st item :
  scalar_url item → is_ok (Enhanced.crawl_body st item) = false.
Proof.
  unfold scalar_url, Enhanced.crawl_body. destruct st as [threads pages].
  fold (url_probe item). by destruct (url_probe item).
Qed.

Lemma url_field_body_nonstr item st f :
  (∀ s, item !! f ≠ Some (JStr s)) → url_field_body item st f = Ok st.
Proof.
  intros Hno. unfold url_field_body. destruct st as [domains patterns].
  destruct (item !! f) as [[| | | |s| |]|]; try done. by destruct (Hno s).
Qed.

Lemma url_field_body_str item st f s :
  item !! f = Some (JStr s) → is_ok (urlparse_netloc s) = true →
  is_ok (url_field_body item st f) = true.
Proof.
  intros E Hok. unfold url_field_body. destruct st as [domains patterns].
  rewrite E. by destruct (urlparse_netloc s).
Qed.

Lemma url_fields_returns item fields st :
  (∀ f s, f ∈ fields → item !! f = Some (JStr s) → is_ok (urlparse_netloc s) = true) →
  ∃ st', for_each (url_field_body item) st fields = Ok st'.
Proof.
  intros Hparse. apply for_each_returns. apply Forall_forall. intros f Hf st'.
  destruct (item !! f) as [[| | | |s| |]|] eqn:E;
    try (rewrite url_field_body_nonstr; [done|intros s'; by rewrite E]).
  by eapply url_field_body_str, Hparse.
Qed.

Lemma url_fields_skip item fields st :
  (∀ f v, f ∈ fields → item !! f = Some v → is_str v = false) →
  for_each (url_field_body item) st fields = Ok st.
Proof.
  revert st. induction fields as [|f fields IH]; intros st Hskip; [done|].
  cbn [for_each]. rewrite url_field_body_nonstr.
  - cbn [mbind result_bind]. apply IH. intros g v Hg. apply Hskip. by right.
  - intros s E. by specialize (Hskip f _ (list_elem_of_here _ _) E).
Qed.

Lemma url_body_returns st item : urls_parse item → is_ok (url_body st item) = true.
Proof.
  intros Hparse. unfold url_body.
  set (st1 := if has item "url" && _ then _ else st).
  set (st2 := match item !! "thread_url" with Some (JStr _) => _ | _ => st1 end).
  destruct (url_fields_returns item URL_FIELDS (domains st2, url_patterns st2) Hparse)
    as [[d p] ->]. done.
Qed.

Lemma url_body_skip st item : no_str_urls item → url_body st item = Ok st.
Proof.
  intros Hskip. unfold url_body.
  assert (∀ f, f ∈ URL_FIELDS → ∀ s, item !! f ≠ Some (JStr s)) as Hno.
  { intros f Hf s E. by specialize (Hskip f _ Hf E). }
  assert ((if has item "url" && negb (has item "thread_url" || has item "post_id")
           then match item !! "url" with
                | Some (JStr url) =>
                    {| page_urls := page_urls st ∪ {[url]};
                       thread_urls := thread_urls st;
                       all_urls := all_urls st ++ [url]; domains := domains st;
                       url_patterns := url_patterns st |}
                | _ => st
                end
           else st) = st) as ->.
  { destruct (has item "url" && _); [|done].
    destruct (item !! "url") as [[| | | |s| |]|] eqn:E; try done.
    by destruct (Hno "url" ltac:(repeat constructor) s). }
  destruct (item !! "thread_url") as [[| | | |s| |]|] eqn:E;
    try (rewrite url_fields_skip by done; by destruct st).
  by destruct (Hno "thread_url" ltac:(repeat constructor) s).
Qed.

Lemma analyze_urls_returns items (m : gmap string mval) :
  Forall urls_parse items → ∃ m', _analyze_urls items m = Ok m'.
Proof.
  intros Hparse. unfold _analyze_urls.
  destruct (for_each_returns url_body items) with (st := url_init) as [st ->];
    [|by eexists].
  eapply Forall_impl; [done|]. intros item Hitem st. by apply url_body_returns.
Qed.

Lemma analyze_urls_skip items (m : gmap string mval) :
  Forall no_str_urls items →
  _analyze_urls items m
  = Ok (<["unique_thread_urls" := VInt 0]> (<["unique_page_urls" := VInt 0]> m)).
Proof.
  intros Hskip. unfold _analyze_urls.
  assert (for_each url_body url_init items = Ok url_init) as ->.
  { generalize url_init. induction Hskip as [|item items Hitem _ IH]; intros st; [done|].
    cbn [for_each]. rewrite url_body_skip by done. apply IH. }
  done.
Qed.

Lemma analyze_threads_raises items (m : gmap string mval) :
  Exists bad_url items → _analyze_threads items m = Raise TypeError.
Proof.
  intros Hbad. unfold _analyze_threads.
  destruct (for_each_raises thread_body (λ e, e = TypeError) items) with (st := @nil string)
    as (e & -> & ->); [apply thread_body_raises| |done].
  eapply Exists_impl; [done|]. intros item Hitem st. by apply thread_body_bad_url.
Qed.

Lemma analyze_threads_returns items (m : gmap string mval) :
  Forall str_urls items →
  is_ok (mval_number (default (VInt 0) (m !! "total_items"))) = true →
  ∃ m', _analyze_threads items m = Ok m'.
Proof.
  intros Hstr Hnum. unfold _analyze_threads.
  destruct (for_each_returns thread_body items) with (st := @nil string) as [tids ->].
  - eapply Forall_impl; [done|]. intros item Hitem st. by apply thread_body_str_urls.
  - by apply thread_report_returns.
Qed.

Lemma analyze_items_returns items (m : gmap string mval) :
  Forall str_urls items → Forall urls_parse items →
  is_ok (mval_number (default (VInt 0) (m !! "total_items"))) = true →
  ∃ m', analyze_items items m = Ok m'.
Proof.
  intros Hstr Hparse Hnum. unfold analyze_items.
  destruct (analyze_urls_returns items (_analyze_text_content items m) Hparse)
    as [m1 E1]. rewrite E1. cbn [mbind result_bind].
  destruct (analyze_threads_returns items
              (_analyze_authors items (_analyze_identifiers items m1)) Hstr)
    as [m2 ->]; [|by eexists].
  rewrite authors_other, identifiers_other by notin.
  rewrite (urls_other _ _ _ _ E1) by notin.
  by rewrite text_content_other by notin.
Qed.

Lemma analyze_items_raises items (m : gmap string mval) :
  Exists bad_url items → ∃ e, analyze_items items m = Raise e.
Proof.
  intros Hbad. unfold analyze_items.
  destruct (_analyze_urls items (_analyze_text_content items m)) as [m1|e];
    [|by exists e].
  cbn [mbind result_bind]. rewrite analyze_threads_raises by done. by eexists.
Qed.

(** C10, amended.  (1) A record that has a [url] or [thread_url] key and
    whose probed URL value is not a string makes [_analyze_threads] raise
    [TypeError], and with it [calculate_all_metrics].  (2) A probed value
    that is [None] or a number makes [analyze_crawl_behavior] raise.  (3)
    [_analyze_urls] passes over values that are not strings: with no
    string under a URL field it returns, having counted nothing.  (4) When
    [url] and [thread_url] hold strings, the thread and the crawl analyzer
    return; [calculate_all_metrics] returns as well provided every value
    loaded is a JSON object and [urlparse] accepts every string a URL
    field holds. *)
Theorem non_string_urls_break_the_pipeline fs files (items : list JsonItem)
    (m : gmap string mval) :
  (Exists bad_url items → _analyze_threads items m = Raise TypeError) ∧
  (Exists bad_url (Runner.loaded fs files) →
   ∃ e, calculate_all_metrics fs files = Raise e) ∧
  (Exists scalar_url items → ∃ e, Enhanced.analyze_crawl_behavior items = Raise e) ∧
  (Forall no_str_urls items →
   _analyze_urls items m
   = Ok (<["unique_thread_urls" := VInt 0]> (<["unique_page_urls" := VInt 0]> m))) ∧
  (Forall str_urls items →
   (is_ok (mval_number (default (VInt 0) (m !! "total_items"))) = true →
    ∃ m', _analyze_threads items m = Ok m') ∧
   ∃ c, Enhanced.analyze_crawl_behavior items = Ok c) ∧
  (Forall (λ v, is_obj v = true) (Runner.records fs files) →
   Forall str_urls (Runner.loaded fs files) →
   Forall urls_parse (Runner.loaded fs files) →
   ∃ qm, calculate_all_metrics fs files = Ok qm).
Proof.
  split; [|split; [|split; [|split; [|split]]]].
  - apply analyze_threads_raises.
  - intros Hbad.
    destruct (objects_or_not (Runner.records fs files)) as [Hobj|Hex];
      [|by apply calculate_all_metrics_not_objects].
    destruct (calculate_all_metrics_objects fs files) as [n ->].
    { rewrite Hobj. apply Forall_fmap. by apply Forall_true. }
    destruct (Runner.loaded fs files) as [|item l]; [by inversion Hbad|].
    by apply analyze_items_raises.
  - intros Hbad. unfold Enhanced.analyze_crawl_behavior.
    destruct (for_each_raises Enhanced.crawl_body (λ _, True) items)
      with (st := (@nil (string * list JsonItem), (∅ : gset key))) as (e & -> & _);
      [done| |by exists e].
    eapply Exists_impl; [done|]. intros item Hitem st. by apply crawl_body_scalar_url.
  - apply analyze_urls_skip.
  - intros Hstr. split; [by apply analyze_threads_returns|].
    unfold Enhanced.analyze_crawl_behavior.
    destruct (for_each_returns Enhanced.crawl_body items)
      with (st := (@nil (string * list JsonItem), (∅ : gset key))) as [st ->];
      [|by eexists].
    eapply Forall_impl; [done|]. intros item Hitem st. by apply crawl_body_str_urls.
  - intros Hobj Hstr Hparse.
    destruct (calculate_all_metrics_objects fs files Hobj) as [n ->].
    destruct (Runner.loaded fs files) as [|item l]; [by eexists|].
    apply analyze_items_returns; [done..|].
    skip_inserts. by rewrite lookup_insert_eq.
Qed.

End totality.

Section totality_examples.
#[local] Existing Instance Sample.lib.
Import Quality.

Lemma loaded_number_url :
  Runner.loaded Sample.number_url_fs [Sample.posts_path] = [ {[ "url" := JInt 5 ]} ].
Proof. vm_compute. reflexivity. Qed.

Lemma loaded_thread_url :
  Runner.loaded Sample.thread_url_fs [Sample.posts_path]
  = [ {[ "url" := JStr "https://forum.example/threads/42/page-2" ]} ].
Proof. vm_compute. reflexivity. Qed.

Lemma loaded_bracket_url :
  Runner.loaded Sample.bracket_url_fs [Sample.posts_path]
  = [ {[ "url" := JStr "http://[" ]} ].
Proof. vm_compute. reflexivity. Qed.

(** A record that holds only [url], and a string under it. *)
Lemma str_urls_singleton s : str_urls {[ "url" := JStr s ]}.
Proof.
  intros f v Hf Hv. apply lookup_singleton_Some in Hv as [_ <-]. done.
Qed.

Lemma non_string_urls_break_the_pipeline_witness :
  (∃ e, calculate_all_metrics Sample.number_url_fs [Sample.posts_path] = Raise e) ∧
  (∃ e, Enhanced.analyze_crawl_behavior [ {[ "url" := JInt 5 ]} ] = Raise e) ∧
  (∃ qm, calculate_all_metrics Sample.thread_url_fs [Sample.posts_path] = Ok qm) ∧
  (∃ c, Enhanced.analyze_crawl_behavior
          [ {[ "url" := JStr "https://forum.example/threads/42/page-2" ]} ] = Ok c).
Proof.
  split; [|split; [|split]].
  - apply (proj1 (proj2 (non_string_urls_break_the_pipeline
             Sample.number_url_fs [Sample.posts_path] [] ∅))).
    rewrite loaded_number_url. constructor. split; vm_compute; reflexivity.
  - apply (proj1 (proj2 (proj2 (non_string_urls_break_the_pipeline
             ∅ [] [ {[ "url" := JInt 5 ]} ] ∅)))).
    constructor. vm_compute. exact I.
  - apply (proj2 (proj2 (proj2 (proj2 (proj2 (non_string_urls_break_the_pipeline
             Sample.thread_url_fs [Sample.posts_path] [] ∅)))))).
    + assert (Runner.records Sample.thread_url_fs [Sample.posts_path]
              = [ JObj {[ "url" := JStr "https://forum.example/threads/42/page-2" ]} ])
        as -> by (vm_compute; reflexivity).
      by repeat constructor.
    + rewrite loaded_thread_url. constructor; [apply str_urls_singleton|constructor].
    + rewrite loaded_thread_url. constructor; [|constructor].
      intros f s Hf Hv. apply lookup_singleton_Some in Hv as [_ [= <-]].
      vm_compute. reflexivity.
  - apply (proj1 (proj2 (proj2 (proj2 (proj2 (non_string_urls_break_the_pipeline
             ∅ [] [ {[ "url" := JStr "https://forum.example/threads/42/page-2" ]} ]
             ∅)))))).
    constructor; [apply str_urls_singleton|constructor].
Defined.

(** Against C10 as stated: the only URL-like value is a string, the
    thread and crawl analyzers accept it, and yet the pipeline raises,
    because [urlparse] refuses the text. *)
Lemma string_url_refused_by_urlparse :
  Runner.records Sample.bracket_url_fs [Sample.posts_path]
    = [ JObj {[ "url" := JStr "http://[" ]} ] ∧
  Runner.loaded Sample.bracket_url_fs [Sample.posts_path]
    = [ {[ "url" := JStr "http://[" ]} ] ∧
  Forall str_urls (Runner.loaded Sample.bracket_url_fs [Sample.posts_path]) ∧
  urlparse_netloc "http://[" = Raise ValueError ∧
  calculate_all_metrics Sample.bracket_url_fs [Sample.posts_path] = Raise ValueError.
Proof.
  split; [vm_compute; reflexivity|].
  split; [apply loaded_bracket_url|]. split; [|split; vm_compute; reflexivity].
  rewrite loaded_bracket_url. constructor; [apply str_urls_singleton|constructor].
Qed.

End totality_examples.

(** ** The collector between [start] and [stop] *)

Section collector_invariants.
Import Collector.

Lemma sample_start_time mc rd : _start_time (sample mc rd) = _start_time mc.
Proof. unfold sample. by repeat case_match. Qed.

Lemma samples_start_time mc rds : _start_time (foldl sample mc rds) = _start_time mc.
Proof.
  revert mc. induction rds as [|rd rds IH]; intros mc; simpl; [done|].
  by rewrite IH, sample_start_time.
Qed.

Lemma sample_cpu mc rd :
  _target_process mc ≠ None →
  _cpu_samples (sample mc rd) = _cpu_samples mc ++ option_list (recorded_cpu rd).
Proof.
  intros Ht. unfold sample, recorded_cpu.
  destruct (_target_process mc); [|done].
  destruct (rss rd); simpl; [|by rewrite app_nil_r].
  destruct (cpu rd) as [c|]; simpl; [|by rewrite app_nil_r].
  destruct (Qle_bool c 0); simpl; [by rewrite app_nil_r|done].
Qed.

Lemma samples_cpu mc rds :
  _target_process mc ≠ None →
  _cpu_samples (foldl sample mc rds) = _cpu_samples mc ++ omap recorded_cpu rds.
Proof.
  revert mc. induction rds as [|rd rds IH]; intros mc Ht; simpl.
  - by rewrite app_nil_r.
  - rewrite IH by (by rewrite sample_target). rewrite sample_cpu by done.
    rewrite <- app_assoc. f_equal. by destruct (recorded_cpu rd).
Qed.

Lemma recorded_cpu_positive rd c : recorded_cpu rd = Some c → (0 < c)%Q.
Proof.
  unfold recorded_cpu. destruct (rss rd); simpl; [|done].
  destruct (cpu rd) as [c'|]; simpl; [|done].
  destruct (Qle_bool c' 0) eqn:E; [done|]. intros [= <-].
  apply Qnot_le_lt. intros Hle. apply Qle_bool_iff in Hle. congruence.
Qed.

Lemma qsum_positive l : l ≠ [] → Forall (λ c, (0 < c)%Q) l → (0 < qsum l)%Q.
Proof.
  intros Hne Hall. destruct Hall as [|c l Hc Hall]; [done|]. clear Hne.
  simpl. induction Hall as [|c' l' Hc' Hall IH]; simpl.
  - lra.
  - lra.
Qed.

(** X1. [stop] averages exactly the CPU readings the samples recorded: the
    positive readings of the samples whose memory could be read.  The
    average is therefore zero when nothing was recorded and above zero
    otherwise. *)
Theorem avg_cpu_is_mean_of_positive_readings (mc : MetricsCollector)
    (rds : list reading) (t0 now : Q) (n : Z) (ok : bool) (ts : string) :
  _target_process mc ≠ None → _start_time mc = Some t0 → _cpu_samples mc = [] →
  ∃ r, stop (foldl sample mc rds) n ok now ts = Ok r ∧
    let cs := omap recorded_cpu rds in
    Forall (λ c, (0 < c)%Q) cs ∧
    (cs = [] → avg_cpu_percent r = 0%Q) ∧
    (cs ≠ [] →
     avg_cpu_percent r = (qsum cs / inject_Z (Z.of_nat (length cs)))%Q ∧
     (0 < avg_cpu_percent r)%Q).
Proof.
  intros Ht Hs Hc. unfold stop. rewrite samples_start_time, Hs.
  eexists; split; [done|]. simpl. rewrite samples_cpu, Hc by done. simpl.
  set (cs := omap recorded_cpu rds).
  assert (Hpos : Forall (λ c, (0 < c)%Q) cs).
  { apply Forall_forall. intros c Hin. apply list_elem_of_omap in Hin as (rd & _ & Hrd).
    by apply recorded_cpu_positive in Hrd. }
  split; [done|]. split.
  - by intros ->.
  - intros Hne. destruct cs as [|c cs'] eqn:E; [done|]. split; [done|].
    apply Qlt_shift_div_l.
    + unfold Qlt; simpl. lia.
    + rewrite Qmult_0_l. by apply qsum_positive.
Qed.

Lemma avg_cpu_is_mean_of_positive_readings_witness :
  ∃ r, stop (foldl sample Sample.attached_started Sample.readings) 2 true 12 "ts" = Ok r ∧
       avg_cpu_percent r = (qsum [25 # 2] / 1)%Q.
Proof.
  destruct (avg_cpu_is_mean_of_positive_readings Sample.attached_started Sample.readings
              10 12 2 true "ts") as (r & Hr & _ & _ & Havg); [done..|].
  exists r. split; [done|]. by destruct Havg as [-> _].
Defined.

End collector_invariants.
(** ** The supervisor's loop, continued *)

Section supervisor_bounds.
Context `{PyLib}.
Import Runner.

Lemma poll_loop_collector env timeout fuel :
  ∀ i mc o, poll_loop env timeout fuel i mc = Some o →
  (i < iterations o)%nat ∧
  collector o
  = foldl Collector.sample mc (readings env <$> seq i (iterations o - 1 - i)).
Proof.
  induction fuel as [|fuel IH]; intros i mc o; simpl; [done|].
  destruct (poll env i) as [code|].
  { intros [= <-]; simpl. split; [lia|]. by replace (i - 0 - i)%nat with 0%nat by lia. }
  destruct (negb _).
  { intros [= <-]; simpl. split; [lia|]. by replace (i - 0 - i)%nat with 0%nat by lia. }
  intros Ho. apply IH in Ho as [Hlt ->]. split; [lia|].
  replace (iterations o - 1 - i)%nat with (S (iterations o - 1 - S i)) by lia.
  done.
Qed.

(** X3. One sample is taken after each poll that finds the process running
    and within its time: the collector [_run_process] leaves behind is the
    attached one after [iterations - 1] samples, in order.  A process found
    exited at the first poll is never sampled. *)
Theorem one_sample_per_running_poll (env : process_env) (timeout : Z) (fuel : nat)
    (mc : Collector.MetricsCollector) (o : outcome) :
  _run_process env timeout fuel mc = Some (Ok o) →
  ∃ pid, launch env = Ok pid ∧
    (0 < iterations o)%nat ∧
    collector o
    = foldl Collector.sample
        (Collector.attach_to_process mc pid (attach_found env))
        (readings env <$> seq 0 (iterations o - 1)) ∧
    (is_Some (poll env 0) →
     collector o = Collector.attach_to_process mc pid (attach_found env)).
Proof.
  unfold _run_process. destruct (launch env) as [pid|e]; [|done].
  destruct (poll_loop _ _ _ _ _) as [o'|] eqn:E; [|done]. intros [= <-].
  exists pid. split; [done|].
  pose proof (poll_loop_collector _ _ _ _ _ _ E) as [Hlt Hc].
  split; [done|]. split.
  - rewrite Hc. by replace (iterations o' - 1 - 0)%nat with (iterations o' - 1)%nat by lia.
  - intros [code Hcode]. destruct fuel; [done|]. simpl in E. rewrite Hcode in E.
    by injection E as <-.
Qed.

Lemma one_sample_per_running_poll_witness :
  ∃ o, _run_process Sample.late_exit 1 5 Sample.started = Some (Ok o) ∧
       iterations o = 3%nat ∧
       collector o
       = foldl Collector.sample Sample.attached_started
           (Runner.readings Sample.late_exit <$> [0; 1]%nat).
Proof.
  eexists. split; [reflexivity|]. split; [reflexivity|].
  destruct (one_sample_per_running_poll Sample.late_exit 1 5 Sample.started _ eq_refl)
    as (pid & Hpid & _ & Hc & _).
  injection Hpid as <-. exact Hc.
Defined.

(** X4. The loop ends.  If every iteration lets the clock advance by the
    sampling interval at least, [_run_process] returns after at most
    [2 * timeout + 2] polls, whatever the process does. *)
Theorem supervisor_returns_within_bound (env : process_env) (timeout : Z) (fuel : nat)
    (mc : Collector.MetricsCollector) (pid : Z) :
  launch env = Ok pid →
  (∀ i, (inject_Z (Z.of_nat i) * RESOURCE_SAMPLE_INTERVAL_SECONDS
         <= clock env i - start_clock env)%Q) →
  (Z.to_nat (2 * timeout + 1) < fuel)%nat →
  ∃ o, _run_process env timeout fuel mc = Some (Ok o) ∧
       (iterations o ≤ S (Z.to_nat (2 * timeout + 1)))%nat.
Proof.
  intros Hl Hclock Hfuel. unfold _run_process. rewrite Hl.
  set (N := Z.to_nat (2 * timeout + 1)) in *.
  assert (Hout : ¬ within env timeout N).
  { unfold within. intros Hw. specialize (Hclock N).
    unfold RESOURCE_SAMPLE_INTERVAL_SECONDS in Hclock.
    assert (inject_Z timeout < inject_Z (Z.of_nat N) * (1 # 2))%Q; [|lra].
    unfold Qlt, Qmult, inject_Z; simpl. subst N. lia. }
  set (mc' := Collector.attach_to_process mc pid (attach_found env)).
  destruct (poll_loop_total env timeout fuel 0 mc' N) as [o Ho]; [lia|by right|].
  rewrite Ho. exists o. split; [done|].
  apply poll_loop_inv in Ho as (n & _ & Hit & Hrun & _). rewrite Hit.
  destruct (decide (n ≤ N)%nat); [lia|].
  destruct (Hrun N) as [_ Hw]; [lia|]. done.
Qed.

Lemma supervisor_returns_within_bound_witness :
  ∃ o, _run_process Sample.hangs 1 5 Sample.started = Some (Ok o) ∧
       (iterations o ≤ 4)%nat.
Proof.
  apply (supervisor_returns_within_bound Sample.hangs 1 5 Sample.started 4242).
  - reflexivity.
  - intros i. unfold Qle; simpl. lia.
  - simpl. lia.
Defined.

End supervisor_bounds.
